(** * Tangible Learning backend: admin authentication, credential storage,
      contact submission guard.

    A shallow embedding of the Express/Mongoose handlers of the repository
    and the properties stated about them.  Third-party packages
    (jsonwebtoken, bcryptjs, ms, the BSON ObjectId cast, express-validator,
    nodemailer) are not part of the repository: their primitives are taken
    through the [Deps] interface or as an oracle, and every assumption made
    about them is a named law.  The counting of express-rate-limit is modelled from
    section 4.3 of the specification. *)

From Stdlib Require Import ZArith Lia Ascii String List Bool.
From stdpp Require Import base option list strings countable numbers gmap sorting.
Import ListNotations.
Open Scope Z_scope.

(** ** JavaScript values used by the handlers

    A [string] is held as its UTF-8 bytes, one [ascii] each. *)

Module Js.

(** The error objects thrown by the libraries; handlers dispatch on [name]. *)
Record Error := { name : string; message : string }.

(** A computation that returns or throws (an [await]ed promise that is
    fulfilled or rejected). *)
Inductive Exc (A : Type) : Type :=
| Return (a : A)
| Throw (e : Error).
Arguments Return {A} a.
Arguments Throw {A} e.

Definition bind {A B} (m : Exc A) (k : A -> Exc B) : Exc B :=
  match m with
  | Return a => k a
  | Throw e => Throw e
  end.

(** JSON bodies passed to [res.json]; objects keep their key order. *)
#[local] Unset Elimination Schemes.
Inductive Json : Type :=
| JNull
| JBool (b : bool)
| JNum (n : Z)
| JStr (s : string)
| JArr (items : list Json)
| JObj (fields : list (string * Json)).
#[local] Set Elimination Schemes.

(** [JSON.stringify] drops a key whose value is [undefined]. *)
Definition opt_field (k : string) (v : option Json) : list (string * Json) :=
  match v with
  | Some j => [(k, j)]
  | None => []
  end.

(** [!s] for a string or [undefined]. *)
Definition falsy (v : option string) : bool :=
  match v with
  | None => true
  | Some s => bool_decide (s = EmptyString)
  end.

(** [a || b] on strings-or-undefined with a string default. *)
Definition or_default (v : option string) (d : string) : string :=
  match v with
  | Some s => if bool_decide (s = EmptyString) then d else s
  | None => d
  end.

(** [a || b] where both sides may be undefined. *)
Definition or_else (a b : option string) : option string :=
  if falsy a then b else a.

(** ASCII white space as matched by [\s]. *)
Definition is_space (c : ascii) : bool :=
  let n := nat_of_ascii c in
  (Nat.eqb n 32 || (Nat.leb 9 n && Nat.leb n 13))%bool.

Fixpoint trim_start (s : string) : string :=
  match s with
  | EmptyString => EmptyString
  | String c r => if is_space c then trim_start r else s
  end.

Fixpoint trim_end (s : string) : string :=
  match s with
  | EmptyString => EmptyString
  | String c r =>
      let r' := trim_end r in
      if (is_space c && bool_decide (r' = EmptyString))%bool
      then EmptyString else String c r'
  end.

(** [String.prototype.trim] (and validator's [trim()] sanitizer). *)
Definition trim (s : string) : string := trim_end (trim_start s).

Fixpoint drop (n : nat) (s : string) : string :=
  match n, s with
  | O, _ => s
  | S _, EmptyString => EmptyString
  | S m, String _ r => drop m r
  end.

(** [String.prototype.toLowerCase] on the ASCII letters. *)
Definition lower (c : ascii) : ascii :=
  let n := nat_of_ascii c in
  if (Nat.leb 65 n && Nat.leb n 90)%bool then ascii_of_nat (n + 32) else c.

Fixpoint to_lower (s : string) : string :=
  match s with
  | EmptyString => EmptyString
  | String c r => String (lower c) (to_lower r)
  end.

(** [s.length]: the UTF-16 code units of the string.  A byte that starts a
    character counts one; a character outside the basic plane (a four-byte
    sequence) counts two, the second with the byte that follows its first;
    any other continuation byte counts nothing. *)
Fixpoint units_from (astral : bool) (s : string) : nat :=
  match s with
  | EmptyString => 0%nat
  | String c r =>
      let n := nat_of_ascii c in
      if Nat.ltb n 128 then S (units_from false r)
      else if Nat.ltb n 192
           then ((if astral then 1 else 0) + units_from false r)%nat
      else if Nat.ltb n 240 then S (units_from false r)
      else S (units_from true r)
  end.

Definition code_units (s : string) : nat := units_from false s.


(** [s.startsWith(pat)] *)
Fixpoint starts_with (pat s : string) : bool :=
  match pat with
  | EmptyString => true
  | String a pat' =>
      match s with
      | EmptyString => false
      | String b s' => Ascii.eqb a b && starts_with pat' s'
      end
  end.

(** [s.replace(pat, rep)] with a string pattern: the first occurrence only. *)
Fixpoint replace (pat rep s : string) : string :=
  if starts_with pat s then rep +:+ drop (String.length pat) s
  else match s with
       | EmptyString => EmptyString
       | String c r => String c (replace pat rep r)
       end.

End Js.

Export Js.

#[export] Instance exc_ret : MRet Exc := @Return.
#[export] Instance exc_bind : MBind Exc := fun A B k m => Js.bind m k.

(** ** HTTP responses *)

Record Response := { status : Z; body : Json }.

Definition json (st : Z) (b : Json) : Response := {| status := st; body := b |}.

(** [{ success, message }], the shape of every error reply. *)
Definition reply_message (ok : bool) (msg : string) : Json :=
  JObj [("success"%string, JBool ok); ("message"%string, JStr msg)].

(** ** Process environment *)

Record Env := {
  JWT_SECRET : option string;
  JWT_EXPIRES_IN : option string;
  SMTP_USER : option string;
  ADMIN_EMAIL : option string
}.

(** [process.env.JWT_SECRET || 'your-secret-key'] *)
Definition jwt_secret (env : Env) : string :=
  or_default (JWT_SECRET env) "your-secret-key".

(** [process.env.JWT_EXPIRES_IN || '24h'] *)
Definition jwt_expires_in (env : Env) : string :=
  or_default (JWT_EXPIRES_IN env) "24h".

(** ** Session tokens *)

(** The payload of a token as the login handler issues it: the three fields
    it embeds, the issue time and the expiry, both in seconds. *)
Record Claims := {
  c_id : string;
  c_username : string;
  c_role : string;
  c_iat : Z;
  c_exp : Z
}.

(** A well-formed compact token, read symbolically: its claims and the key
    under which its HS256 tag was computed.  The tag verifies against a
    secret exactly when that secret is the signing key. *)
Record Jws := { jws_claims : Claims; jws_key : string }.

(** A bcrypt salt: the cost factor and the random part. *)
Record Salt := { rounds : nat; salt_random : string }.

(** ** Third-party primitives *)

Class Deps := {
  (** bcryptjs *)
  bcrypt_hash : string -> Salt -> string;
  bcrypt_compare : string -> string -> bool;
  (** jsonwebtoken: compact serialisation and its parser *)
  jwt_encode : Jws -> string;
  jwt_decode : string -> option Jws;
  (** ms: a time span such as ['24h'] in milliseconds *)
  ms : string -> option Z;
  (** the ObjectId cast applied to [_id] conditions; [None] is a CastError *)
  castObjectId : string -> option string;
  (** express-validator: the entry of [errors.array()] for a field of the
      body, from its name, the value that was checked and the message.  The
      keys of the entry differ between the releases of the package. *)
  field_error : string -> string -> string -> Json
}.

(** What the handlers rely on: a password verifies against its own hash
    (nothing is assumed of any other candidate: bcrypt reads 72 bytes of the
    password only), a hash is long enough for the [minlength] of the schema
    (it has 60 characters), and a serialised token parses back to itself. *)
Class DepsLaws (D : Deps) : Prop := {
  bcrypt_verifies :
    forall p s, bcrypt_compare p (bcrypt_hash p s) = true;
  bcrypt_hash_long :
    forall p s, (6 <= Js.code_units (bcrypt_hash p s))%nat;
  jwt_decode_encode :
    forall j, jwt_decode (jwt_encode j) = Some j
}.

(** ** Administrator records (models/Admin.js) *)

(** A stored administrator document; [timestamps: true] adds the last two. *)
Record Admin := {
  a_id : string;
  a_username : string;
  a_email : string;
  a_password : string;
  a_fullName : option string;
  a_role : string;
  a_isActive : bool;
  a_lastLogin : option Z;
  a_createdAt : Z;
  a_updatedAt : Z
}.

(** ** The world a request runs in *)

(** [mailOptions]; [m_html] keeps the text the HTML template wraps. *)
Record Mail := {
  m_from : string;
  m_to : string;
  m_subject : string;
  m_replyTo : option string;
  m_html : string
}.

(** What [transporter.sendMail(mailOptions)] settles with: [None] when the
    mail is handed over, the error it rejects with otherwise. *)
Definition SendMail := Mail -> option Error.

(** The nodemailer module as utils/emailService.js reaches it: what it holds
    under the name [createTransporter], the function the code calls.
    [None]: it holds no function there; [Some sendMail]: it holds a factory,
    whose transporters send with [sendMail]. *)
Definition Mailer := option SendMail.


(** Modelled from the spec: models/Contact.js is not among the sources; the
    status of a contact is one of new, read, replied, resolved (section 3). *)
Inductive Status := st_new | st_read | st_replied | st_resolved.

(** Modelled from the spec: models/Contact.js is not among the sources.  The
    fields are the attributes section 3 lists for a contact submission. *)
Record Contact := {
  ct_id : string;
  ct_name : string;
  ct_email : string;
  ct_phone : option string;
  ct_subject : option string;
  ct_message : string;
  ct_company : option string;
  ct_source : string;
  ct_status : Status;
  ct_ipAddress : option string;
  ct_userAgent : option string;
  ct_createdAt : Z
}.

(** The two collections, the console and the mail that left the process.
    A handler runs at one reading [now] of the clock, in milliseconds. *)
Record World := {
  admins : list Admin;
  contacts : list Contact;
  console : list string;
  outbox : list Mail
}.

Definition log (line : string) (w : World) : World :=
  {| admins := admins w; contacts := contacts w;
     console := console w ++ [line]; outbox := outbox w |}.

Definition with_admins (l : list Admin) (w : World) : World :=
  {| admins := l; contacts := contacts w;
     console := console w; outbox := outbox w |}.

Definition with_contacts (l : list Contact) (w : World) : World :=
  {| admins := admins w; contacts := l;
     console := console w; outbox := outbox w |}.

Definition deliver (m : Mail) (w : World) : World :=
  {| admins := admins w; contacts := contacts w;
     console := console w; outbox := outbox w ++ [m] |}.

(** [arr.join(sep)] *)
Fixpoint join (sep : string) (l : list string) : string :=
  match l with
  | [] => EmptyString
  | [x] => x
  | x :: r => x +:+ sep +:+ join sep r
  end.

(** ** Regular expressions of the schema

    The patterns of models/Admin.js use classes, sequence, groups with [?],
    [*], [+] and [{2,3}], anchored at both ends; [test] decides whether the
    whole string matches, by derivatives. *)

Module Re.

(** The character classes the patterns use. *)
Inductive cls : Type :=
| Word             (** [\w], [[a-zA-Z0-9_]] *)
| DotDash          (** [[.-]] *)
| Only (c : ascii) (** one character *).

Definition in_range (lo hi : nat) (c : ascii) : bool :=
  (Nat.leb lo (nat_of_ascii c) && Nat.leb (nat_of_ascii c) hi)%bool.

Definition accepts (k : cls) (c : ascii) : bool :=
  match k with
  | Word => (in_range 97 122 c || in_range 65 90 c || in_range 48 57 c
             || Ascii.eqb c "_")%bool
  | DotDash => (Ascii.eqb c "." || Ascii.eqb c "-")%bool
  | Only x => Ascii.eqb c x
  end.

Definition cls_eqb (a b : cls) : bool :=
  match a, b with
  | Word, Word | DotDash, DotDash => true
  | Only x, Only y => Ascii.eqb x y
  | _, _ => false
  end.

Inductive t : Type :=
| Void
| Eps
| Class (k : cls)
| Cat (a b : t)
| Alt (a b : t)
| Star (a : t).

Fixpoint eqb (a b : t) : bool :=
  match a, b with
  | Void, Void | Eps, Eps => true
  | Class k, Class l => cls_eqb k l
  | Cat a1 a2, Cat b1 b2 | Alt a1 a2, Alt b1 b2 => eqb a1 b1 && eqb a2 b2
  | Star a1, Star b1 => eqb a1 b1
  | _, _ => false
  end.

Fixpoint nullable (r : t) : bool :=
  match r with
  | Void => false
  | Eps => true
  | Class _ => false
  | Cat a b => nullable a && nullable b
  | Alt a b => nullable a || nullable b
  | Star _ => true
  end.

(** Sequence and choice that drop the branches that cannot match, and the
    branches of a choice that are already there. *)
Definition cat (a b : t) : t :=
  match a, b with
  | Void, _ => Void
  | _, Void => Void
  | Eps, _ => b
  | _, _ => Cat a b
  end.

Fixpoint among (x r : t) : bool :=
  match r with
  | Alt a b => eqb x a || among x b
  | _ => eqb x r
  end.

Definition alt1 (x b : t) : t :=
  match x, b with
  | Void, _ => b
  | _, Void => x
  | _, _ => if among x b then b else Alt x b
  end.

Fixpoint alt (a b : t) : t :=
  match a with
  | Alt a1 a2 => alt1 a1 (alt a2 b)
  | _ => alt1 a b
  end.

Fixpoint deriv (c : ascii) (r : t) : t :=
  match r with
  | Void => Void
  | Eps => Void
  | Class k => if accepts k c then Eps else Void
  | Cat a b =>
      alt (cat (deriv c a) b) (if nullable a then deriv c b else Void)
  | Alt a b => alt (deriv c a) (deriv c b)
  | Star a => cat (deriv c a) (Star a)
  end.

(** [/^r$/.test(s)] *)
Fixpoint test (r : t) (s : string) : bool :=
  match s with
  | EmptyString => nullable r
  | String c s' => test (deriv c r) s'
  end.

(** [r+], [r?], [r{2,3}] *)
Definition plus (r : t) : t := Cat r (Star r).
Definition opt (r : t) : t := Alt Eps r.
Definition two_or_three (r : t) : t := Cat r (Cat r (opt r)).

(** [/^[a-zA-Z0-9_]+$/] *)
Definition username : t := plus (Class Word).

(** [\w+([.-]?\w+)*] *)
Definition dotted_words : t :=
  Cat (plus (Class Word))
      (Star (Cat (opt (Class DotDash)) (plus (Class Word)))).

(** [/^\w+([.-]?\w+)*@\w+([.-]?\w+)*(\.\w{2,3})+$/] *)
Definition email : t :=
  Cat dotted_words
      (Cat (Class (Only "@"))
           (Cat dotted_words
                (plus (Cat (Class (Only ".")) (two_or_three (Class Word)))))).

End Re.

(** ** Schema validation and unique indexes of the admin model *)

(** What fails on the [username] path, if anything (the first validator that
    fails reports); [minlength] and [maxlength] compare [v.length]. *)
Definition username_errors (v : string) : list string :=
  if bool_decide (v = EmptyString) then ["Username is required"%string]
  else if (Js.code_units v <? 3)%nat
       then ["Username must be at least 3 characters"%string]
  else if (20 <? Js.code_units v)%nat
       then ["Username cannot exceed 20 characters"%string]
  else if negb (Re.test Re.username v)
       then ["Username can only contain letters, numbers, and underscores"%string]
  else [].

Definition email_errors (v : string) : list string :=
  if bool_decide (v = EmptyString) then ["Email is required"%string]
  else if negb (Re.test Re.email v) then ["Please enter a valid email"%string]
  else [].

(** The [password] path is validated when it has a value; without one it is
    required on a new document and left alone on a fetched one that did not
    select it. *)
Definition password_errors (isNew : bool) (v : option string) : list string :=
  match v with
  | None => if isNew then ["Password is required"%string] else []
  | Some p =>
      if bool_decide (p = EmptyString) then ["Password is required"%string]
      else if (Js.code_units p <? 6)%nat
           then ["Password must be at least 6 characters"%string]
      else []
  end.

Definition fullName_errors (v : option string) : list string :=
  match v with
  | Some n =>
      if (100 <? Js.code_units n)%nat
      then ["Full name cannot exceed 100 characters"%string] else []
  | None => []
  end.

(** [enum] has no message of its own in the schema; this is Mongoose's. *)
Definition role_errors (v : string) : list string :=
  if (bool_decide (v = "admin"%string) || bool_decide (v = "super_admin"%string))%bool
  then []
  else [("`" +:+ v +:+ "` is not a valid enum value for path `role`.")%string].

Definition ValidationError (errors : list (string * string)) : Error :=
  {| name := "ValidationError";
     message := "Admin validation failed: "
                +:+ join ", " ((fun e => e.1 +:+ ": " +:+ e.2) <$> errors) |}.

(** The server's answer to a write that breaks a unique index (code 11000);
    [message] keeps the words the server's message starts with, which goes
    on to name the collection, the index and the key. *)
Definition DuplicateKey : Error :=
  {| name := "MongoServerError"; message := "E11000 duplicate key error" |}.

(** [error.code] of what a save rejects with: only the server's
    duplicate-key error carries one. *)
Definition error_code (e : Error) : option Z :=
  if bool_decide (name e = "MongoServerError"%string) then Some 11000 else None.

Section Handlers.

Context {D : Deps}.

(** ** jsonwebtoken *)

Definition JsonWebTokenError (msg : string) : Error :=
  {| name := "JsonWebTokenError"; message := msg |}.

Definition TokenExpiredError : Error :=
  {| name := "TokenExpiredError"; message := "jwt expired" |}.

(** [jwt.sign(payload, secret, { expiresIn })] at clock [now] (milliseconds):
    [iat] is the clock in seconds, [exp] is [iat] plus the span. *)
Definition jwt_sign (id username role secret expiresIn : string) (now : Z)
  : Exc string :=
  match ms expiresIn with
  | None =>
      Throw {| name := "Error";
               message := "expiresIn should be a number of seconds or string representing a timespan" |}
  | Some span =>
      let iat := now / 1000 in
      Return (jwt_encode
                {| jws_claims := {| c_id := id; c_username := username;
                                    c_role := role; c_iat := iat;
                                    c_exp := iat + span / 1000 |};
                   jws_key := secret |})
  end.

(** [jwt.verify(token, secret)] at clock [now]: parse, check the tag, then
    the expiry ([clock >= exp] is expired). *)
Definition jwt_verify (token secret : string) (now : Z) : Exc Claims :=
  match jwt_decode token with
  | None => Throw (JsonWebTokenError "jwt malformed")
  | Some j =>
      if negb (bool_decide (jws_key j = secret))
      then Throw (JsonWebTokenError "invalid signature")
      else if c_exp (jws_claims j) <=? now / 1000
           then Throw TokenExpiredError
           else Return (jws_claims j)
  end.

(** ** Mongoose queries on the admin collection *)

Definition CastError : Error :=
  {| name := "CastError"; message := "Cast to ObjectId failed" |}.

(** [findById] with an ObjectId in hand. *)
Definition Admin_find_oid (l : list Admin) (oid : string) : option Admin :=
  List.find (fun a => bool_decide (a_id a = oid)) l.

(** [Admin.findById(id)]: the id is cast first; a value that is no ObjectId
    rejects with a CastError (the case middleware/errorHandler.js names). *)
Definition Admin_findById (l : list Admin) (id : string) : Exc (option Admin) :=
  match castObjectId id with
  | None => Throw CastError
  | Some oid => Return (Admin_find_oid l oid)
  end.

(** ** middleware/auth.js *)

(** [req.admin] *)
Record ReqAdmin := {
  ra_id : string;
  ra_username : string;
  ra_email : string;
  ra_role : string
}.

Inductive AuthResult :=
| Next (who : ReqAdmin)
| Respond (r : Response).

(** The [try] block of [authenticateAdmin]. *)
Definition authenticateAdmin_try (env : Env) (now : Z)
    (authorization : option string) (w : World) : Exc AuthResult :=
  let token := Js.replace "Bearer " "" <$> authorization in
  match token with
  | None =>
      Return (Respond (json 401 (reply_message false "Access denied. No token provided.")))
  | Some tok =>
      if falsy token
      then Return (Respond (json 401 (reply_message false "Access denied. No token provided.")))
      else
        decoded ← jwt_verify tok (jwt_secret env) now;
        admin ← Admin_findById (admins w) (c_id decoded);
        match admin with
        | None =>
            Return (Respond (json 401 (reply_message false "Access denied. Invalid token or inactive account.")))
        | Some a =>
            if negb (a_isActive a)
            then Return (Respond (json 401 (reply_message false "Access denied. Invalid token or inactive account.")))
            else Return (Next {| ra_id := a_id a; ra_username := a_username a;
                                 ra_email := a_email a; ra_role := a_role a |})
        end
  end.

(** [authenticateAdmin]: the [try] block and its [catch]. *)
Definition authenticateAdmin (env : Env) (now : Z)
    (authorization : option string) (w : World) : AuthResult * World :=
  match authenticateAdmin_try env now authorization w with
  | Return r => (r, w)
  | Throw e =>
      if bool_decide (name e = "JsonWebTokenError"%string)
      then (Respond (json 401 (reply_message false "Access denied. Invalid token.")), w)
      else if bool_decide (name e = "TokenExpiredError"%string)
      then (Respond (json 401 (reply_message false "Access denied. Token expired.")), w)
      else (Respond (json 500 (reply_message false "Authentication failed")),
            log "Authentication error:" w)
  end.

(** ** Mongoose documents of the admin model *)

Inductive AdminPath :=
| p_username | p_email | p_password | p_fullName | p_role | p_isActive
| p_lastLogin.

#[export] Instance AdminPath_eq_dec : EqDecision AdminPath.
Proof. solve_decision. Defined.

(** A hydrated document: the field values, whether it was built with [new],
    and the paths marked modified.  [d_password] is [None] while the field is
    not selected ([select: false]) or not set. *)
Record AdminDoc := {
  d_id : string;
  d_username : string;
  d_email : string;
  d_password : option string;
  d_fullName : option string;
  d_role : string;
  d_isActive : bool;
  d_lastLogin : option Z;
  d_createdAt : option Z;
  d_isNew : bool;
  d_modified : list AdminPath
}.

(** A query result; [selectPassword] is [.select('+password')]. *)
Definition hydrate (selectPassword : bool) (a : Admin) : AdminDoc :=
  {| d_id := a_id a; d_username := a_username a; d_email := a_email a;
     d_password := if selectPassword then Some (a_password a) else None;
     d_fullName := a_fullName a; d_role := a_role a;
     d_isActive := a_isActive a; d_lastLogin := a_lastLogin a;
     d_createdAt := Some (a_createdAt a);
     d_isNew := false; d_modified := [] |}.

(** [new Admin({ username, email, password, fullName, role })] with the
    schema setters ([trim], [lowercase]) and defaults ([role: 'admin'],
    [isActive: true]); every path given is marked modified. *)
Definition Admin_new (id username email password : string)
    (fullName role : option string) : AdminDoc :=
  {| d_id := id; d_username := Js.trim username;
     d_email := Js.to_lower (Js.trim email);
     d_password := Some password; d_fullName := Js.trim <$> fullName;
     d_role := default "admin"%string role;
     d_isActive := true; d_lastLogin := None; d_createdAt := None;
     d_isNew := true;
     d_modified := [p_username; p_email; p_password]
                   ++ match fullName with Some _ => [p_fullName] | None => [] end
                   ++ match role with Some _ => [p_role] | None => [] end |}.

(** [doc.isModified(path)] *)
Definition isModified (d : AdminDoc) (p : AdminPath) : bool :=
  bool_decide (p ∈ d_modified d).

(** Whether an assignment marks its path (Mongoose's [$__shouldModify]):
    always on a new document or an already modified path, otherwise only
    when the value differs from the current one; assigning a path the value
    it already has leaves it unmarked. *)
Definition shouldModify {A} `{EqDecision A} (d : AdminDoc) (p : AdminPath)
    (prior val : A) : bool :=
  d_isNew d || isModified d p || negb (bool_decide (prior = val)).

Definition markModified (p : AdminPath) (d : list AdminPath) : list AdminPath :=
  if bool_decide (p ∈ d) then d else d ++ [p].

(** [doc.password = v] *)
Definition set_password (v : string) (d : AdminDoc) : AdminDoc :=
  {| d_id := d_id d; d_username := d_username d; d_email := d_email d;
     d_password := Some v;
     d_fullName := d_fullName d; d_role := d_role d;
     d_isActive := d_isActive d; d_lastLogin := d_lastLogin d;
     d_createdAt := d_createdAt d; d_isNew := d_isNew d;
     d_modified := if shouldModify d p_password (d_password d) (Some v)
                   then markModified p_password (d_modified d)
                   else d_modified d |}.

(** [doc.lastLogin = t] *)
Definition set_lastLogin (t : Z) (d : AdminDoc) : AdminDoc :=
  {| d_id := d_id d; d_username := d_username d; d_email := d_email d;
     d_password := d_password d;
     d_fullName := d_fullName d; d_role := d_role d;
     d_isActive := d_isActive d; d_lastLogin := Some t;
     d_createdAt := d_createdAt d; d_isNew := d_isNew d;
     d_modified := if shouldModify d p_lastLogin (d_lastLogin d) (Some t)
                   then markModified p_lastLogin (d_modified d)
                   else d_modified d |}.

(** [bcrypt.genSalt(rounds)]; [rnd] is what the random source yields for
    this call. *)
Definition genSalt (n : nat) (rnd : string) : Salt :=
  {| rounds := n; salt_random := rnd |}.

Definition IllegalArguments : Error :=
  {| name := "Error"; message := "Illegal arguments" |}.

(** [adminSchema.pre('save')]: hash the password only when it is modified. *)
Definition pre_save (rnd : string) (d : AdminDoc) : Exc AdminDoc :=
  if negb (isModified d p_password) then Return d
  else
    let salt := genSalt 12 rnd in
    match d_password d with
    | None => Throw IllegalArguments
    | Some pw => Return (set_password (bcrypt_hash pw salt) d)
    end.

(** The update a save sends for an existing document: the modified paths
    only, and [updatedAt]. *)
Definition apply_modified (now : Z) (d : AdminDoc) (a : Admin) : Admin :=
  {| a_id := a_id a;
     a_username := if isModified d p_username then d_username d else a_username a;
     a_email := if isModified d p_email then d_email d else a_email a;
     a_password := if isModified d p_password
                   then default (a_password a) (d_password d)
                   else a_password a;
     a_fullName := if isModified d p_fullName then d_fullName d else a_fullName a;
     a_role := if isModified d p_role then d_role d else a_role a;
     a_isActive := if isModified d p_isActive then d_isActive d else a_isActive a;
     a_lastLogin := if isModified d p_lastLogin then d_lastLogin d else a_lastLogin a;
     a_createdAt := a_createdAt a;
     a_updatedAt := now |}.

(** The record a save inserts for a new document. *)
Definition to_record (now : Z) (d : AdminDoc) : Admin :=
  {| a_id := d_id d; a_username := d_username d; a_email := d_email d;
     a_password := default EmptyString (d_password d);
     a_fullName := d_fullName d; a_role := d_role d;
     a_isActive := d_isActive d; a_lastLogin := d_lastLogin d;
     a_createdAt := now; a_updatedAt := now |}.

(** [updateOne({ _id }, ...)]: the first record with that id. *)
Fixpoint update_admin (id : string) (f : Admin -> Admin) (l : list Admin)
  : list Admin :=
  match l with
  | [] => []
  | a :: r => if bool_decide (a_id a = id) then f a :: r
              else a :: update_admin id f r
  end.

Definition saved (now : Z) (d : AdminDoc) : AdminDoc :=
  {| d_id := d_id d; d_username := d_username d; d_email := d_email d;
     d_password := d_password d;
     d_fullName := d_fullName d; d_role := d_role d;
     d_isActive := d_isActive d; d_lastLogin := d_lastLogin d;
     d_createdAt := if d_isNew d then Some now else d_createdAt d;
     d_isNew := false; d_modified := [] |}.

(** [err.errors] of the ValidationError a save raises: the failing paths,
    each with its message; empty when the document is valid. *)
Definition schema_errors (d : AdminDoc) : list (string * string) :=
  (pair "username"%string <$> username_errors (d_username d))
  ++ (pair "email"%string <$> email_errors (d_email d))
  ++ (pair "password"%string <$> password_errors (d_isNew d) (d_password d))
  ++ (pair "fullName"%string <$> fullName_errors (d_fullName d))
  ++ (pair "role"%string <$> role_errors (d_role d)).

(** The unique indexes ([_id], [username], [email]) an insert would break. *)
Definition index_taken (d : AdminDoc) (l : list Admin) : bool :=
  existsb (fun a => bool_decide (a_id a = d_id d)
                    || bool_decide (a_username a = d_username d)
                    || bool_decide (a_email a = d_email d)) l.

(** [doc.save()].  The schema validators run first, on the values as
    assigned, and reject with a ValidationError; then the pre-save hook;
    then a new document is inserted, unless it would break a unique index,
    and an existing one has its modified paths written; with nothing
    modified no write is sent.  A save that fails writes nothing.  The
    handlers never assign [username] or [email] of a fetched document, so
    an update cannot break an index. *)
Definition Admin_save (now : Z) (rnd : string) (d : AdminDoc) (w : World)
  : Exc AdminDoc * World :=
  match schema_errors d with
  | (_ :: _) as errors => (Throw (ValidationError errors), w)
  | [] =>
      match pre_save rnd d with
      | Throw e => (Throw e, w)
      | Return d1 =>
          if d_isNew d1
          then if index_taken d1 (admins w)
               then (Throw DuplicateKey, w)
               else (Return (saved now d1),
                     with_admins (admins w ++ [to_record now d1]) w)
          else match d_modified d1 with
               | [] => (Return (saved now d1), w)
               | _ :: _ =>
                   (Return (saved now d1),
                    with_admins (update_admin (d_id d1) (apply_modified now d1)
                                   (admins w)) w)
               end
      end
  end.

(** [adminSchema.methods.comparePassword] *)
Definition comparePassword (d : AdminDoc) (candidatePassword : string)
  : Exc bool :=
  match d_password d with
  | None => Throw IllegalArguments
  | Some h => Return (bcrypt_compare candidatePassword h)
  end.

(** [adminSchema.methods.updateLastLogin] *)
Definition updateLastLogin (now : Z) (rnd : string) (d : AdminDoc) (w : World)
  : Exc AdminDoc * World :=
  Admin_save now rnd (set_lastLogin now d) w.

(** [Admin.findOne({ $or: [{ username }, { email: username }], isActive: true })].
    Mongoose casts a condition with the setters of its path: the identifier
    is trimmed where it is compared with [username], trimmed and lowercased
    where it is compared with [email]. *)
Definition Admin_findOne_login (l : list Admin) (username : string)
  : option Admin :=
  List.find (fun a => (bool_decide (a_username a = Js.trim username)
                       || bool_decide (a_email a = Js.to_lower (Js.trim username)))
                      && a_isActive a) l.

(** ** routes/authRoutes.js: POST /api/auth/login *)

(** One entry of [errors.array()], for a field of the body. *)
Definition validation_error (param value msg : string) : Json :=
  field_error param value msg.

Definition validation_failed (errors : list Json) : Response :=
  json 400 (JObj [("success"%string, JBool false);
                  ("message"%string, JStr "Validation failed");
                  ("errors"%string, JArr errors)]).

(** [body('username').trim().notEmpty()], [body('password').notEmpty()],
    for a body that carries both fields, as strings.  [username] is the
    value after the [trim()] sanitizer. *)
Definition login_errors (username password : string) : list Json :=
  (if bool_decide (username = EmptyString)
   then [validation_error "username" username "Username is required"] else [])
  ++ (if bool_decide (password = EmptyString)
      then [validation_error "password" password "Password is required"] else []).

Definition invalid_credentials : Response :=
  json 401 (reply_message false "Invalid credentials").

(** A date in a JSON body, kept as its epoch milliseconds. *)
Definition JDate (t : Z) : Json := JNum t.

Definition login_ok (token : string) (d : AdminDoc) : Response :=
  json 200
    (JObj [("success"%string, JBool true);
           ("message"%string, JStr "Login successful");
           ("token"%string, JStr token);
           ("admin"%string,
            JObj ([("id"%string, JStr (d_id d));
                   ("username"%string, JStr (d_username d));
                   ("email"%string, JStr (d_email d))]
                  ++ opt_field "fullName" (JStr <$> d_fullName d)
                  ++ [("role"%string, JStr (d_role d))]
                  ++ opt_field "lastLogin" (JDate <$> d_lastLogin d)))]).

(** The [try] block of the handler, after the validation check. *)
Definition login_try (env : Env) (now : Z) (rnd : string)
    (username password : string) (w : World) : Exc Response * World :=
  match Admin_findOne_login (admins w) username with
  | None => (Return invalid_credentials, w)
  | Some a =>
      let admin := hydrate true a in
      match comparePassword admin password with
      | Throw e => (Throw e, w)
      | Return false => (Return invalid_credentials, w)
      | Return true =>
          match updateLastLogin now rnd admin w with
          | (Throw e, w1) => (Throw e, w1)
          | (Return admin1, w1) =>
              match jwt_sign (d_id admin1) (d_username admin1) (d_role admin1)
                             (jwt_secret env) (jwt_expires_in env) now with
              | Throw e => (Throw e, w1)
              | Return token => (Return (login_ok token admin1), w1)
              end
          end
      end
  end.

(** POST /api/auth/login, for the body [{ username, password }]. *)
Definition login (env : Env) (now : Z) (rnd : string)
    (username password : string) (w : World) : Response * World :=
  let username := trim username in
  match login_errors username password with
  | (_ :: _) as errors => (validation_failed errors, w)
  | [] =>
      match login_try env now rnd username password w with
      | (Return r, w1) => (r, w1)
      | (Throw _, w1) =>
          (json 500 (reply_message false "Login failed"), log "Login error:" w1)
      end
  end.

(** ** The single-file server: POST /api/auth/login *)




(** ** routes/authRoutes.js: PUT /api/auth/change-password *)

(** [body('currentPassword').notEmpty()],
    [body('newPassword').isLength({ min: 6 })] *)
Definition change_password_errors (currentPassword newPassword : string)
  : list Json :=
  (if bool_decide (currentPassword = EmptyString)
   then [validation_error "currentPassword" currentPassword
           "Current password is required"]
   else [])
  ++ (if (String.length newPassword <? 6)%nat
      then [validation_error "newPassword" newPassword
              "New password must be at least 6 characters"]
      else []).

(** The [try] block of the handler, after the validation check;
    [req.admin.id] is the ObjectId the middleware stored. *)
Definition change_password_try (now : Z) (rnd : string) (who : ReqAdmin)
    (currentPassword newPassword : string) (w : World)
  : Exc Response * World :=
  match Admin_find_oid (admins w) (ra_id who) with
  | None => (Return (json 404 (reply_message false "Admin not found")), w)
  | Some a =>
      let admin := hydrate true a in
      match comparePassword admin currentPassword with
      | Throw e => (Throw e, w)
      | Return false =>
          (Return (json 400 (reply_message false "Current password is incorrect")), w)
      | Return true =>
          match Admin_save now rnd (set_password newPassword admin) w with
          | (Throw e, w1) => (Throw e, w1)
          | (Return _, w1) =>
              (Return (json 200 (reply_message true "Password changed successfully")), w1)
          end
      end
  end.

Definition change_password_handler (now : Z) (rnd : string) (who : ReqAdmin)
    (currentPassword newPassword : string) (w : World) : Response * World :=
  match change_password_errors currentPassword newPassword with
  | (_ :: _) as errors => (validation_failed errors, w)
  | [] =>
      match change_password_try now rnd who currentPassword newPassword w with
      | (Return r, w1) => (r, w1)
      | (Throw _, w1) =>
          (json 500 (reply_message false "Failed to change password"),
           log "Change password error:" w1)
      end
  end.

(** The route: [authenticateAdmin], then the validators and the handler. *)
Definition change_password (env : Env) (now : Z) (rnd : string)
    (authorization : option string) (currentPassword newPassword : string)
    (w : World) : Response * World :=
  match authenticateAdmin env now authorization w with
  | (Respond r, w1) => (r, w1)
  | (Next who, w1) =>
      change_password_handler now rnd who currentPassword newPassword w1
  end.

(** ** Queries and saves on the contact collection *)

Definition Contact_find_oid (l : list Contact) (oid : string) : option Contact :=
  List.find (fun c => bool_decide (ct_id c = oid)) l.

(** [Contact.findById(req.params.id)] *)
Definition Contact_findById (l : list Contact) (id : string)
  : Exc (option Contact) :=
  match castObjectId id with
  | None => Throw CastError
  | Some oid => Return (Contact_find_oid l oid)
  end.

Definition set_status (s : Status) (c : Contact) : Contact :=
  {| ct_id := ct_id c; ct_name := ct_name c; ct_email := ct_email c;
     ct_phone := ct_phone c; ct_subject := ct_subject c;
     ct_message := ct_message c; ct_company := ct_company c;
     ct_source := ct_source c; ct_status := s;
     ct_ipAddress := ct_ipAddress c; ct_userAgent := ct_userAgent c;
     ct_createdAt := ct_createdAt c |}.

Fixpoint update_contact (id : string) (f : Contact -> Contact)
    (l : list Contact) : list Contact :=
  match l with
  | [] => []
  | c :: r => if bool_decide (ct_id c = id) then f c :: r
              else c :: update_contact id f r
  end.

(** [contact.save()] after [contact.status = s] on a fetched document: the
    status path is written to the stored record. *)
Definition Contact_save_status (c : Contact) (w : World) : World :=
  with_contacts (update_contact (ct_id c) (set_status (ct_status c)) (contacts w)) w.

Definition status_string (s : Status) : string :=
  match s with
  | st_new => "new"
  | st_read => "read"
  | st_replied => "replied"
  | st_resolved => "resolved"
  end.

Definition contact_json (c : Contact) : Json :=
  JObj ([("_id"%string, JStr (ct_id c));
         ("name"%string, JStr (ct_name c));
         ("email"%string, JStr (ct_email c))]
        ++ opt_field "phone" (JStr <$> ct_phone c)
        ++ opt_field "subject" (JStr <$> ct_subject c)
        ++ [("message"%string, JStr (ct_message c))]
        ++ opt_field "company" (JStr <$> ct_company c)
        ++ [("source"%string, JStr (ct_source c));
            ("status"%string, JStr (status_string (ct_status c)))]
        ++ opt_field "ipAddress" (JStr <$> ct_ipAddress c)
        ++ opt_field "userAgent" (JStr <$> ct_userAgent c)
        ++ [("createdAt"%string, JDate (ct_createdAt c))]).

(** ** routes/adminRoutes.js: GET /api/admin/contacts/:id *)

Definition get_contact_try (id : string) (w : World) : Exc Response * World :=
  match Contact_findById (contacts w) id with
  | Throw e => (Throw e, w)
  | Return None => (Return (json 404 (reply_message false "Contact not found")), w)
  | Return (Some contact) =>
      let '(contact, w) :=
        match ct_status contact with
        | st_new =>
            let contact := set_status st_read contact in
            (contact, Contact_save_status contact w)
        | _ => (contact, w)
        end in
      (Return (json 200 (JObj [("success"%string, JBool true);
                               ("data"%string, contact_json contact)])), w)
  end.

Definition get_contact_handler (id : string) (w : World) : Response * World :=
  match get_contact_try id w with
  | (Return r, w1) => (r, w1)
  | (Throw _, w1) =>
      (json 500 (reply_message false "Failed to fetch contact"),
       log "Get contact error:" w1)
  end.

(** The route behind [router.use(authenticateAdmin)]. *)
Definition get_contact (env : Env) (now : Z) (authorization : option string)
    (id : string) (w : World) : Response * World :=
  match authenticateAdmin env now authorization w with
  | (Respond r, w1) => (r, w1)
  | (Next _, w1) => get_contact_handler id w1
  end.

(** ** utils/emailService.js *)

(** The TypeError of a call to what is no function. *)
Definition not_a_function (what : string) : Error :=
  {| name := "TypeError"; message := what +:+ " is not a function" |}.

(** [createTransporter()] *)
Definition createTransporter (mailer : Mailer) : Exc SendMail :=
  match mailer with
  | None => Throw (not_a_function "nodemailer.createTransporter")
  | Some sendMail => Return sendMail
  end.

(** The promise of an [async] function as its caller gets it back: settled
    already, or waiting for [transporter.sendMail(mailOptions)]. *)
Inductive Pending :=
| Settled (r : Exc unit)
| Sending (sendMail : SendMail) (mailOptions : Mail).

Definition notification_mail (env : Env) (contact : Contact) : Mail :=
  {| m_from := default EmptyString (SMTP_USER env);
     m_to := default EmptyString (ADMIN_EMAIL env);
     m_subject := "New Contact Form Submission - "
                  +:+ or_default (ct_subject contact) "No Subject";
     m_replyTo := None;
     m_html := ct_message contact |}.

(** [sendNotificationEmail(contact)] up to its first [await]: what has run,
    and been written to the console, when the call returns. *)
Definition sendNotificationEmail_call (env : Env) (mailer : Mailer)
    (contact : Contact) (w : World) : Pending * World :=
  if (falsy (SMTP_USER env) || falsy (ADMIN_EMAIL env))%bool
  then (Settled (Return tt),
        log "Email configuration not found, skipping notification" w)
  else
    match createTransporter mailer with
    | Throw error =>
        (Settled (Throw error), log "Failed to send notification email:" w)
    | Return sendMail => (Sending sendMail (notification_mail env contact), w)
    end.

(** The rest of it, once [sendMail] has settled. *)
Definition sendNotificationEmail_rest (p : Pending) (w : World)
  : Exc unit * World :=
  match p with
  | Settled r => (r, w)
  | Sending sendMail mailOptions =>
      match sendMail mailOptions with
      | None => (Return tt, log "Notification email sent successfully"
                                 (deliver mailOptions w))
      | Some error => (Throw error, log "Failed to send notification email:" w)
      end
  end.

(** [sendNotificationEmail(contact)] run to its end: the promise it returns,
    with what it writes to the console and hands to the transport. *)
Definition sendNotificationEmail (env : Env) (mailer : Mailer) (contact : Contact)
    (w : World) : Exc unit * World :=
  let call := sendNotificationEmail_call env mailer contact w in
  sendNotificationEmail_rest (fst call) (snd call).


(** ** routes/contactRoutes.js: POST /api/contact *)

(** [req.body] after the sanitizers of the validation chain. *)
Record ContactBody := {
  b_name : string;
  b_email : string;
  b_phone : option string;
  b_subject : option string;
  b_message : string;
  b_company : option string
}.

(** What a handler leaves behind: the response, the world when the response
    is written (with what the calls it did not await have done before they
    returned), and the world once those promises have settled. *)
Record Outcome := {
  response : Response;
  at_response : World;
  settled : World
}.

Definition answered (r : Response) (w : World) : Outcome :=
  {| response := r; at_response := w; settled := w |}.

(** [p.catch(error => console.error(line, error))] on a promise nobody
    awaits: the rest of it runs after the handler has answered, and a
    rejection, also one it came back with, ends in the console then. *)
Definition catch_log (p : World -> Exc unit * World) (line : string)
    (w : World) : World :=
  match p w with
  | (Return _, w1) => w1
  | (Throw _, w1) => log line w1
  end.

(** [Contact.findOne({ email, message, createdAt: { $gte: since } })] *)
Definition Contact_findOne_recent (l : list Contact) (email message : string)
    (since : Z) : option Contact :=
  List.find (fun c => bool_decide (ct_email c = email)
                      && bool_decide (ct_message c = message)
                      && (since <=? ct_createdAt c)) l.

(** Modelled from the spec: models/Contact.js is not among the sources.  A
    new submission starts in status new and its creation timestamp is the
    time of the save (sections 3 and 4.3). *)
Definition Contact_new (id : string) (b : ContactBody)
    (ipAddress userAgent : option string) (now : Z) : Contact :=
  {| ct_id := id; ct_name := b_name b; ct_email := b_email b;
     ct_phone := b_phone b; ct_subject := b_subject b;
     ct_message := b_message b; ct_company := b_company b;
     ct_source := "website"; ct_status := st_new;
     ct_ipAddress := ipAddress; ct_userAgent := userAgent;
     ct_createdAt := now |}.

Definition duplicate_submission : Response :=
  json 429 (reply_message false
    "Duplicate submission detected. Please wait before submitting again.").

Definition contact_created (c : Contact) : Response :=
  json 201
    (JObj [("success"%string, JBool true);
           ("message"%string,
            JStr "Thank you for your message! We will get back to you soon.");
           ("data"%string,
            JObj [("id"%string, JStr (ct_id c));
                  ("submittedAt"%string, JDate (ct_createdAt c))])]).

(** The handler.  [errors] is [validationResult(req)], [b] the sanitized
    body, [ip] and [remoteAddress] are [req.ip] and
    [req.connection.remoteAddress], [fresh] the ObjectId generated for the
    new document. *)
Definition post_contact (env : Env) (mailer : Mailer) (now : Z) (fresh : string)
    (errors : list Json) (b : ContactBody)
    (ip remoteAddress userAgent : option string) (w : World) : Outcome :=
  match errors with
  | _ :: _ => answered (validation_failed errors) w
  | [] =>
      let fiveMinutesAgo := now - 5 * 60 * 1000 in
      match Contact_findOne_recent (contacts w) (b_email b) (b_message b)
                                   fiveMinutesAgo with
      | Some _ => answered duplicate_submission w
      | None =>
          let ipAddress := or_else ip remoteAddress in
          let contact := Contact_new fresh b ipAddress userAgent now in
          let w1 := with_contacts (contacts w ++ [contact]) w in
          let call := sendNotificationEmail_call env mailer contact w1 in
          {| response := contact_created contact;
             at_response := snd call;
             settled := catch_log (sendNotificationEmail_rest (fst call))
                                  "Failed to send notification email:" (snd call) |}
      end
  end.

(** ** routes/adminRoutes.js: POST /api/admin/contacts/:id/reply *)





End Handlers.

(** ** server.js: the two rate limiters and the mounting order *)

Record RateLimit := { windowMs : Z; max : nat; rl_message : string }.

(** General rate limit: 100 requests per 15 minutes per IP. *)
Definition limiter : RateLimit :=
  {| windowMs := 15 * 60 * 1000; max := 100;
     rl_message := "Too many requests from this IP, please try again later." |}.

(** Contact form: 5 submissions per hour per IP. *)
Definition contactLimiter : RateLimit :=
  {| windowMs := 60 * 60 * 1000; max := 5;
     rl_message := "Too many contact form submissions, please try again later." |}.

(** The limiter's store: per key, the hits counted in the running window and
    the time at which that window ends. *)
Abbreviation Hits := (gmap string (nat * Z)).

(** Modelled from the spec: the counting done by express-rate-limit is not
    among the sources.  Section 4.3 describes a fixed-size counting window
    per IP that is reset once it has elapsed, not a sliding log: a hit on a
    key without a running window opens one of [windowMs] and counts 1, a hit
    inside the running window adds 1. *)
Definition hit (cfg : RateLimit) (key : string) (now : Z) (h : Hits)
  : nat * Hits :=
  match h !! key with
  | Some (n, resetTime) =>
      if now <? resetTime
      then (S n, <[key := (S n, resetTime)]> h)
      else (1%nat, <[key := (1%nat, now + windowMs cfg)]> h)
  | None => (1%nat, <[key := (1%nat, now + windowMs cfg)]> h)
  end.

(** Modelled from the spec: the middleware [rateLimit(cfg)] is not among the
    sources.  A request is rejected with the 429-equivalent and the
    configured message when the hits counted for its IP exceed [max]
    (section 4.3). *)
Definition rateLimit (cfg : RateLimit) (key : string) (now : Z) (h : Hits)
  : option Response * Hits :=
  let '(totalHits, h1) := hit cfg key now h in
  if (max cfg <? totalHits)%nat
  then (Some (json 429 (JStr (rl_message cfg))), h1)
  else (None, h1).

(** The stores of the two limiters. *)
Record Limits := { api_hits : Hits; contact_hits : Hits }.

(** [app.use(mount, ...)]: the mount path is a prefix of the request path,
    segment by segment. *)
Definition mounted (mount path : list string) : bool :=
  bool_decide (mount `prefix_of` path).

(** [app.use('/api/', limiter)] and, further down,
    [app.use('/api/contact', contactLimiter, contactRoutes)]: the response of
    the first limiter that rejects, if any. *)
Definition app_limits (ip : string) (path : list string) (now : Z) (s : Limits)
  : option Response * Limits :=
  let '(r1, h1) :=
    if mounted ["api"%string] path
    then rateLimit limiter ip now (api_hits s)
    else (None, api_hits s) in
  match r1 with
  | Some r => (Some r, {| api_hits := h1; contact_hits := contact_hits s |})
  | None =>
      let '(r2, h2) :=
        if mounted ["api"%string; "contact"%string] path
        then rateLimit contactLimiter ip now (contact_hits s)
        else (None, contact_hits s) in
      (r2, {| api_hits := h1; contact_hits := h2 |})
  end.

(** One limiter fed a sequence of requests [(ip, time)]: which ones pass. *)
Fixpoint run_limiter (cfg : RateLimit) (tr : list (string * Z)) (h : Hits)
  : list bool :=
  match tr with
  | [] => []
  | (ip, now) :: rest =>
      let '(r, h1) := rateLimit cfg ip now h in
      bool_decide (r = None) :: run_limiter cfg rest h1
  end.

(** The requests of [ip] in [tr] that passed, with their times. *)
Fixpoint passed_of (ip : string) (tr : list (string * Z)) (oks : list bool)
  : list Z :=
  match tr, oks with
  | (k, t) :: tr', ok :: oks' =>
      if (bool_decide (k = ip) && ok)%bool
      then t :: passed_of ip tr' oks'
      else passed_of ip tr' oks'
  | _, _ => []
  end.

(** How many of the times fall in [[from, from + len)]. *)
Definition count_within (from len : Z) (ts : list Z) : nat :=
  length (filter (fun t => from <= t < from + len) ts).

(** POST /api/contact as the application serves it: both limiters first,
    then the handler. *)
Definition app_post_contact (env : Env) (mailer : Mailer) (now : Z)
    (fresh : string) (errors : list Json) (b : ContactBody)
    (ip : string) (userAgent : option string) (s : Limits) (w : World)
  : Outcome * Limits :=
  match app_limits ip ["api"%string; "contact"%string] now s with
  | (Some r, s1) => (answered r w, s1)
  | (None, s1) =>
      (post_contact env mailer now fresh errors b (Some ip) None userAgent w, s1)
  end.

(** ** Vocabulary of the properties *)

Section Vocabulary.

Context {D : Deps}.

(** The claims of a token that parses and whose tag verifies against
    [secret]. *)
Definition well_signed (token secret : string) : option Claims :=
  match jwt_decode token with
  | Some j => if bool_decide (jws_key j = secret) then Some (jws_claims j) else None
  | None => None
  end.

(** [req.admin] as the middleware fills it from a stored record. *)
Definition req_admin (a : Admin) : ReqAdmin :=
  {| ra_id := a_id a; ra_username := a_username a;
     ra_email := a_email a; ra_role := a_role a |}.

(** The session a request carries: a bearer token that is well signed, not
    yet expired, and whose subject is a stored, active administrator. *)
Definition valid_session (env : Env) (now : Z) (authorization : option string)
    (w : World) (a : Admin) : Prop :=
  exists h c oid,
    authorization = Some h /\
    Js.replace "Bearer " "" h <> EmptyString /\
    well_signed (Js.replace "Bearer " "" h) (jwt_secret env) = Some c /\
    now / 1000 < c_exp c /\
    castObjectId (c_id c) = Some oid /\
    Admin_find_oid (admins w) oid = Some a /\
    a_isActive a = true.

(** A well signed, unexpired token whose subject id is no ObjectId. *)
Definition uncastable_subject (env : Env) (now : Z)
    (authorization : option string) : Prop :=
  exists h c,
    authorization = Some h /\
    Js.replace "Bearer " "" h <> EmptyString /\
    well_signed (Js.replace "Bearer " "" h) (jwt_secret env) = Some c /\
    now / 1000 < c_exp c /\
    castObjectId (c_id c) = None.

(** The identifier [u] designates the record [a]: [a] carries it as username
    or email, and no other record does (unique indexes). *)
Definition designates (l : list Admin) (u : string) (a : Admin) : Prop :=
  a ∈ l /\ (a_username a = u \/ a_email a = u) /\
  forall b, b ∈ l -> (a_username b = u \/ a_email b = u) -> b = a.

(** The record [a] answers to the login identifier [u]: its username is the
    trimmed identifier, or its email the trimmed, lowercased identifier (the
    schema stores usernames trimmed and emails trimmed and in lower case,
    and a query is cast alike). *)
Definition answers_to (u : string) (a : Admin) : Prop :=
  a_username a = Js.trim u \/ a_email a = Js.to_lower (Js.trim u).

(** [a] is the active account the identifier [u] names, and the only one. *)
Definition identifies (l : list Admin) (u : string) (a : Admin) : Prop :=
  a ∈ l /\ a_isActive a = true /\ answers_to u a /\
  forall b, b ∈ l -> a_isActive b = true -> answers_to u b -> b = a.




(** A stored record the schema accepts. *)
Definition schema_valid (a : Admin) : Prop :=
  schema_errors (hydrate true a) = [].

(** A stored password is the output of bcrypt at cost 12. *)
Definition is_hash (h : string) : Prop :=
  exists pw rnd, h = bcrypt_hash pw (genSalt 12 rnd).

Definition hashed_at_rest (w : World) : Prop :=
  forall a, a ∈ admins w -> is_hash (a_password a).

(** The documents a handler can hold: built with [new], or fetched from the
    collection, and then assigned to. *)
Inductive doc_of (w : World) : AdminDoc -> Prop :=
| doc_new id username email password fullName role :
    doc_of w (Admin_new id username email password fullName role)
| doc_fetched sel a :
    a ∈ admins w -> doc_of w (hydrate sel a)
| doc_set_password v d :
    doc_of w d -> doc_of w (set_password v d)
| doc_set_lastLogin t d :
    doc_of w d -> doc_of w (set_lastLogin t d).

End Vocabulary.

(** [c'] is [c] with another status: every other field is the same. *)
Definition same_but_status (c c' : Contact) : Prop :=
  ct_id c' = ct_id c /\ ct_name c' = ct_name c /\ ct_email c' = ct_email c /\
  ct_phone c' = ct_phone c /\ ct_subject c' = ct_subject c /\
  ct_message c' = ct_message c /\ ct_company c' = ct_company c /\
  ct_source c' = ct_source c /\ ct_ipAddress c' = ct_ipAddress c /\
  ct_userAgent c' = ct_userAgent c /\ ct_createdAt c' = ct_createdAt c.

(** A stored submission that makes [b] a duplicate at time [now]. *)
Definition recent_duplicate (l : list Contact) (b : ContactBody) (now : Z)
  : Prop :=
  exists c, c ∈ l /\ ct_email c = b_email b /\ ct_message c = b_message b /\
            now - 5 * 60 * 1000 <= ct_createdAt c.

(** The limiter has no running window for [ip] at time [t]. *)
Definition window_closed (h : Hits) (ip : string) (t : Z) : Prop :=
  match h !! ip with
  | Some (_, resetTime) => resetTime <= t
  | None => True
  end.

(** How many requests of [tr] come from [ip]. *)
Definition requests_of (ip : string) (tr : list (string * Z)) : nat :=
  length (filter (fun r => r.1 = ip) tr).

(** ** An ideal instance of the dependencies

    Used to run the handlers on concrete requests: hashes and tokens are
    injective encodings of their inputs, so the instance satisfies
    [DepsLaws]. *)

Module Ideal.

Fixpoint pos_to_bits (p : positive) : string :=
  match p with
  | xH => EmptyString
  | xO q => String "0"%char (pos_to_bits q)
  | xI q => String "1"%char (pos_to_bits q)
  end.

Fixpoint bits_to_pos (s : string) : option positive :=
  match s with
  | EmptyString => Some xH
  | String c r =>
      if Ascii.eqb c "0"%char then xO <$> bits_to_pos r
      else if Ascii.eqb c "1"%char then xI <$> bits_to_pos r
      else None
  end.

Definition pack {A} `{Countable A} (x : A) : string := pos_to_bits (encode x).

Definition unpack {A} `{Countable A} (s : string) : option A :=
  bits_to_pos s ≫= decode.

Definition hash (p : string) (s : Salt) : string :=
  "$2a$b$" +:+ pack (rounds s, salt_random s, p).

Definition compare (q h : string) : bool :=
  match unpack (A := nat * string * string) (Js.drop 6 h) with
  | Some (_, _, p) => starts_with "$2a$b$" h && bool_decide (q = p)
  | None => false
  end.

(** The entry of express-validator 7. *)
Definition entry (param value msg : string) : Json :=
  JObj [("type"%string, JStr "field"); ("value"%string, JStr value);
        ("msg"%string, JStr msg); ("path"%string, JStr param);
        ("location"%string, JStr "body")].

Definition jws_tuple (j : Jws) : string * string * string * Z * Z * string :=
  let c := jws_claims j in
  (c_id c, c_username c, c_role c, c_iat c, c_exp c, jws_key j).

Definition tuple_jws (t : string * string * string * Z * Z * string) : Jws :=
  let '(id, username, role, iat, exp, key) := t in
  {| jws_claims := {| c_id := id; c_username := username; c_role := role;
                      c_iat := iat; c_exp := exp |};
     jws_key := key |}.

Definition encode_jws (j : Jws) : string := "ey" +:+ pack (jws_tuple j).

Definition decode_jws (s : string) : option Jws :=
  if starts_with "ey" s then tuple_jws <$> unpack (Js.drop 2 s) else None.

Definition span (s : string) : option Z :=
  if bool_decide (s = "24h"%string) then Some (24 * 60 * 60 * 1000)
  else if bool_decide (s = "1h"%string) then Some (60 * 60 * 1000)
  else None.

Definition is_hex (c : ascii) : bool :=
  let n := nat_of_ascii (Js.lower c) in
  ((Nat.leb 48 n && Nat.leb n 57) || (Nat.leb 97 n && Nat.leb n 102))%bool.

Fixpoint all_hex (s : string) : bool :=
  match s with
  | EmptyString => true
  | String c r => is_hex c && all_hex r
  end.

(** The 24-digit hexadecimal form of an ObjectId, in lower case. *)
Definition cast (s : string) : option string :=
  if (Nat.eqb (String.length s) 24 && all_hex s)%bool
  then Some (Js.to_lower s) else None.

Definition deps : Deps :=
  {| bcrypt_hash := hash; bcrypt_compare := compare;
     jwt_encode := encode_jws; jwt_decode := decode_jws;
     ms := span; castObjectId := cast; field_error := entry |}.

End Ideal.

(** ** Sample data *)

Module Sample.

Definition env : Env :=
  {| JWT_SECRET := None; JWT_EXPIRES_IN := None;
     SMTP_USER := None; ADMIN_EMAIL := None |}.

Definition mail_env : Env :=
  {| JWT_SECRET := None; JWT_EXPIRES_IN := None;
     SMTP_USER := Some "mailer@tangiblelearning.in"%string;
     ADMIN_EMAIL := Some "naveenp@tangiblelearning.in"%string |}.

Definition now : Z := 1700000000000.

Definition stored_hash : string := Ideal.hash "admin123456" (genSalt 12 "r0").

(** The account scripts/setup.js seeds. *)
Definition superadmin : Admin :=
  {| a_id := "64b7f3a2c1d4e5f6a7b8c9d0"; a_username := "superadmin";
     a_email := "naveenp@tangiblelearning.in";
     a_password := stored_hash;
     a_fullName := Some "Naveen Tripathi"%string; a_role := "super_admin";
     a_isActive := true; a_lastLogin := None;
     a_createdAt := 1699000000000; a_updatedAt := 1699000000000 |}.

Definition inquiry : Contact :=
  {| ct_id := "64b7f3a2c1d4e5f6a7b8c9d1"; ct_name := "Asha Rao";
     ct_email := "asha@example.com"; ct_phone := None;
     ct_subject := Some "Workshops"%string;
     ct_message := "Do you run workshops for schools?";
     ct_company := None; ct_source := "website"; ct_status := st_new;
     ct_ipAddress := Some "203.0.113.7"%string; ct_userAgent := None;
     ct_createdAt := 1699999900000 |}.

Definition world : World :=
  {| admins := [superadmin]; contacts := [inquiry];
     console := []; outbox := [] |}.

Definition who : ReqAdmin :=
  {| ra_id := a_id superadmin; ra_username := a_username superadmin;
     ra_email := a_email superadmin; ra_role := a_role superadmin |}.

Definition token_for (id : string) (exp : Z) (key : string) : string :=
  Ideal.encode_jws
    {| jws_claims := {| c_id := id; c_username := "superadmin";
                        c_role := "super_admin"; c_iat := 1700000000;
                        c_exp := exp |};
       jws_key := key |}.

(** Signed with the fallback secret, not expired, subject [abc]. *)
Definition odd_subject : string := token_for "abc" 1700086400 "your-secret-key".

Definition expired : string :=
  token_for "64b7f3a2c1d4e5f6a7b8c9d0" 1699990000 "your-secret-key".

Definition forged : string :=
  token_for "64b7f3a2c1d4e5f6a7b8c9d0" 1700086400 "guess".

(** A session of the seeded account, valid at [now]. *)
Definition session : string :=
  token_for "64b7f3a2c1d4e5f6a7b8c9d0" 1700086400 "your-secret-key".

Definition submission : ContactBody :=
  {| b_name := "Asha Rao"; b_email := "asha@example.com"; b_phone := None;
     b_subject := Some "Workshops"%string;
     b_message := "Do you run workshops for schools?"; b_company := None |}.

(** A module with the factory the code calls, whose transport refuses. *)
Definition smtp_down : Mailer :=
  Some (fun _ => Some {| name := "Error"; message := "connect ECONNREFUSED" |}).


(** One IP: a request at 0:00, four at 0:59, five at 1:01. *)
Definition burst : list (string * Z) :=
  [("203.0.113.7"%string, 0)]
  ++ replicate 4 ("203.0.113.7"%string, 3540000)
  ++ replicate 5 ("203.0.113.7"%string, 3660000).

End Sample.

(** * Further handlers *)

(** Whether a JSON object has the key [k]. *)
Definition has_field (k : string) (j : Json) : bool :=
  match j with
  | JObj fields => existsb (fun kv => bool_decide (kv.1 = k)) fields
  | _ => false
  end.

(** The value under the key [k] of a JSON object, the first if repeated. *)
Definition field (k : string) (j : Json) : option Json :=
  match j with
  | JObj fields => snd <$> List.find (fun kv => bool_decide (kv.1 = k)) fields
  | _ => None
  end.

(** ** middleware/errorHandler.js *)

(** The error handed to the handler, with the properties it reads:
    [e_errors] holds the messages of [Object.values(err.errors)] when
    [err.errors] is defined. *)
Record AppError := {
  e_name : string;
  e_message : option string;
  e_code : option Z;
  e_statusCode : option Z;
  e_errors : option (list string);
  e_stack : option string
}.

(** The local [error] object: its [message] and [statusCode]. *)
Record ErrorView := { v_message : option string; v_statusCode : option Z }.

(** [n || 500] on a number or undefined. *)
Definition status_or_500 (n : option Z) : Z :=
  match n with
  | Some k => if k =? 0 then 500 else k
  | None => 500
  end.

(** [errorHandler(err, req, res, next)]; [node_env] is
    [process.env.NODE_ENV].  The rules are applied in the order of the
    source, each overwriting [error]; reading the messages of a
    ValidationError without [errors] throws. *)
Definition errorHandler (node_env : option string) (err : AppError) (w : World)
  : Exc Response * World :=
  let w := log "console.error(err)" w in
  let error := {| v_message := e_message err; v_statusCode := e_statusCode err |} in
  let error :=
    if bool_decide (e_name err = "CastError"%string)
    then {| v_message := Some "Resource not found"%string; v_statusCode := Some 404 |}
    else error in
  let error :=
    if bool_decide (e_code err = Some 11000)
    then {| v_message := Some "Duplicate field value entered"%string;
            v_statusCode := Some 400 |}
    else error in
  let error :=
    if bool_decide (e_name err = "ValidationError"%string)
    then match e_errors err with
         | Some msgs =>
             Return {| v_message := Some (join ", " msgs); v_statusCode := Some 400 |}
         | None =>
             Throw {| name := "TypeError";
                      message := "Cannot convert undefined or null to object" |}
         end
    else Return error in
  match error with
  | Throw e => (Throw e, w)
  | Return error =>
      let error :=
        if bool_decide (e_name err = "JsonWebTokenError"%string)
        then {| v_message := Some "Invalid token"%string; v_statusCode := Some 401 |}
        else error in
      let error :=
        if bool_decide (e_name err = "TokenExpiredError"%string)
        then {| v_message := Some "Token expired"%string; v_statusCode := Some 401 |}
        else error in
      (Return (json (status_or_500 (v_statusCode error))
                 (JObj ([("success"%string, JBool false);
                         ("message"%string,
                          JStr (or_default (v_message error) "Server Error"))]
                        ++ (if bool_decide (node_env = Some "development"%string)
                            then opt_field "stack" (JStr <$> e_stack err)
                            else [])))),
       w)
  end.

(** ** routes/contactRoutes.js: GET /api/contact/stats *)

(** [Contact.countDocuments({ createdAt: { $gte: since } })] *)
Definition count_since (since : Z) (l : list Contact) : nat :=
  length (List.filter (fun c => since <=? ct_createdAt c) l).

Definition stats_response (totalContacts todayContacts : nat) : Response :=
  json 200
    (JObj [("success"%string, JBool true);
           ("data"%string,
            JObj [("totalSubmissions"%string, JNum (Z.of_nat totalContacts));
                  ("todaySubmissions"%string, JNum (Z.of_nat todayContacts))])]).

(** The handler; [midnight] is [new Date().setHours(0, 0, 0, 0)], the start
    of the current day in the server's time zone.  Its [catch] answers a
    failing store, which the model does not have. *)
Definition contact_stats (midnight : Z) (w : World) : Response * World :=
  let totalContacts := length (contacts w) in
  let todayContacts := count_since midnight (contacts w) in
  (stats_response totalContacts todayContacts, w).

Section FurtherHandlers.

Context {D : Deps}.

(** ** routes/contactRoutes.js: POST /api/contact/verify *)

Definition verify_try (contactId : option string) (w : World) : Exc Response :=
  if falsy contactId
  then Return (json 400 (reply_message false "Contact ID is required"))
  else
    contact ← Contact_findById (contacts w) (default EmptyString contactId);
    match contact with
    | None => Return (json 404 (reply_message false "Contact submission not found"))
    | Some c =>
        Return (json 200
                  (JObj [("success"%string, JBool true);
                         ("data"%string,
                          JObj [("id"%string, JStr (ct_id c));
                                ("status"%string, JStr (status_string (ct_status c)));
                                ("submittedAt"%string, JDate (ct_createdAt c))])]))
    end.

(** The handler, for the body [{ contactId }]. *)
Definition verify_contact (contactId : option string) (w : World)
  : Response * World :=
  match verify_try contactId w with
  | Return r => (r, w)
  | Throw _ =>
      (json 500 (reply_message false "Failed to verify contact submission"),
       log "Contact verification error:" w)
  end.

(** ** routes/adminRoutes.js: DELETE /api/admin/contacts/:id *)

(** [deleteOne({ _id })]: the first record with that id goes. *)
Fixpoint remove_contact (id : string) (l : list Contact) : list Contact :=
  match l with
  | [] => []
  | c :: r => if bool_decide (ct_id c = id) then r else c :: remove_contact id r
  end.

(** [Contact.findByIdAndDelete(req.params.id)] *)
Definition Contact_findByIdAndDelete (id : string) (w : World)
  : Exc (option Contact) * World :=
  match castObjectId id with
  | None => (Throw CastError, w)
  | Some oid =>
      match Contact_find_oid (contacts w) oid with
      | None => (Return None, w)
      | Some c => (Return (Some c), with_contacts (remove_contact oid (contacts w)) w)
      end
  end.

Definition delete_contact_handler (id : string) (w : World) : Response * World :=
  match Contact_findByIdAndDelete id w with
  | (Return None, w1) => (json 404 (reply_message false "Contact not found"), w1)
  | (Return (Some _), w1) =>
      (json 200 (reply_message true "Contact deleted successfully"), w1)
  | (Throw _, w1) =>
      (json 500 (reply_message false "Failed to delete contact"),
       log "Delete contact error:" w1)
  end.

(** The route behind [router.use(authenticateAdmin)]. *)
Definition delete_contact (env : Env) (now : Z) (authorization : option string)
    (id : string) (w : World) : Response * World :=
  match authenticateAdmin env now authorization w with
  | (Respond r, w1) => (r, w1)
  | (Next _, w1) => delete_contact_handler id w1
  end.

(** ** routes/authRoutes.js: GET /api/auth/me and POST /api/auth/logout *)

(** The handler of /me; [req.admin.id] is an ObjectId, so the lookup cannot
    fail on a cast. *)
Definition me_handler (who : ReqAdmin) (w : World) : Response * World :=
  match Admin_find_oid (admins w) (ra_id who) with
  | None => (json 404 (reply_message false "Admin not found"), w)
  | Some a =>
      (json 200
         (JObj [("success"%string, JBool true);
                ("admin"%string,
                 JObj ([("id"%string, JStr (a_id a));
                        ("username"%string, JStr (a_username a));
                        ("email"%string, JStr (a_email a))]
                       ++ opt_field "fullName" (JStr <$> a_fullName a)
                       ++ [("role"%string, JStr (a_role a))]
                       ++ opt_field "lastLogin" (JDate <$> a_lastLogin a)
                       ++ [("createdAt"%string, JDate (a_createdAt a))]))]),
       w)
  end.

Definition me (env : Env) (now : Z) (authorization : option string) (w : World)
  : Response * World :=
  match authenticateAdmin env now authorization w with
  | (Respond r, w1) => (r, w1)
  | (Next who, w1) => me_handler who w1
  end.

Definition logout (env : Env) (now : Z) (authorization : option string)
    (w : World) : Response * World :=
  match authenticateAdmin env now authorization w with
  | (Respond r, w1) => (r, w1)
  | (Next _, w1) => (json 200 (reply_message true "Logout successful"), w1)
  end.

End FurtherHandlers.

(** ** routes/adminRoutes.js: GET /api/admin/contacts *)

(** [.sort({ createdAt: -1 })]: newest first; records of equal time keep
    their order. *)
Fixpoint insert_newest (c : Contact) (l : list Contact) : list Contact :=
  match l with
  | [] => [c]
  | x :: r =>
      if ct_createdAt x <? ct_createdAt c then c :: x :: r
      else x :: insert_newest c r
  end.

Fixpoint sort_newest (l : list Contact) : list Contact :=
  match l with
  | [] => []
  | c :: r => insert_newest c (sort_newest r)
  end.

(** [req.query] after the validation chain: [page] and [limit] as [toInt()]
    left them, [status] as sent, and [q_more], the conditions the handler
    adds for [priority] and [search] (a field the contact model here does
    not keep, and matching done by the store's regex engine). *)
Record ContactQuery := {
  q_page : option Z;
  q_limit : option Z;
  q_status : option string;
  q_more : Contact -> bool
}.

(** [n || d] on a number or undefined. *)
Definition num_or (v : option Z) (d : Z) : Z :=
  match v with
  | Some n => if n =? 0 then d else n
  | None => d
  end.

(** The [filter] object the handler builds. *)
Definition contact_filter (q : ContactQuery) (c : Contact) : bool :=
  (if falsy (q_status q) then true
   else bool_decide (status_string (ct_status c) = default EmptyString (q_status q)))
  && q_more q c.

(** [Contact.find(filter).sort({ createdAt: -1 })] *)
Definition Contact_find_sorted (q : ContactQuery) (l : list Contact)
  : list Contact :=
  sort_newest (List.filter (contact_filter q) l).

(** [.skip((page - 1) * limit).limit(limit)]; the conversions are exact on
    the range the validators admit ([page >= 1], [1 <= limit <= 100]). *)
Definition page_of (found : list Contact) (page limit : Z) : list Contact :=
  firstn (Z.to_nat limit) (skipn (Z.to_nat ((page - 1) * limit)) found).

(** [Math.ceil(total / limit)] for a positive [limit]. *)
Definition ceil_div (total limit : Z) : Z := - ((- total) / limit).

Definition pagination_json (page limit total : Z) : Json :=
  JObj [("current"%string, JNum page);
        ("pages"%string, JNum (ceil_div total limit));
        ("total"%string, JNum total);
        ("hasNext"%string, JBool (page <? ceil_div total limit));
        ("hasPrev"%string, JBool (1 <? page))].

Definition contacts_page (items : list Contact) (page limit total : Z)
  : Response :=
  json 200
    (JObj [("success"%string, JBool true);
           ("data"%string,
            JObj [("contacts"%string, JArr (contact_json <$> items));
                  ("pagination"%string, pagination_json page limit total)])]).

(** The handler; [errors] is [validationResult(req)].  Its [catch] answers a
    failing store, which the model does not have. *)
Definition list_contacts_handler (errors : list Json) (q : ContactQuery)
    (w : World) : Response * World :=
  match errors with
  | _ :: _ =>
      (json 400 (JObj [("success"%string, JBool false);
                       ("message"%string, JStr "Invalid query parameters");
                       ("errors"%string, JArr errors)]), w)
  | [] =>
      let page := num_or (q_page q) 1 in
      let limit := num_or (q_limit q) 10 in
      let found := Contact_find_sorted q (contacts w) in
      let total := Z.of_nat (length (List.filter (contact_filter q) (contacts w))) in
      (contacts_page (page_of found page limit) page limit total, w)
  end.

(** [a] may come before [b] in a list sorted newest first. *)
Definition newest_first (a b : Contact) : Prop :=
  ct_createdAt b <= ct_createdAt a.

(** What the validators of the listing admit for [page] and [limit]. *)
Definition query_validated (q : ContactQuery) : Prop :=
  (forall p, q_page q = Some p -> 1 <= p) /\
  (forall l, q_limit q = Some l -> 1 <= l <= 100).

(** ** More sample data *)

Module Scenario.

Definition contact_at (id name : string) (st : Status) (t : Z) : Contact :=
  {| ct_id := id; ct_name := name; ct_email := "asha@example.com";
     ct_phone := None; ct_subject := None;
     ct_message := "Do you run workshops for schools?";
     ct_company := None; ct_source := "website"; ct_status := st;
     ct_ipAddress := None; ct_userAgent := None; ct_createdAt := t |}.

(** Five stored contacts, not in order of time. *)
Definition inbox : World :=
  {| admins := [Sample.superadmin];
     contacts := [contact_at "64b7f3a2c1d4e5f6a7b8c9e1" "A" st_new 1000;
                  contact_at "64b7f3a2c1d4e5f6a7b8c9e2" "B" st_read 5000;
                  contact_at "64b7f3a2c1d4e5f6a7b8c9e3" "C" st_new 3000;
                  contact_at "64b7f3a2c1d4e5f6a7b8c9e4" "D" st_replied 4000;
                  contact_at "64b7f3a2c1d4e5f6a7b8c9e5" "E" st_new 2000];
     console := []; outbox := [] |}.

(** [?page=2&limit=2] *)
Definition second_page : ContactQuery :=
  {| q_page := Some 2; q_limit := Some 2; q_status := None;
     q_more := fun _ => true |}.

End Scenario.





(** ** Account creation and password reset *)

(** [req.body] of POST /api/auth/register as the sanitizers of the route
    leave it ([trim()] on [username] and [fullName], [normalizeEmail()] on
    [email]). *)
Record RegisterBody := {
  rb_username : string;
  rb_email : string;
  rb_password : string;
  rb_fullName : option string;
  rb_role : option string
}.

(** [req.body] of POST /api/admin/create-user, as sent. *)
Record CreateUserBody := {
  cu_username : option string;
  cu_email : option string;
  cu_password : option string;
  cu_fullName : option string;
  cu_role : option string
}.

(** What [mongoose.connect] rejects with when it does: the message and the
    [code] of a system error such as ['ENOTFOUND']. *)
Record ConnectError := { ce_message : string; ce_code : option string }.

Definition logs (lines : list string) (w : World) : World :=
  foldl (fun w line => log line w) w lines.

Section Accounts.

Context {D : Deps}.

(** [Admin.findOne({ $or: [{ username }, { email }] })]; Mongoose casts a
    condition with the setters of its path ([trim], [lowercase]). *)
Definition Admin_findOne_either (l : list Admin) (username email : string)
  : option Admin :=
  List.find (fun a => bool_decide (a_username a = Js.trim username)
                      || bool_decide (a_email a = Js.to_lower (Js.trim email))) l.

(** [Admin.findOne({ username })] *)
Definition Admin_findOne_username (l : list Admin) (username : string)
  : option Admin :=
  List.find (fun a => bool_decide (a_username a = Js.trim username)) l.

(** [Admin.findOne({ role: 'super_admin' })] *)
Definition Admin_findOne_role (l : list Admin) (role : string) : option Admin :=
  List.find (fun a => bool_decide (a_role a = role)) l.

(** *** routes/authRoutes.js: POST /api/auth/register *)

Definition admin_created (d : AdminDoc) : Response :=
  json 201
    (JObj [("success"%string, JBool true);
           ("message"%string, JStr "Admin created successfully");
           ("admin"%string,
            JObj ([("id"%string, JStr (d_id d));
                   ("username"%string, JStr (d_username d));
                   ("email"%string, JStr (d_email d))]
                  ++ opt_field "fullName" (JStr <$> d_fullName d)
                  ++ [("role"%string, JStr (d_role d))]))]).

(** [new Admin({ username, email, password, fullName, role })] with
    [role = 'admin'] when the body has none; [fresh] is the ObjectId the
    constructor generates. *)
Definition register_doc (fresh : string) (b : RegisterBody) : AdminDoc :=
  Admin_new fresh (rb_username b) (rb_email b) (rb_password b)
    (rb_fullName b) (Some (default "admin"%string (rb_role b))).

(** The [try] block of the handler after the role and validation checks. *)
Definition register_try (now : Z) (rnd fresh : string) (b : RegisterBody)
    (w : World) : Exc Response * World :=
  match Admin_findOne_either (admins w) (rb_username b) (rb_email b) with
  | Some _ =>
      (Return (json 409 (reply_message false
                 "Admin with this username or email already exists")), w)
  | None =>
      let admin := register_doc fresh b in
      match Admin_save now rnd admin w with
      | (Throw e, w1) => (Throw e, w1)
      | (Return admin1, w1) => (Return (admin_created admin1), w1)
      end
  end.

(** The handler; [errors] is [validationResult(req).array()].  The role of
    the caller is checked before the validation result. *)
Definition register_handler (now : Z) (rnd fresh : string) (who : ReqAdmin)
    (errors : list Json) (b : RegisterBody) (w : World) : Response * World :=
  if negb (bool_decide (ra_role who = "super_admin"%string))
  then (json 403 (reply_message false
                    "Only super admins can create new admin accounts"), w)
  else
    match errors with
    | _ :: _ => (validation_failed errors, w)
    | [] =>
        match register_try now rnd fresh b w with
        | (Return r, w1) => (r, w1)
        | (Throw _, w1) =>
            (json 500 (reply_message false "Failed to create admin account"),
             log "Register error:" w1)
        end
    end.

(** The route: [authenticateAdmin], then the validators and the handler. *)
Definition register (env : Env) (now : Z) (rnd fresh : string)
    (authorization : option string) (errors : list Json) (b : RegisterBody)
    (w : World) : Response * World :=
  match authenticateAdmin env now authorization w with
  | (Respond r, w1) => (r, w1)
  | (Next who, w1) => register_handler now rnd fresh who errors b w1
  end.

(** *** test-server.js: POST /api/admin/create-user *)

Definition user_created (d : AdminDoc) : Response :=
  json 200
    (JObj [("success"%string, JBool true);
           ("message"%string, JStr "Admin user created successfully");
           ("admin"%string,
            JObj [("username"%string, JStr (d_username d));
                  ("email"%string, JStr (d_email d));
                  ("role"%string, JStr (d_role d))])]).

(** [new Admin({ username, email, password, fullName, role: role || 'admin' })]
    for a body whose three required fields are present. *)
Definition create_user_doc (fresh : string) (b : CreateUserBody) : AdminDoc :=
  Admin_new fresh (default EmptyString (cu_username b))
    (default EmptyString (cu_email b)) (default EmptyString (cu_password b))
    (cu_fullName b) (Some (or_default (cu_role b) "admin")).

Definition create_user_try (now : Z) (rnd fresh : string) (b : CreateUserBody)
    (w : World) : Exc Response * World :=
  if (falsy (cu_username b) || falsy (cu_email b) || falsy (cu_password b))%bool
  then (Return (json 400 (reply_message false
                  "Username, email, and password are required")), w)
  else
    let username := default EmptyString (cu_username b) in
    let email := default EmptyString (cu_email b) in
    match Admin_findOne_either (admins w) username email with
    | Some _ =>
        (Return (json 400 (reply_message false
                   "Admin with this username or email already exists")), w)
    | None =>
        let admin := create_user_doc fresh b in
        match Admin_save now rnd admin w with
        | (Throw e, w1) => (Throw e, w1)
        | (Return admin1, w1) => (Return (user_created admin1), w1)
        end
    end.

(** The route is mounted without [authenticateAdmin]. *)
Definition create_user (now : Z) (rnd fresh : string) (b : CreateUserBody)
    (w : World) : Response * World :=
  match create_user_try now rnd fresh b w with
  | (Return r, w1) => (r, w1)
  | (Throw _, w1) =>
      (json 500 (reply_message false "Failed to create admin user"),
       log "Create admin error:" w1)
  end.

(** *** test-server.js: GET /api/admin/reset-password/:username/:newPassword *)

(** The document comes from a query without [select('+password')], so the
    assignment always changes the path. *)
Definition reset_password_try (now : Z) (rnd : string)
    (username newPassword : string) (w : World) : Exc Response * World :=
  match Admin_findOne_username (admins w) username with
  | None => (Return (json 404 (reply_message false "Admin not found")), w)
  | Some a =>
      let admin := set_password newPassword (hydrate false a) in
      match Admin_save now rnd admin w with
      | (Throw e, w1) => (Throw e, w1)
      | (Return _, w1) =>
          (Return (json 200 (reply_message true
                     ("Password updated for " +:+ username))), w1)
      end
  end.

(** The route has no middleware and its [catch] logs nothing. *)
Definition reset_password (now : Z) (rnd : string)
    (username newPassword : string) (w : World) : Response * World :=
  match reset_password_try now rnd username newPassword w with
  | (Return r, w1) => (r, w1)
  | (Throw _, w1) => (json 500 (reply_message false "Failed to reset password"), w1)
  end.

(** *** scripts/setup.js *)

Definition seed_admin (fresh : string) : AdminDoc :=
  Admin_new fresh "superadmin" "naveenp@tangiblelearning.in" "admin123456"
    (Some "Naveen Tripathi"%string) (Some "super_admin"%string).

Definition setup_completed : list string :=
  [ ""; "🎉 Setup completed successfully!"; "";
    "📧 Super Admin Account Created:";
    "   Username: superadmin";
    "   Email: naveenp@tangiblelearning.in";
    "   Password: admin123456";
    "   Full Name: Naveen Tripathi";
    "";
    "⚠️  IMPORTANT SECURITY NOTE:";
    "   1. Change the default password after first login!";
    "   2. Use a strong password in production";
    "";
    "🚀 Next Steps:";
    "   1. Start the server: npm run dev";
    "   2. Test contact form: http://localhost:5000/api/contact";
    "   3. Login to admin: POST http://localhost:5000/api/auth/login";
    "   4. View API docs: http://localhost:5000/api-docs";
    "" ]%string.

(** The [catch] block: the message, the two hints, [process.exit(1)]. *)
Definition setup_failed (msg : string) (enotfound e11000 : bool) (w : World)
  : Z * World :=
  let w := log ("❌ Setup failed: " +:+ msg) w in
  let w := if enotfound
           then logs [ ""; "💡 This looks like a database connection issue.";
                       "   Make sure MongoDB is running or check your MONGODB_URI in .env" ]%string w
           else w in
  let w := if e11000
           then logs [ ""; "💡 Admin account already exists with this email or username." ]%string w
           else w in
  (1, w).

(** The creation of the account: [superAdmin.save()], then the report and
    the [finally] block, or the [catch] block. *)
Definition setup_create (now : Z) (rnd : string) (superAdmin : AdminDoc)
    (w : World) : Z * World :=
  match Admin_save now rnd superAdmin w with
  | (Throw e, w1) =>
      setup_failed (message e) false (bool_decide (error_code e = Some 11000)) w1
  | (Return _, w1) =>
      (0, log "📋 Database connection closed." (logs setup_completed w1))
  end.

(** [setupDatabase()]: the exit code of the process and the world it leaves.
    [connect] is what [mongoose.connect] rejects with, if it does.
    [process.exit] inside [try] and [catch] ends the process at once, so the
    [finally] block only runs after a creation. *)
Definition setupDatabase (connect : option ConnectError) (now : Z)
    (rnd fresh : string) (w : World) : Z * World :=
  let w := log "Connecting to MongoDB..." w in
  match connect with
  | Some e =>
      setup_failed (ce_message e)
        (bool_decide (ce_code e = Some "ENOTFOUND"%string)) false w
  | None =>
      let w := log "✅ Connected to MongoDB" w in
      match Admin_findOne_role (admins w) "super_admin" with
      | Some existing =>
          (0, logs [ "ℹ️  Super admin already exists: " +:+ a_username existing;
                     "   Email: " +:+ a_email existing;
                     "";
                     "🚀 You can start the server with: npm run dev" ]%string w)
      | None =>
          setup_create now rnd (seed_admin fresh)
            (log "Creating super admin account..." w)
      end
  end.

(** The script: the banner, then [setupDatabase()]. *)
Definition setup_script (connect : option ConnectError) (now : Z)
    (rnd fresh : string) (w : World) : Z * World :=
  setupDatabase connect now rnd fresh
    (logs [ "🔧 Tangible Learning Backend Setup";
            "===================================";
            "" ]%string w).

End Accounts.

(** ** Vocabulary of the account properties *)

(** The keys the unique indexes of the admin collection guard. *)
Definition unique_keys (l : list Admin) : Prop :=
  NoDup (a_id <$> l) /\ NoDup (a_username <$> l) /\ NoDup (a_email <$> l).

(** [a'] is [a] after a login: only [lastLogin] and [updatedAt] may differ. *)
Definition same_but_login (a a' : Admin) : Prop :=
  a_id a' = a_id a /\ a_username a' = a_username a /\ a_email a' = a_email a /\
  a_password a' = a_password a /\ a_fullName a' = a_fullName a /\
  a_role a' = a_role a /\ a_isActive a' = a_isActive a /\
  a_createdAt a' = a_createdAt a.

(** [a'] is [a] with another password: only [password] and [updatedAt] may
    differ. *)
Definition same_but_password (a a' : Admin) : Prop :=
  a_id a' = a_id a /\ a_username a' = a_username a /\ a_email a' = a_email a /\
  a_fullName a' = a_fullName a /\ a_role a' = a_role a /\
  a_isActive a' = a_isActive a /\ a_lastLogin a' = a_lastLogin a /\
  a_createdAt a' = a_createdAt a.

Module Staff.

(** A second account, with the plain [admin] role. *)
Definition editor : Admin :=
  {| a_id := "64b7f3a2c1d4e5f6a7b8c9e0"; a_username := "editor";
     a_email := "editor@tangiblelearning.in";
     a_password := Ideal.hash "editor-pass" (genSalt 12 "r7");
     a_fullName := None; a_role := "admin"; a_isActive := true;
     a_lastLogin := None; a_createdAt := 1690000000000;
     a_updatedAt := 1690000000000 |}.

Definition world : World :=
  {| admins := [Sample.superadmin; editor]; contacts := [Sample.inquiry];
     console := []; outbox := [] |}.

(** A session of that account, valid at [Sample.now]. *)
Definition editor_session : string :=
  Ideal.encode_jws
    {| jws_claims := {| c_id := a_id editor; c_username := "editor";
                        c_role := "admin"; c_iat := 1700000000;
                        c_exp := 1700086400 |};
       jws_key := "your-secret-key" |}.

Definition newcomer : RegisterBody :=
  {| rb_username := "trainer_01"; rb_email := "trainer@tangiblelearning.in";
     rb_password := "s3cret-pass"; rb_fullName := Some "Asha Rao"%string;
     rb_role := None |}.

(** An address the route's [isEmail()] accepts and the schema pattern does
    not: its last label has four letters. *)
Definition long_tld : RegisterBody :=
  {| rb_username := "trainer_02"; rb_email := "dev@tangible.info";
     rb_password := "s3cret-pass"; rb_fullName := None; rb_role := None |}.

(** A body sent to the test server by someone without an account. *)
Definition intruder : CreateUserBody :=
  {| cu_username := Some "mallory"%string;
     cu_email := Some "Mallory@Example.org"%string;
     cu_password := Some "letmein!"%string; cu_fullName := None;
     cu_role := Some "super_admin"%string |}.

(** An ObjectId no stored document has. *)
Definition fresh_id : string := "64b7f3a2c1d4e5f6a7b8c9f0".

Definition empty : World :=
  {| admins := []; contacts := []; console := []; outbox := [] |}.

End Staff.

(** ** Reading a pattern *)

(** Every class of [r] accepts only characters with [P]. *)
Fixpoint within (P : ascii -> Prop) (r : Re.t) : Prop :=
  match r with
  | Re.Void | Re.Eps => True
  | Re.Class k => forall c, Re.accepts k c = true -> P c
  | Re.Cat a b | Re.Alt a b => within P a /\ within P b
  | Re.Star a => within P a
  end.

(** Every string [r] matches goes through a class that accepts only
    characters with [P]. *)
Fixpoint through (P : ascii -> Prop) (r : Re.t) : Prop :=
  match r with
  | Re.Void => True
  | Re.Eps => False
  | Re.Class k => forall c, Re.accepts k c = true -> P c
  | Re.Cat a b => through P a \/ through P b
  | Re.Alt a b => through P a /\ through P b
  | Re.Star _ => False
  end.

(** The characters of a string. *)
Definition chars (s : string) : list ascii := list_ascii_of_string s.

(** * Properties *)

(** ** The ideal instance satisfies the laws *)

Lemma bits_to_pos_to_bits (p : positive) :
  Ideal.bits_to_pos (Ideal.pos_to_bits p) = Some p.
Proof. induction p as [q IH|q IH|]; simpl; rewrite ?IH; reflexivity. Qed.

Lemma unpack_pack {A} `{Countable A} (x : A) :
  Ideal.unpack (Ideal.pack x) = Some x.
Proof.
  unfold Ideal.unpack, Ideal.pack. rewrite bits_to_pos_to_bits. simpl.
  apply decode_encode.
Qed.

Lemma ideal_compare_hash (p q : string) (s : Salt) :
  Ideal.compare q (Ideal.hash p s) = bool_decide (q = p).
Proof.
  unfold Ideal.compare, Ideal.hash.
  assert (Hd : forall x, Js.drop 6 ("$2a$b$" +:+ x) = x) by reflexivity.
  assert (Hp : forall x, starts_with "$2a$b$" ("$2a$b$" +:+ x) = true) by reflexivity.
  rewrite Hd, Hp, unpack_pack. reflexivity.
Qed.

Lemma ideal_hash_long (p : string) (s : Salt) :
  (6 <= Js.code_units (Ideal.hash p s))%nat.
Proof.
  unfold Ideal.hash.
  assert (H : forall x, Js.code_units ("$2a$b$" +:+ x) = (6 + Js.code_units x)%nat)
    by reflexivity.
  rewrite H. lia.
Qed.

Lemma ideal_decode_encode (j : Jws) :
  Ideal.decode_jws (Ideal.encode_jws j) = Some j.
Proof.
  unfold Ideal.decode_jws, Ideal.encode_jws.
  assert (Hd : forall x, Js.drop 2 ("ey" +:+ x) = x) by reflexivity.
  assert (Hp : forall x, starts_with "ey" ("ey" +:+ x) = true) by reflexivity.
  rewrite Hd, Hp, unpack_pack.
  destruct j as [[] ?]. reflexivity.
Qed.

#[export] Instance ideal_laws : DepsLaws Ideal.deps.
Proof.
  split.
  - intros p s. cbn. rewrite ideal_compare_hash. apply bool_decide_eq_true_2.
    reflexivity.
  - exact ideal_hash_long.
  - exact ideal_decode_encode.
Qed.

(** ** JavaScript helpers *)

Lemma falsy_Some (s : string) : falsy (Some s) = false <-> s <> EmptyString.
Proof.
  unfold falsy. rewrite bool_decide_eq_false. reflexivity.
Qed.

(** ** Token verification and the admin middleware *)

Section Authentication.

Context {D : Deps}.

Lemma jwt_verify_well_signed (tok secret : string) (now : Z) (c : Claims) :
  well_signed tok secret = Some c ->
  jwt_verify tok secret now =
    if c_exp c <=? now / 1000 then Throw TokenExpiredError else Return c.
Proof.
  unfold well_signed, jwt_verify. intros H.
  destruct (jwt_decode tok) as [j|]; [|discriminate].
  destruct (bool_decide (jws_key j = secret)); [|discriminate].
  injection H as <-. reflexivity.
Qed.

Lemma jwt_verify_not_well_signed (tok secret : string) (now : Z) :
  well_signed tok secret = None ->
  exists msg, jwt_verify tok secret now = Throw (JsonWebTokenError msg).
Proof.
  unfold well_signed, jwt_verify. intros H.
  destruct (jwt_decode tok) as [j|]; [|eauto].
  destruct (bool_decide (jws_key j = secret)); [discriminate|eauto].
Qed.

Lemma jwt_verify_Return (tok secret : string) (now : Z) (c : Claims) :
  jwt_verify tok secret now = Return c <->
  well_signed tok secret = Some c /\ now / 1000 < c_exp c.
Proof.
  split.
  - intros H. destruct (well_signed tok secret) as [c'|] eqn:Hw.
    + rewrite (jwt_verify_well_signed _ _ _ _ Hw) in H.
      destruct (Z.leb_spec (c_exp c') (now / 1000)); [discriminate|].
      injection H as <-. split; [reflexivity|lia].
    + destruct (jwt_verify_not_well_signed _ _ now Hw) as [msg Hm].
      rewrite Hm in H. discriminate.
  - intros [Hw Hlt]. rewrite (jwt_verify_well_signed _ _ _ _ Hw).
    destruct (Z.leb_spec (c_exp c) (now / 1000)); [lia|reflexivity].
Qed.

(** What the [try] block does once a non-empty token is in hand. *)
Lemma authenticateAdmin_with_token (env : Env) (now : Z) (h : string) (w : World) :
  Js.replace "Bearer " "" h <> EmptyString ->
  authenticateAdmin_try env now (Some h) w =
    (decoded ← jwt_verify (Js.replace "Bearer " "" h) (jwt_secret env) now;
     admin ← Admin_findById (admins w) (c_id decoded);
     match admin with
     | Some a =>
         if a_isActive a then Return (Next (req_admin a))
         else Return (Respond (json 401 (reply_message false
                "Access denied. Invalid token or inactive account.")))
     | None =>
         Return (Respond (json 401 (reply_message false
                "Access denied. Invalid token or inactive account.")))
     end).
Proof.
  intros Hne. unfold authenticateAdmin_try. cbn [fmap option_fmap option_map].
  apply falsy_Some in Hne. rewrite Hne.
  destruct (jwt_verify _ _ _) as [c|e]; [|reflexivity]. cbn.
  destruct (Admin_findById _ _) as [[a|]|e]; cbn; try reflexivity.
  destruct (a_isActive a); reflexivity.
Qed.

Lemma authenticateAdmin_no_token (env : Env) (now : Z)
    (authorization : option string) (w : World) :
  falsy (Js.replace "Bearer " "" <$> authorization) = true ->
  authenticateAdmin env now authorization w =
    (Respond (json 401 (reply_message false "Access denied. No token provided.")), w).
Proof.
  intros H. unfold authenticateAdmin, authenticateAdmin_try.
  destruct authorization as [h|]; cbn in *; [rewrite H|]; reflexivity.
Qed.

(** C1 (as amended). The middleware lets a request through exactly when it
    carries a valid session: a bearer token whose signature verifies against
    the configured secret, whose expiry lies after the current time, and
    whose subject is a stored administrator with the active flag set; it
    then fills [req.admin] from that record.  Every other request is
    answered by the middleware itself, with 401, except that a well signed,
    unexpired token whose subject id is no ObjectId makes the store lookup
    throw and is answered with 500. *)
Theorem authenticateAdmin_decision (env : Env) (now : Z)
    (authorization : option string) (w : World) :
  match fst (authenticateAdmin env now authorization w) with
  | Next who =>
      exists a, valid_session env now authorization w a /\ who = req_admin a
  | Respond r =>
      (forall a, ~ valid_session env now authorization w a) /\
      ((uncastable_subject env now authorization /\ status r = 500) \/
       (~ uncastable_subject env now authorization /\ status r = 401))
  end.
Proof.
  destruct (falsy (Js.replace "Bearer " "" <$> authorization)) eqn:Hf.
  { rewrite (authenticateAdmin_no_token _ _ _ _ Hf). cbn. split.
    - intros a (h & c & oid & -> & Hne & _).
      apply falsy_Some in Hne.
      change (falsy (Some (Js.replace "Bearer " "" h)) = true) in Hf. congruence.
    - right. split; [|reflexivity].
      intros (h & c & -> & Hne & _).
      apply falsy_Some in Hne.
      change (falsy (Some (Js.replace "Bearer " "" h)) = true) in Hf. congruence. }
  destruct authorization as [h|]; [|discriminate].
  change (falsy (Some (Js.replace "Bearer " "" h)) = false) in Hf.
  apply falsy_Some in Hf.
  unfold authenticateAdmin. rewrite (authenticateAdmin_with_token _ _ _ _ Hf).
  set (tok := Js.replace "Bearer " "" h) in *.
  destruct (well_signed tok (jwt_secret env)) as [c|] eqn:Hw.
  2:{ destruct (jwt_verify_not_well_signed _ _ now Hw) as [msg ->]. cbn. split.
      - intros a (h' & c & oid & [= <-] & _ & Hw' & _). fold tok in Hw'. congruence.
      - right. split; [|reflexivity].
        intros (h' & c & [= <-] & _ & Hw' & _). fold tok in Hw'. congruence. }
  rewrite (jwt_verify_well_signed _ _ now _ Hw).
  destruct (Z.leb_spec (c_exp c) (now / 1000)) as [Hexp|Hexp].
  { cbn. split.
    - intros a (h' & c' & oid & [= <-] & _ & Hw' & Hlt & _). fold tok in Hw'.
      assert (c' = c) by congruence. subst. lia.
    - right. split; [|reflexivity].
      intros (h' & c' & [= <-] & _ & Hw' & Hlt & _). fold tok in Hw'.
      assert (c' = c) by congruence. subst. lia. }
  cbn. unfold Admin_findById.
  destruct (castObjectId (c_id c)) as [oid|] eqn:Hcast.
  2:{ cbn. split.
      - intros a (h' & c' & oid & [= <-] & _ & Hw' & _ & Hc & _). fold tok in Hw'.
        assert (c' = c) by congruence. subst. congruence.
      - left. split; [|reflexivity]. exists h, c. auto. }
  cbn. destruct (Admin_find_oid (admins w) oid) as [a|] eqn:Hfind.
  2:{ cbn. split.
      - intros a (h' & c' & oid' & [= <-] & _ & Hw' & _ & Hc & Hf' & _).
        fold tok in Hw'. assert (c' = c) by congruence. subst. congruence.
      - right. split; [|reflexivity].
        intros (h' & c' & [= <-] & _ & Hw' & _ & Hc). fold tok in Hw'.
        assert (c' = c) by congruence. subst. congruence. }
  destruct (a_isActive a) eqn:Hact; cbn.
  - exists a. split; [|reflexivity]. exists h, c, oid. auto 10.
  - split.
    + intros a' (h' & c' & oid' & [= <-] & _ & Hw' & _ & Hc & Hf' & Ha).
      fold tok in Hw'. assert (c' = c) by congruence. subst.
      assert (oid' = oid) by congruence. subst. congruence.
    + right. split; [|reflexivity].
      intros (h' & c' & [= <-] & _ & Hw' & _ & Hc). fold tok in Hw'.
      assert (c' = c) by congruence. subst. congruence.
Qed.

End Authentication.

Section VerificationFailures.

Context {D : Deps}.

(** C8. A token that reaches verification and is malformed, or whose
    signature does not verify, fails with the invalid-token error; one that
    is well formed and correctly signed but past its expiry fails with the
    expiry error, whose name differs; the middleware answers both with 401,
    each with its own message. *)
Theorem verification_failures_are_401 (env : Env) (now : Z) (h : string)
    (w : World) :
  Js.replace "Bearer " "" h <> EmptyString ->
  let tok := Js.replace "Bearer " "" h in
  ((jwt_decode tok = None \/
    exists j, jwt_decode tok = Some j /\ jws_key j <> jwt_secret env) ->
   (exists msg, jwt_verify tok (jwt_secret env) now
                = Throw (JsonWebTokenError msg)) /\
   authenticateAdmin env now (Some h) w =
     (Respond (json 401 (reply_message false "Access denied. Invalid token.")), w))
  /\
  ((exists j, jwt_decode tok = Some j /\ jws_key j = jwt_secret env /\
              c_exp (jws_claims j) <= now / 1000) ->
   jwt_verify tok (jwt_secret env) now = Throw TokenExpiredError /\
   authenticateAdmin env now (Some h) w =
     (Respond (json 401 (reply_message false "Access denied. Token expired.")), w))
  /\
  (forall msg, name (JsonWebTokenError msg) <> name TokenExpiredError).
Proof.
  intros Hne tok. split; [|split].
  - intros Hbad.
    assert (Hw : well_signed tok (jwt_secret env) = None).
    { unfold well_signed. destruct Hbad as [->|(j & -> & Hk)]; [reflexivity|].
      rewrite bool_decide_eq_false_2; auto. }
    destruct (jwt_verify_not_well_signed _ _ now Hw) as [msg Hm].
    split; [eauto|].
    unfold authenticateAdmin. rewrite (authenticateAdmin_with_token _ _ _ _ Hne).
    fold tok. rewrite Hm. reflexivity.
  - intros (j & Hj & Hk & Hexp).
    assert (Hw : well_signed tok (jwt_secret env) = Some (jws_claims j)).
    { unfold well_signed. rewrite Hj, bool_decide_eq_true_2; auto. }
    assert (Hv : jwt_verify tok (jwt_secret env) now = Throw TokenExpiredError).
    { rewrite (jwt_verify_well_signed _ _ _ _ Hw).
      destruct (Z.leb_spec (c_exp (jws_claims j)) (now / 1000)); [reflexivity|lia]. }
    split; [exact Hv|].
    unfold authenticateAdmin. rewrite (authenticateAdmin_with_token _ _ _ _ Hne).
    fold tok. rewrite Hv. reflexivity.
  - intros msg. discriminate.
Qed.

End VerificationFailures.

(** C8 on two tokens of the sample: one signed with another key, one
    expired. *)
Lemma verification_failures_witness :
  (Js.replace "Bearer " "" ("Bearer " +:+ Sample.forged) <> EmptyString /\
   authenticateAdmin (D := Ideal.deps) Sample.env Sample.now
     (Some ("Bearer " +:+ Sample.forged)) Sample.world =
     (Respond (json 401 (reply_message false "Access denied. Invalid token.")),
      Sample.world)) /\
  (Js.replace "Bearer " "" ("Bearer " +:+ Sample.expired) <> EmptyString /\
   authenticateAdmin (D := Ideal.deps) Sample.env Sample.now
     (Some ("Bearer " +:+ Sample.expired)) Sample.world =
     (Respond (json 401 (reply_message false "Access denied. Token expired.")),
      Sample.world)).
Proof.
  split.
  - assert (Hne : Js.replace "Bearer " "" ("Bearer " +:+ Sample.forged)
                  <> EmptyString) by (vm_compute; discriminate).
    split; [exact Hne|].
    refine (proj2 (proj1 (verification_failures_are_401 (D := Ideal.deps)
              Sample.env Sample.now _ Sample.world Hne) _)).
    right. eexists. split; [vm_compute; reflexivity|vm_compute; discriminate].
  - assert (Hne : Js.replace "Bearer " "" ("Bearer " +:+ Sample.expired)
                  <> EmptyString) by (vm_compute; discriminate).
    split; [exact Hne|].
    refine (proj2 (proj1 (proj2 (verification_failures_are_401 (D := Ideal.deps)
              Sample.env Sample.now _ Sample.world Hne)) _)).
    eexists. split; [vm_compute; reflexivity|].
    split; [vm_compute; reflexivity|vm_compute; discriminate].
Defined.

(** C1 (counterexample). A token signed with the configured secret and not
    expired, whose subject id is [abc]: the request is not let through, and
    the answer is 500, not 401. *)
Lemma authenticateAdmin_answers_500 :
  exists r,
    fst (authenticateAdmin (D := Ideal.deps) Sample.env Sample.now
           (Some ("Bearer " +:+ Sample.odd_subject)) Sample.world) = Respond r /\
    status r = 500 /\ status r <> 401.
Proof.
  eexists. split; [vm_compute; reflexivity|]. split; [reflexivity|discriminate].
Qed.

(** ** Login *)

Section Login.

Context {D : Deps}.

Lemma login_errors_nil (username password : string) :
  username <> EmptyString -> password <> EmptyString ->
  login_errors username password = [].
Proof.
  intros Hu Hp. unfold login_errors.
  rewrite !bool_decide_eq_false_2 by assumption. reflexivity.
Qed.


Lemma findOne_login_identified (l : list Admin) (u : string) (a : Admin) :
  identifies l u a -> Admin_findOne_login l u = Some a.
Proof.
  intros (Hin & Hact & Hu & Huniq). unfold Admin_findOne_login.
  set (f := fun a0 : Admin => _).
  assert (Hfa : f a = true).
  { unfold f. rewrite Hact, andb_true_r. apply orb_true_iff.
    destruct Hu as [Hu|Hu]; [left|right]; apply bool_decide_eq_true_2; exact Hu. }
  destruct (List.find f l) as [b|] eqn:Hfind.
  - apply List.find_some in Hfind as [Hb Hfb]. f_equal. apply Huniq.
    + apply list_elem_of_In. exact Hb.
    + unfold f in Hfb. apply andb_true_iff in Hfb as [_ Hfb]. exact Hfb.
    + unfold f in Hfb. apply andb_true_iff in Hfb as [Hfb _]. unfold answers_to.
      apply orb_true_iff in Hfb as [Hfb|Hfb];
        apply bool_decide_eq_true_1 in Hfb; auto.
  - apply List.find_none with (x := a) in Hfind; [congruence|].
    apply list_elem_of_In. exact Hin.
Qed.





Lemma pre_save_unmodified (rnd : string) (d : AdminDoc) :
  isModified d p_password = false -> pre_save rnd d = Return d.
Proof. intros H. unfold pre_save. rewrite H. reflexivity. Qed.

Lemma same_but_login_refl (a : Admin) : same_but_login a a.
Proof. repeat split. Qed.

(** The paths a login touches. *)
Lemma login_doc_modified (now : Z) (a : Admin) :
  d_modified (set_lastLogin now (hydrate true a)) = [] \/
  d_modified (set_lastLogin now (hydrate true a)) = [p_lastLogin].
Proof.
  unfold set_lastLogin. cbn [d_modified hydrate].
  destruct (shouldModify _ _ _ _); [right; reflexivity|left; reflexivity].
Qed.

Lemma apply_login_same (now : Z) (d : AdminDoc) (x : Admin) :
  d_modified d = [p_lastLogin] -> same_but_login x (apply_modified now d x).
Proof.
  intros Hm. unfold same_but_login, apply_modified, isModified. rewrite Hm.
  repeat split.
Qed.

Lemma update_admin_Forall2 (R : Admin -> Admin -> Prop) (id : string)
    (f : Admin -> Admin) (l : list Admin) :
  (forall a, R a a) -> (forall a, R a (f a)) ->
  Forall2 R l (update_admin id f l).
Proof.
  intros Hrefl Hf. induction l as [|a l IH]; cbn; [constructor|].
  case_bool_decide; constructor; auto. apply Forall_Forall2_diag.
  apply Forall_forall. auto.
Qed.

Lemma find_oid_update_admin (id : string) (f : Admin -> Admin) (l : list Admin) :
  (forall a, a_id (f a) = a_id a) ->
  Admin_find_oid (update_admin id f l) id = f <$> Admin_find_oid l id.
Proof.
  intros Hf. unfold Admin_find_oid. induction l as [|a l IH]; cbn; [reflexivity|].
  case_bool_decide as Ha; cbn.
  - rewrite Hf, bool_decide_eq_true_2 by exact Ha. reflexivity.
  - rewrite bool_decide_eq_false_2 by exact Ha. exact IH.
Qed.

(** What [updateLastLogin] does to a fetched account: a document the schema
    rejects is not saved; one it accepts has [lastLogin] written. *)
Lemma updateLastLogin_write (now : Z) (rnd : string) (a : Admin) (w : World) :
  (~ schema_valid a /\
   exists e, updateLastLogin now rnd (hydrate true a) w = (Throw e, w)) \/
  (schema_valid a /\
   exists w1,
    updateLastLogin now rnd (hydrate true a) w =
      (Return (saved now (set_lastLogin now (hydrate true a))), w1) /\
    contacts w1 = contacts w /\ outbox w1 = outbox w /\ console w1 = console w /\
    Forall2 same_but_login (admins w) (admins w1) /\
    (forall a1, Admin_find_oid (admins w) (a_id a) = Some a1 ->
       exists a2, Admin_find_oid (admins w1) (a_id a) = Some a2 /\
                  same_but_login a1 a2 /\
                  (a_lastLogin a = a_lastLogin a1 -> a_lastLogin a2 = Some now))).
Proof.
  unfold updateLastLogin, Admin_save.
  change (schema_errors (set_lastLogin now (hydrate true a)))
    with (schema_errors (hydrate true a)).
  unfold schema_valid.
  destruct (schema_errors (hydrate true a)) as [|m ms] eqn:Hs.
  2:{ left. split; [discriminate|eauto]. }
  right. split; [reflexivity|].
  assert (Hm : isModified (set_lastLogin now (hydrate true a)) p_password = false).
  { unfold isModified, set_lastLogin. cbn [d_modified hydrate].
    apply bool_decide_eq_false_2.
    destruct (shouldModify _ _ _ _); [|apply not_elem_of_nil].
    unfold markModified. rewrite bool_decide_eq_false_2 by apply not_elem_of_nil.
    intros H. apply list_elem_of_singleton in H. discriminate. }
  rewrite (pre_save_unmodified _ _ Hm). cbn [d_isNew set_lastLogin hydrate].
  fold (set_lastLogin now (hydrate true a)).
  destruct (d_modified (set_lastLogin now (hydrate true a))) as [|p0 m0] eqn:Hmod.
  - exists w. split; [reflexivity|]. repeat split; try reflexivity.
    + apply Forall_Forall2_diag, Forall_forall. intros; apply same_but_login_refl.
    + intros a1 H1. exists a1. split; [exact H1|]. split; [apply same_but_login_refl|].
      intros E. rewrite <- E.
      revert Hmod. unfold set_lastLogin, shouldModify, isModified.
      cbn [d_modified hydrate d_isNew d_lastLogin]. cbn [orb].
      rewrite bool_decide_eq_false_2 by apply not_elem_of_nil. cbn [orb].
      case_bool_decide as E'; [intros _; exact E'|].
      cbn [negb]. unfold markModified.
      rewrite bool_decide_eq_false_2 by apply not_elem_of_nil. discriminate.
  - destruct (login_doc_modified now a) as [E|E]; rewrite E in Hmod; [discriminate|].
    injection Hmod as <- <-.
    eexists. split; [reflexivity|]. cbn [contacts outbox console admins with_admins].
    repeat split; try reflexivity.
    + apply update_admin_Forall2; [apply same_but_login_refl|].
      intros x. apply apply_login_same. exact E.
    + intros a1 H1. rewrite find_oid_update_admin by reflexivity. rewrite H1.
      eexists. split; [reflexivity|]. split; [apply apply_login_same; exact E|].
      intros _. unfold apply_modified, isModified. rewrite E. reflexivity.
Qed.

Lemma updateLastLogin_fetched (now : Z) (rnd : string) (a : Admin) (w : World) :
  schema_valid a ->
  exists w1,
    updateLastLogin now rnd (hydrate true a) w =
      (Return (saved now (set_lastLogin now (hydrate true a))), w1).
Proof.
  intros Hv.
  destruct (updateLastLogin_write now rnd a w) as [[Hn _]|[_ (w1 & H & _)]];
    [contradiction|eauto].
Qed.

(** The keys of the body of a successful login. *)
Lemma login_ok_fields (token : string) (d : AdminDoc) :
  status (login_ok token d) = 200 /\
  field "success" (body (login_ok token d)) = Some (JBool true) /\
  field "token" (body (login_ok token d)) = Some (JStr token) /\
  (field "admin" (body (login_ok token d)) ≫= field "id") = Some (JStr (d_id d)) /\
  (field "admin" (body (login_ok token d)) ≫= field "username")
    = Some (JStr (d_username d)) /\
  (field "admin" (body (login_ok token d)) ≫= field "role")
    = Some (JStr (d_role d)).
Proof. destruct (d_fullName d) eqn:E; unfold login_ok; rewrite E; repeat split. Qed.

(** C2. An active administrator whose record passes the schema, named by
    the identifier of a valid login request, with a password that verifies
    against the stored hash: the login answers 200 with success true, the
    body carries a token and the id, username and role of that
    administrator, and verifying that token with the configured secret at
    any time before its expiry returns claims with that administrator's id,
    username and role. *)
Theorem login_token_round_trip (L : DepsLaws D) (env : Env) (now : Z)
    (rnd : string) (username password : string) (w : World) (a : Admin)
    (span : Z) :
  identifies (admins w) (Js.trim username) a ->
  schema_valid a ->
  Js.trim username <> EmptyString ->
  password <> EmptyString ->
  bcrypt_compare password (a_password a) = true ->
  ms (jwt_expires_in env) = Some span ->
  exists token,
    let r := fst (login env now rnd username password w) in
    status r = 200 /\
    field "success" (body r) = Some (JBool true) /\
    field "token" (body r) = Some (JStr token) /\
    (field "admin" (body r) ≫= field "id") = Some (JStr (a_id a)) /\
    (field "admin" (body r) ≫= field "username") = Some (JStr (a_username a)) /\
    (field "admin" (body r) ≫= field "role") = Some (JStr (a_role a)) /\
    forall t, t / 1000 < now / 1000 + span / 1000 ->
      exists c,
        jwt_verify token (jwt_secret env) t = Return c /\
        c_id c = a_id a /\ c_username c = a_username a /\ c_role c = a_role a.
Proof.
  intros Hid Hvalid Hu Hp Hcmp Hms.
  unfold login. rewrite (login_errors_nil _ _ Hu Hp).
  unfold login_try. rewrite (findOne_login_identified _ _ _ Hid).
  cbn [comparePassword hydrate d_password]. rewrite Hcmp.
  destruct (updateLastLogin_fetched now rnd a w Hvalid) as [w1 ->].
  unfold jwt_sign. rewrite Hms. cbn [fst]. cbv zeta.
  eexists.
  destruct (login_ok_fields
              (jwt_encode {| jws_claims := {| c_id := a_id a; c_username := a_username a;
                                              c_role := a_role a; c_iat := now / 1000;
                                              c_exp := now / 1000 + span / 1000 |};
                             jws_key := jwt_secret env |})
              (saved now (set_lastLogin now (hydrate true a))))
    as (H1 & H2 & H3 & H4 & H5 & H6).
  split; [exact H1|]. split; [exact H2|]. split; [exact H3|].
  split; [exact H4|]. split; [exact H5|]. split; [exact H6|].
  intros t Ht. eexists. split.
  - apply jwt_verify_Return. unfold well_signed.
    rewrite jwt_decode_encode. cbn [jws_key jws_claims c_exp].
    rewrite bool_decide_eq_true_2 by reflexivity. split; [reflexivity|exact Ht].
  - cbn. auto.
Qed.

End Login.

Lemma sample_identifies (u : string) :
  answers_to u Sample.superadmin ->
  identifies (admins Sample.world) u Sample.superadmin.
Proof.
  intros Hu. split; [left|]. split; [reflexivity|]. split; [exact Hu|].
  intros b Hb _ _. apply list_elem_of_singleton in Hb. exact Hb.
Qed.



(** C2 on the sample: the seeded account logs in with its password, the
    identifier typed with spaces around it. *)
Lemma login_token_round_trip_witness :
  identifies (admins Sample.world) (Js.trim " superadmin ") Sample.superadmin /\
  schema_valid Sample.superadmin /\
  Js.trim " superadmin " <> EmptyString /\
  "admin123456"%string <> EmptyString /\
  bcrypt_compare (Deps := Ideal.deps) "admin123456" (a_password Sample.superadmin) = true /\
  ms (Deps := Ideal.deps) (jwt_expires_in Sample.env) = Some 86400000 /\
  exists token,
    let r := fst (login (D := Ideal.deps) Sample.env Sample.now "r1"
                    " superadmin " "admin123456" Sample.world) in
    status r = 200 /\
    field "success" (body r) = Some (JBool true) /\
    field "token" (body r) = Some (JStr token) /\
    (field "admin" (body r) ≫= field "id") = Some (JStr (a_id Sample.superadmin)) /\
    (field "admin" (body r) ≫= field "username")
      = Some (JStr (a_username Sample.superadmin)) /\
    (field "admin" (body r) ≫= field "role")
      = Some (JStr (a_role Sample.superadmin)) /\
    forall t, t / 1000 < Sample.now / 1000 + 86400000 / 1000 ->
      exists c,
        jwt_verify (D := Ideal.deps) token (jwt_secret Sample.env) t = Return c /\
        c_id c = a_id Sample.superadmin /\
        c_username c = a_username Sample.superadmin /\
        c_role c = a_role Sample.superadmin.
Proof.
  assert (Hd : identifies (admins Sample.world) (Js.trim " superadmin ")
                 Sample.superadmin)
    by (apply sample_identifies; left; vm_compute; reflexivity).
  assert (Hv : schema_valid Sample.superadmin) by (vm_compute; reflexivity).
  assert (Hc : bcrypt_compare (Deps := Ideal.deps) "admin123456"
                 (a_password Sample.superadmin) = true)
    by (vm_compute; reflexivity).
  assert (Hu : Js.trim " superadmin " <> EmptyString) by (vm_compute; discriminate).
  assert (Hp : "admin123456"%string <> EmptyString) by discriminate.
  split; [exact Hd|]. split; [exact Hv|]. split; [exact Hu|]. split; [exact Hp|].
  split; [exact Hc|]. split; [reflexivity|].
  exact (login_token_round_trip (D := Ideal.deps) ideal_laws Sample.env
           Sample.now "r1" " superadmin " "admin123456" Sample.world
           Sample.superadmin 86400000 Hd Hv Hu Hp Hc eq_refl).
Defined.

(** ** The pre-save hook and passwords at rest *)

Section PasswordsAtRest.

Context {D : Deps}.

Lemma elem_of_markModified (x p : AdminPath) (m : list AdminPath) :
  x ∈ markModified p m <-> x = p \/ x ∈ m.
Proof.
  unfold markModified. case_bool_decide as Hp.
  - split; [auto|]. intros [->|H]; assumption.
  - rewrite elem_of_app, list_elem_of_singleton. tauto.
Qed.

Lemma isModified_true (d : AdminDoc) (p : AdminPath) :
  isModified d p = true <-> p ∈ d_modified d.
Proof. unfold isModified. apply bool_decide_eq_true. Qed.

Lemma isModified_set_password (v : string) (d : AdminDoc) :
  isModified (set_password v d) p_password =
    shouldModify d p_password (d_password d) (Some v).
Proof.
  unfold set_password, isModified at 1. cbn [d_modified].
  destruct (shouldModify d p_password (d_password d) (Some v)) eqn:Hs.
  - apply bool_decide_eq_true_2, elem_of_markModified. auto.
  - apply bool_decide_eq_false_2. intros Hin.
    unfold shouldModify in Hs. apply orb_false_iff in Hs as [Hs _].
    apply orb_false_iff in Hs as [_ Hs].
    apply isModified_true in Hin. congruence.
Qed.

Lemma isModified_set_lastLogin (t : Z) (d : AdminDoc) :
  isModified (set_lastLogin t d) p_password = isModified d p_password.
Proof.
  unfold isModified, set_lastLogin. cbn [d_modified].
  destruct (shouldModify _ _ _ _); [|reflexivity].
  apply bool_decide_ext. rewrite elem_of_markModified.
  split; [intros [H|H]; [discriminate|exact H]|auto].
Qed.

(** A document that is new has its password marked modified, a password
    marked modified has a value, and a document that is not new was fetched
    from a stored record and has its id. *)
Lemma doc_of_password (w : World) (d : AdminDoc) :
  doc_of w d ->
  (d_isNew d = true -> isModified d p_password = true) /\
  (isModified d p_password = true -> is_Some (d_password d)) /\
  (d_isNew d = false -> exists a, a ∈ admins w /\ a_id a = d_id d).
Proof.
  induction 1 as [id u e pw fn r|sel a Ha|v d Hd (IHnew & IHmod & IHid)
                 |t d Hd (IHnew & IHmod & IHid)].
  - split; [|split; [cbn; eauto|discriminate]].
    intros _. apply isModified_true. cbn.
    apply elem_of_cons; right. apply elem_of_cons; right.
    apply elem_of_cons; left. reflexivity.
  - split; [discriminate|]. split; [|eauto]. intros H. apply isModified_true in H.
    cbn in H. apply elem_of_nil in H. destruct H.
  - split; [|split; [cbn; eauto|exact IHid]]. cbn [d_isNew set_password]. intros Hnew.
    rewrite isModified_set_password. unfold shouldModify. rewrite Hnew.
    reflexivity.
  - rewrite isModified_set_lastLogin. cbn [d_isNew d_password set_lastLogin].
    auto.
Qed.

Lemma pre_save_modified (rnd : string) (d : AdminDoc) (pw : string) :
  isModified d p_password = true -> d_password d = Some pw ->
  pre_save rnd d = Return (set_password (bcrypt_hash pw (genSalt 12 rnd)) d).
Proof. intros Hm Hp. unfold pre_save. rewrite Hm, Hp. reflexivity. Qed.

Lemma elem_of_update_admin (id : string) (f : Admin -> Admin) (l : list Admin)
    (x : Admin) :
  x ∈ update_admin id f l -> x ∈ l \/ exists a, a ∈ l /\ x = f a.
Proof.
  induction l as [|a l IH]; cbn; [auto|].
  case_bool_decide.
  - intros [->|H']%elem_of_cons.
    + right. exists a. split; [left|reflexivity].
    + left. right. exact H'.
  - intros [->|H']%elem_of_cons.
    + left. left.
    + destruct (IH H') as [?|(b & ? & ?)]; [left; right; assumption|].
      right. exists b. split; [right; assumption|assumption].
Qed.

Lemma update_admin_passwords (id : string) (f : Admin -> Admin) (l : list Admin) :
  (forall a, a_password (f a) = a_password a) ->
  a_password <$> update_admin id f l = a_password <$> l.
Proof.
  intros Hf. induction l as [|a l IH]; cbn; [reflexivity|].
  case_bool_decide; cbn; [rewrite Hf|rewrite IH]; reflexivity.
Qed.

Lemma isModified_saved_hash (h : string) (d : AdminDoc) :
  isModified d p_password = true ->
  isModified (set_password h d) p_password = true.
Proof.
  intros Hm. rewrite isModified_set_password. unfold shouldModify.
  rewrite Hm, orb_true_r. reflexivity.
Qed.

Lemma find_oid_id (l : list Admin) (oid : string) (a : Admin) :
  Admin_find_oid l oid = Some a -> a_id a = oid.
Proof.
  unfold Admin_find_oid. intros H. apply List.find_some in H as [_ H].
  apply bool_decide_eq_true_1 in H. exact H.
Qed.

Lemma find_oid_elem (l : list Admin) (a : Admin) :
  a ∈ l -> exists a0, Admin_find_oid l (a_id a) = Some a0.
Proof.
  intros Hin. unfold Admin_find_oid.
  destruct (List.find _ l) as [a0|] eqn:E; [eauto|].
  apply List.find_none with (x := a) in E; [|apply list_elem_of_In; exact Hin].
  apply bool_decide_eq_false in E. destruct E. reflexivity.
Qed.

Lemma find_oid_update_admin_other (id id' : string) (f : Admin -> Admin)
    (l : list Admin) :
  (forall a, a_id (f a) = a_id a) -> id' <> id ->
  Admin_find_oid (update_admin id f l) id' = Admin_find_oid l id'.
Proof.
  intros Hf Hne. unfold Admin_find_oid. induction l as [|a l IH]; cbn; [reflexivity|].
  case_bool_decide as Ha; cbn.
  - rewrite Hf. rewrite !bool_decide_eq_false_2 by congruence. reflexivity.
  - rewrite IH. reflexivity.
Qed.

Lemma find_oid_snoc (l : list Admin) (a : Admin) (id : string) :
  Admin_find_oid (l ++ [a]) id =
    match Admin_find_oid l id with
    | Some x => Some x
    | None => if bool_decide (a_id a = id) then Some a else None
    end.
Proof.
  unfold Admin_find_oid. induction l as [|b l IH]; cbn; [reflexivity|].
  destruct (bool_decide (a_id b = id)); [reflexivity|exact IH].
Qed.

Lemma index_taken_false (d : AdminDoc) (l : list Admin) :
  index_taken d l = false <->
  forall x, x ∈ l ->
    a_id x <> d_id d /\ a_username x <> d_username d /\ a_email x <> d_email d.
Proof.
  unfold index_taken. induction l as [|a l IH]; cbn.
  - split; [|reflexivity]. intros _ x Hx. apply elem_of_nil in Hx. destruct Hx.
  - rewrite orb_false_iff, !orb_false_iff, !bool_decide_eq_false, IH. split.
    + intros [[[? ?] ?] Hr] x [->|Hx]%elem_of_cons; auto.
    + intros Hall. split.
      * destruct (Hall a) as (? & ? & ?); [left|auto].
      * intros x Hx. apply Hall. right. exact Hx.
Qed.

(** A save that throws has written nothing. *)
Lemma Admin_save_throws (now : Z) (rnd : string) (d : AdminDoc) (w : World)
    (e : Error) :
  fst (Admin_save now rnd d w) = Throw e -> snd (Admin_save now rnd d w) = w.
Proof.
  unfold Admin_save. destruct (schema_errors d); [|reflexivity].
  destruct (pre_save rnd d) as [d1|e1]; [|reflexivity].
  destruct (d_isNew d1).
  - destruct (index_taken d1 (admins w)); [reflexivity|discriminate].
  - destruct (d_modified d1); discriminate.
Qed.

(** What a save does with a modified password once the schema accepts the
    document: a new document is inserted, a fetched one updated, with the
    hash in place of the password. *)
Lemma Admin_save_password (now : Z) (rnd : string) (d : AdminDoc) (w : World)
    (pw : string) :
  isModified d p_password = true -> d_password d = Some pw ->
  schema_errors d = [] ->
  let d1 := set_password (bcrypt_hash pw (genSalt 12 rnd)) d in
  Admin_save now rnd d w =
    if d_isNew d
    then if index_taken d (admins w) then (Throw DuplicateKey, w)
         else (Return (saved now d1),
               with_admins (admins w ++ [to_record now d1]) w)
    else (Return (saved now d1),
          with_admins (update_admin (d_id d) (apply_modified now d1) (admins w)) w).
Proof.
  intros Hm Hp Hs d1. unfold Admin_save.
  rewrite Hs, (pre_save_modified _ _ _ Hm Hp). fold d1.
  change (d_isNew d1) with (d_isNew d).
  change (index_taken d1 (admins w)) with (index_taken d (admins w)).
  change (d_id d1) with (d_id d).
  destruct (d_isNew d); [reflexivity|].
  assert (Hm1 : isModified d1 p_password = true)
    by (apply isModified_saved_hash; exact Hm).
  apply isModified_true in Hm1.
  destruct (d_modified d1) as [|p0 m0]; [|reflexivity].
  apply elem_of_nil in Hm1. destruct Hm1.
Qed.

(** Every record of the collection after a save with a modified password
    was there before or carries the fresh hash. *)
Lemma Admin_save_modified (now : Z) (rnd : string) (d : AdminDoc) (w : World)
    (pw : string) (x : Admin) :
  isModified d p_password = true -> d_password d = Some pw ->
  x ∈ admins (snd (Admin_save now rnd d w)) ->
  x ∈ admins w \/ a_password x = bcrypt_hash pw (genSalt 12 rnd).
Proof.
  intros Hm Hp.
  destruct (schema_errors d) as [|m ms] eqn:Hs.
  2:{ unfold Admin_save. rewrite Hs. auto. }
  rewrite (Admin_save_password now rnd d w pw Hm Hp Hs).
  set (d1 := set_password _ d).
  assert (Hm1 : isModified d1 p_password = true)
    by (apply isModified_saved_hash; exact Hm).
  destruct (d_isNew d).
  - destruct (index_taken d (admins w)); [auto|].
    cbn. intros [H|H]%elem_of_app; [auto|].
    apply list_elem_of_singleton in H. subst x. right. reflexivity.
  - cbn. intros [H|(a & Ha & ->)]%elem_of_update_admin; [auto|].
    right. unfold apply_modified. cbn [a_password]. rewrite Hm1. reflexivity.
Qed.

(** C6. For every save of an administrator document a handler can hold.
    When the password path is modified and the save goes through, which it
    does when the schema accepts the document and, for a new one, its keys
    are free, the stored record of that document carries the bcrypt hash of
    the assigned password under a salt generated at cost 12 for this save,
    and every other record is as before.  When the path is not modified the
    stored passwords are the same afterwards.  A save that throws writes
    nothing.  So a store whose passwords are all hashes stays so. *)
Theorem pre_save_hashes_iff_modified (now : Z) (rnd : string) (d : AdminDoc)
    (w : World) :
  doc_of w d ->
  (isModified d p_password = true ->
   exists pw,
     d_password d = Some pw /\
     (schema_errors d = [] ->
      (d_isNew d = true -> index_taken d (admins w) = false) ->
      exists d1 a1,
        fst (Admin_save now rnd d w) = Return d1 /\
        Admin_find_oid (admins (snd (Admin_save now rnd d w))) (d_id d) = Some a1 /\
        a_password a1 = bcrypt_hash pw (genSalt 12 rnd) /\
        forall id, id <> d_id d ->
          Admin_find_oid (admins (snd (Admin_save now rnd d w))) id
          = Admin_find_oid (admins w) id))
  /\
  (isModified d p_password = false ->
   a_password <$> admins (snd (Admin_save now rnd d w)) = a_password <$> admins w)
  /\
  (forall e, fst (Admin_save now rnd d w) = Throw e ->
             snd (Admin_save now rnd d w) = w)
  /\
  (hashed_at_rest w -> hashed_at_rest (snd (Admin_save now rnd d w))).
Proof.
  intros Hdoc. destruct (doc_of_password _ _ Hdoc) as (Hnew & Hsome & Hstored).
  assert (Hno : isModified d p_password = false ->
    a_password <$> admins (snd (Admin_save now rnd d w)) = a_password <$> admins w).
  { intros Hm. unfold Admin_save. destruct (schema_errors d); [|reflexivity].
    rewrite (pre_save_unmodified _ _ Hm).
    destruct (d_isNew d) eqn:Hn; [rewrite (Hnew eq_refl) in Hm; discriminate|].
    destruct (d_modified d) as [|p0 m0] eqn:Hmod; cbn; [reflexivity|].
    apply update_admin_passwords. intros a. unfold apply_modified.
    cbn [a_password]. rewrite Hm. reflexivity. }
  split; [|split; [exact Hno|split; [apply Admin_save_throws|]]].
  - intros Hm. destruct (Hsome Hm) as [pw Hp]. exists pw. split; [exact Hp|].
    intros Hs Hfree. rewrite (Admin_save_password now rnd d w pw Hm Hp Hs).
    set (d1 := set_password _ d).
    assert (Hm1 : isModified d1 p_password = true)
      by (apply isModified_saved_hash; exact Hm).
    destruct (d_isNew d) eqn:Hn.
    + rewrite (Hfree eq_refl). cbn [fst snd admins with_admins].
      pose proof (proj1 (index_taken_false _ _) (Hfree eq_refl)) as Hk.
      assert (Hnone : Admin_find_oid (admins w) (d_id d) = None).
      { unfold Admin_find_oid.
        destruct (List.find _ (admins w)) as [x|] eqn:E; [|reflexivity].
        apply List.find_some in E as [Hx E]. apply list_elem_of_In in Hx.
        apply bool_decide_eq_true_1 in E. destruct (Hk x Hx) as [Hid _].
        contradiction. }
      exists (saved now d1), (to_record now d1).
      split; [reflexivity|]. rewrite find_oid_snoc, Hnone.
      change (a_id (to_record now d1)) with (d_id d).
      rewrite bool_decide_eq_true_2 by reflexivity.
      split; [reflexivity|]. split; [reflexivity|].
      intros id Hid. rewrite find_oid_snoc.
      change (a_id (to_record now d1)) with (d_id d).
      rewrite bool_decide_eq_false_2 by congruence.
      destruct (Admin_find_oid (admins w) id); reflexivity.
    + cbn [fst snd admins with_admins].
      destruct (Hstored eq_refl) as (a & Ha & Hida).
      destruct (find_oid_elem _ _ Ha) as [a0 Ha0]. rewrite Hida in Ha0.
      exists (saved now d1), (apply_modified now d1 a0).
      split; [reflexivity|].
      rewrite find_oid_update_admin by reflexivity. rewrite Ha0.
      split; [reflexivity|].
      split; [unfold apply_modified; cbn [a_password]; rewrite Hm1; reflexivity|].
      intros id Hid. apply find_oid_update_admin_other; [reflexivity|exact Hid].
  - intros Hrest x Hx. destruct (isModified d p_password) eqn:Hm.
    + destruct (Hsome eq_refl) as [pw Hp].
      destruct (Admin_save_modified now rnd d w pw x Hm Hp Hx) as [Hold| ->];
        [apply Hrest; exact Hold|].
      exists pw, rnd. reflexivity.
    + pose proof (Hno eq_refl) as Heq.
      assert (Hin : a_password x ∈ a_password <$> admins w).
      { rewrite <- Heq. apply list_elem_of_fmap. eauto. }
      apply list_elem_of_fmap in Hin as (y & -> & Hy). apply Hrest. exact Hy.
Qed.

End PasswordsAtRest.

(** C6 on the sample: the seeded account is fetched and given a new
    password, then saved; the stored record then carries the hash. *)
Lemma pre_save_hashes_witness :
  let d := set_password "s3cret-pass" (hydrate true Sample.superadmin) in
  let r := Admin_save (D := Ideal.deps) Sample.now "r2" d Sample.world in
  doc_of Sample.world d /\
  isModified d p_password = true /\
  schema_errors d = [] /\
  d_isNew d = false /\
  exists pw d1 a1,
    d_password d = Some pw /\
    fst r = Return d1 /\
    Admin_find_oid (admins (snd r)) (d_id d) = Some a1 /\
    a_password a1 = Ideal.hash pw (genSalt 12 "r2") /\
    a_password a1 <> "s3cret-pass"%string.
Proof.
  cbv zeta.
  assert (Hd : doc_of Sample.world
                 (set_password "s3cret-pass" (hydrate true Sample.superadmin))).
  { apply doc_set_password, doc_fetched. left. }
  assert (Hm : isModified (set_password "s3cret-pass" (hydrate true Sample.superadmin))
                 p_password = true) by (vm_compute; reflexivity).
  assert (Hs : schema_errors (set_password "s3cret-pass"
                                (hydrate true Sample.superadmin)) = [])
    by (vm_compute; reflexivity).
  split; [exact Hd|]. split; [exact Hm|]. split; [exact Hs|]. split; [reflexivity|].
  destruct (proj1 (pre_save_hashes_iff_modified (D := Ideal.deps) Sample.now "r2"
                     _ Sample.world Hd) Hm) as (pw & Hp & Hsave).
  destruct (Hsave Hs (fun H => False_ind _ (Bool.diff_false_true H)))
    as (d1 & a1 & Hr & Hf & Ha & _).
  exists pw, d1, a1. split; [exact Hp|]. split; [exact Hr|]. split; [exact Hf|].
  split; [exact Ha|]. rewrite Ha. discriminate.
Defined.

(** ** Changing a password *)

Section ChangePassword.

Context {D : Deps}.

Lemma units_from_le (astral : bool) (s : string) :
  (Js.units_from astral s <= String.length s)%nat.
Proof.
  revert astral. induction s as [|c s IH]; intros astral;
    cbn [Js.units_from String.length]; [lia|].
  pose proof (IH false). pose proof (IH true). cbv zeta.
  repeat destruct (Nat.ltb _ _); destruct astral; lia.
Qed.

Lemma code_units_le (s : string) : (Js.code_units s <= String.length s)%nat.
Proof. apply units_from_le. Qed.

Lemma change_password_errors_nil (currentPassword newPassword : string) :
  currentPassword <> EmptyString -> (6 <= String.length newPassword)%nat ->
  change_password_errors currentPassword newPassword = [].
Proof.
  intros Hc Hn. unfold change_password_errors.
  rewrite bool_decide_eq_false_2 by exact Hc.
  destruct (Nat.ltb_spec (String.length newPassword) 6); [lia|reflexivity].
Qed.

Lemma schema_errors_nil (d : AdminDoc) :
  schema_errors d = [] <->
  username_errors (d_username d) = [] /\ email_errors (d_email d) = [] /\
  password_errors (d_isNew d) (d_password d) = [] /\
  fullName_errors (d_fullName d) = [] /\ role_errors (d_role d) = [].
Proof.
  assert (Hnil : forall A (l1 l2 : list A), l1 ++ l2 = [] -> l1 = [] /\ l2 = [])
    by (intros A [|x l1] l2 H; [auto|discriminate]).
  unfold schema_errors. split.
  - intros H. apply Hnil in H as [H1 H]. apply Hnil in H as [H2 H].
    apply Hnil in H as [H3 H]. apply Hnil in H as [H4 H5].
    apply fmap_nil_inv in H1, H2, H3, H4, H5. auto.
  - intros (-> & -> & -> & -> & ->). reflexivity.
Qed.

Lemma password_errors_Some (isNew : bool) (p : string) :
  password_errors isNew (Some p) = [] <-> (6 <= Js.code_units p)%nat.
Proof.
  unfold password_errors. case_bool_decide as He.
  - subst p. cbn. split; [discriminate|lia].
  - destruct (Nat.ltb_spec (Js.code_units p) 6); split; try discriminate; auto; lia.
Qed.

(** The schema on a fetched document whose password has been assigned. *)
Lemma schema_errors_set_password (v : string) (sel : bool) (a : Admin) :
  schema_valid a -> (6 <= Js.code_units v)%nat ->
  schema_errors (set_password v (hydrate sel a)) = [].
Proof.
  intros Hv Hlen. apply schema_errors_nil in Hv as (Hu & He & _ & Hf & Hr).
  apply schema_errors_nil. cbn [set_password hydrate d_username d_email d_password
                                d_fullName d_role d_isNew] in *.
  rewrite (proj2 (password_errors_Some false v) Hlen). auto.
Qed.

(** When the new password differs from the string currently stored, an
    accepted change stores its bcrypt hash: the new plaintext verifies, and
    the old one no longer does when bcrypt tells it from the new one. *)
Lemma change_password_takes_effect (L : DepsLaws D) (now : Z) (rnd : string)
    (who : ReqAdmin) (currentPassword newPassword : string) (w : World)
    (a : Admin) :
  Admin_find_oid (admins w) (ra_id who) = Some a ->
  schema_valid a ->
  currentPassword <> EmptyString ->
  (6 <= Js.code_units newPassword)%nat ->
  bcrypt_compare currentPassword (a_password a) = true ->
  newPassword <> a_password a ->
  bcrypt_compare currentPassword (bcrypt_hash newPassword (genSalt 12 rnd)) = false ->
  exists w1 a1,
    change_password_handler now rnd who currentPassword newPassword w =
      (json 200 (reply_message true "Password changed successfully"), w1) /\
    Admin_find_oid (admins w1) (ra_id who) = Some a1 /\
    a_password a1 = bcrypt_hash newPassword (genSalt 12 rnd) /\
    bcrypt_compare newPassword (a_password a1) = true /\
    bcrypt_compare currentPassword (a_password a1) = false.
Proof.
  intros Hfind Hvalid Hc Hn Hcmp Hnew Hold.
  unfold change_password_handler.
  rewrite (change_password_errors_nil _ _ Hc)
    by (pose proof (code_units_le newPassword); lia).
  unfold change_password_try. rewrite Hfind.
  cbn [comparePassword hydrate d_password]. rewrite Hcmp.
  set (d := set_password newPassword (hydrate true a)).
  assert (Hm : isModified d p_password = true).
  { unfold d. rewrite isModified_set_password. unfold shouldModify.
    cbn [hydrate d_isNew d_password]. apply orb_true_iff. right.
    apply negb_true_iff, bool_decide_eq_false_2. congruence. }
  rewrite (Admin_save_password now rnd d w newPassword Hm eq_refl
             (schema_errors_set_password _ _ _ Hvalid Hn)).
  change (d_isNew d) with false. cbn iota.
  set (d1 := set_password _ d).
  assert (Hm1 : isModified d1 p_password = true)
    by (apply isModified_saved_hash; exact Hm).
  eexists _, _. split; [reflexivity|]. cbn [admins with_admins].
  change (d_id d) with (a_id a). rewrite (find_oid_id _ _ _ Hfind).
  rewrite find_oid_update_admin by reflexivity. rewrite Hfind. cbn [fmap option_fmap option_map].
  split; [reflexivity|].
  assert (Hpw : a_password (apply_modified now d1 a)
                = bcrypt_hash newPassword (genSalt 12 rnd)).
  { unfold apply_modified. cbn [a_password]. rewrite Hm1. reflexivity. }
  rewrite Hpw. split; [reflexivity|].
  split; [apply bcrypt_verifies|exact Hold].
Qed.

End ChangePassword.

(** C9 (failing input). The seeded account changes its password, correctly
    giving the current one, to the very string stored in its password field.
    The assignment does not mark the path modified, the hook skips hashing,
    nothing is written; the route answers "Password changed successfully",
    the old plaintext still verifies and the new one does not. *)
Lemma change_password_to_stored_string :
  let r := change_password (D := Ideal.deps) Sample.env Sample.now "r2"
             (Some ("Bearer " +:+ Sample.session))
             "admin123456" Sample.stored_hash Sample.world in
  "admin123456"%string <> Sample.stored_hash /\
  fst r = json 200 (reply_message true "Password changed successfully") /\
  snd r = Sample.world /\
  bcrypt_compare (Deps := Ideal.deps) "admin123456"
    (a_password Sample.superadmin) = true /\
  bcrypt_compare (Deps := Ideal.deps) Sample.stored_hash
    (a_password Sample.superadmin) = false.
Proof.
  cbv zeta. split; [vm_compute; discriminate|].
  split; [vm_compute; reflexivity|].
  split; [vm_compute; reflexivity|].
  split; vm_compute; reflexivity.
Qed.

(** ** Contact submissions *)

Lemma findOne_recent_Some (l : list Contact) (email message : string)
    (since : Z) (c : Contact) :
  Contact_findOne_recent l email message since = Some c ->
  c ∈ l /\ ct_email c = email /\ ct_message c = message /\ since <= ct_createdAt c.
Proof.
  unfold Contact_findOne_recent. intros H.
  apply List.find_some in H as [Hin H].
  apply andb_true_iff in H as [H Ht]. apply andb_true_iff in H as [He Hm].
  apply bool_decide_eq_true_1 in He. apply bool_decide_eq_true_1 in Hm.
  apply Z.leb_le in Ht. split; [apply list_elem_of_In; exact Hin|auto].
Qed.

Lemma findOne_recent_None (l : list Contact) (email message : string)
    (since : Z) (c : Contact) :
  Contact_findOne_recent l email message since = None ->
  c ∈ l -> ct_email c = email -> ct_message c = message ->
  ct_createdAt c < since.
Proof.
  unfold Contact_findOne_recent. intros H Hin He Hm.
  apply List.find_none with (x := c) in H; [|apply list_elem_of_In; exact Hin].
  rewrite !bool_decide_eq_true_2 in H by assumption. cbn in H.
  apply Z.leb_gt in H. exact H.
Qed.

(** What [sendNotificationEmail] has done when its call returns: it has
    written to the console at most. *)
Lemma sendNotificationEmail_call_store (env : Env) (mailer : Mailer)
    (c : Contact) (w : World) :
  admins (snd (sendNotificationEmail_call env mailer c w)) = admins w /\
  contacts (snd (sendNotificationEmail_call env mailer c w)) = contacts w /\
  outbox (snd (sendNotificationEmail_call env mailer c w)) = outbox w.
Proof.
  unfold sendNotificationEmail_call.
  destruct (falsy (SMTP_USER env) || falsy (ADMIN_EMAIL env))%bool; [auto|].
  destruct (createTransporter mailer); auto.
Qed.

(** C4. For a submission that passed validation, the handler answers with
    the 429 duplicate response exactly when a stored submission has the same
    email and the same message and was created at or after five minutes
    before now; in that case nothing is written and no notification is
    dispatched; otherwise the submission is appended to the collection with
    creation time now and the answer is 201. *)
Theorem duplicate_guard (env : Env) (mailer : Mailer) (now : Z) (fresh : string)
    (b : ContactBody) (ip remoteAddress userAgent : option string) (w : World) :
  let o := post_contact env mailer now fresh [] b ip remoteAddress userAgent w in
  (status (response o) = 429 <-> recent_duplicate (contacts w) b now)
  /\
  (status (response o) = 429 ->
   response o = duplicate_submission /\ at_response o = w /\ settled o = w)
  /\
  (status (response o) <> 429 ->
   let contact := Contact_new fresh b (or_else ip remoteAddress) userAgent now in
   response o = contact_created contact /\
   status (response o) = 201 /\
   contacts (at_response o) = contacts w ++ [contact] /\
   admins (at_response o) = admins w /\
   outbox (at_response o) = outbox w).
Proof.
  cbv zeta. unfold post_contact.
  destruct (Contact_findOne_recent (contacts w) (b_email b) (b_message b)
              (now - 5 * 60 * 1000)) as [c|] eqn:Hfind; cbn.
  - apply findOne_recent_Some in Hfind as (Hin & He & Hm & Ht).
    split; [|split]; [|auto|congruence].
    split; [intros _; exists c; auto|reflexivity].
  - split; [|split]; [|discriminate|].
    + split; [discriminate|]. intros (c & Hin & He & Hm & Ht).
      pose proof (findOne_recent_None _ _ _ _ c Hfind Hin He Hm). lia.
    + intros _. split; [reflexivity|]. split; [reflexivity|].
      destruct (sendNotificationEmail_call_store env mailer
                  (Contact_new fresh b (or_else ip remoteAddress) userAgent now)
                  (with_contacts
                     (contacts w
                      ++ [Contact_new fresh b (or_else ip remoteAddress) userAgent now])
                     w)) as (Ha & Hc & Ho).
      rewrite Ha, Hc, Ho. auto.
Qed.

(** ** Mail dispatch *)

Section MailDispatch.

Context {D : Deps}.

Lemma sendNotificationEmail_rest_store (p : Pending) (w : World) :
  admins (snd (sendNotificationEmail_rest p w)) = admins w /\
  contacts (snd (sendNotificationEmail_rest p w)) = contacts w.
Proof.
  destruct p as [r|sendMail mail]; cbn; [auto|].
  destruct (sendMail mail); auto.
Qed.

Lemma sendNotificationEmail_store (env : Env) (mailer : Mailer) (c : Contact)
    (w : World) :
  admins (snd (sendNotificationEmail env mailer c w)) = admins w /\
  contacts (snd (sendNotificationEmail env mailer c w)) = contacts w.
Proof.
  unfold sendNotificationEmail.
  destruct (sendNotificationEmail_rest_store
              (fst (sendNotificationEmail_call env mailer c w))
              (snd (sendNotificationEmail_call env mailer c w))) as [-> ->].
  destruct (sendNotificationEmail_call_store env mailer c w) as (Ha & Hc & _).
  auto.
Qed.

Lemma catch_log_store (p : Pending) (line : string) (w : World) :
  admins (catch_log (sendNotificationEmail_rest p) line w) = admins w /\
  contacts (catch_log (sendNotificationEmail_rest p) line w) = contacts w.
Proof.
  unfold catch_log.
  pose proof (sendNotificationEmail_rest_store p w) as [Ha Hc].
  destruct (sendNotificationEmail_rest p w) as [[u|e] w2]; cbn in *; auto.
Qed.




End MailDispatch.



(** ** Fetching a contact *)

Section GetContact.

Context {D : Deps}.

Lemma find_oid_split (l : list Contact) (oid : string) (c : Contact)
    (f : Contact -> Contact) :
  Contact_find_oid l oid = Some c ->
  ct_id c = oid /\
  exists pre post,
    l = pre ++ c :: post /\
    (forall x, x ∈ pre -> ct_id x <> oid) /\
    update_contact oid f l = pre ++ f c :: post.
Proof.
  unfold Contact_find_oid. induction l as [|a l IH]; cbn; [discriminate|].
  case_bool_decide as Ha.
  - intros [= ->]. split; [exact Ha|]. exists [], l. cbn.
    split; [reflexivity|]. split; [|reflexivity].
    intros x Hx. apply elem_of_nil in Hx. destruct Hx.
  - intros Hfind. destruct (IH Hfind) as (Hid & pre & post & -> & Hpre & Hupd).
    split; [exact Hid|]. exists (a :: pre), post. cbn.
    split; [reflexivity|]. split; [|rewrite Hupd; reflexivity].
    intros x [->|Hx]%elem_of_cons; auto.
Qed.

Lemma same_but_status_set (s : Status) (c : Contact) :
  same_but_status c (set_status s c).
Proof. unfold same_but_status. cbn. auto 12. Qed.

(** C10. Fetching a stored contact whose status is new stores it with status
    read, every other field and every other record as before, and returns
    the record so marked; fetching a contact in any other status changes
    nothing.  The admin collection, the console and the outbox are not
    touched either way. *)
Theorem get_contact_marks_read (id oid : string) (c : Contact) (w : World) :
  castObjectId id = Some oid ->
  Contact_find_oid (contacts w) oid = Some c ->
  let r := get_contact_handler id w in
  (ct_status c = st_new ->
   exists c',
     same_but_status c c' /\ ct_status c' = st_read /\
     fst r = json 200 (JObj [("success"%string, JBool true);
                             ("data"%string, contact_json c')]) /\
     exists pre post,
       contacts w = pre ++ c :: post /\
       (forall x, x ∈ pre -> ct_id x <> oid) /\
       contacts (snd r) = pre ++ c' :: post)
  /\
  (ct_status c <> st_new ->
   fst r = json 200 (JObj [("success"%string, JBool true);
                           ("data"%string, contact_json c)]) /\
   snd r = w)
  /\
  admins (snd r) = admins w /\ console (snd r) = console w /\
  outbox (snd r) = outbox w.
Proof.
  intros Hcast Hfind. cbv zeta.
  unfold get_contact_handler, get_contact_try, Contact_findById.
  rewrite Hcast, Hfind.
  destruct (find_oid_split _ _ _ (set_status st_read) Hfind)
    as (Hid & pre & post & Hl & Hpre & Hupd).
  destruct (ct_status c) eqn:Hst; cbn.
  - split; [|split; [congruence|auto]]. intros _.
    exists (set_status st_read c).
    split; [apply same_but_status_set|]. split; [reflexivity|].
    split; [reflexivity|]. exists pre, post.
    split; [exact Hl|]. split; [exact Hpre|]. rewrite Hid. exact Hupd.
  - split; [discriminate|]. split; [|auto]. intros _. split; reflexivity.
  - split; [discriminate|]. split; [|auto]. intros _. split; reflexivity.
  - split; [discriminate|]. split; [|auto]. intros _. split; reflexivity.
Qed.

End GetContact.

(** C10 on the sample: the stored inquiry is new. *)
Lemma get_contact_marks_read_witness :
  castObjectId (Deps := Ideal.deps) "64b7f3a2c1d4e5f6a7b8c9d1"
    = Some "64b7f3a2c1d4e5f6a7b8c9d1"%string /\
  Contact_find_oid (contacts Sample.world) "64b7f3a2c1d4e5f6a7b8c9d1"
    = Some Sample.inquiry /\
  ct_status Sample.inquiry = st_new /\
  exists c',
    same_but_status Sample.inquiry c' /\ ct_status c' = st_read /\
    fst (get_contact_handler (D := Ideal.deps) "64b7f3a2c1d4e5f6a7b8c9d1"
           Sample.world)
    = json 200 (JObj [("success"%string, JBool true);
                      ("data"%string, contact_json c')]) /\
    exists pre post,
      contacts Sample.world = pre ++ Sample.inquiry :: post /\
      (forall x, x ∈ pre -> ct_id x <> "64b7f3a2c1d4e5f6a7b8c9d1"%string) /\
      contacts (snd (get_contact_handler (D := Ideal.deps)
                       "64b7f3a2c1d4e5f6a7b8c9d1" Sample.world))
      = pre ++ c' :: post.
Proof.
  split; [reflexivity|]. split; [reflexivity|]. split; [reflexivity|].
  exact (proj1 (get_contact_marks_read (D := Ideal.deps)
                  "64b7f3a2c1d4e5f6a7b8c9d1" "64b7f3a2c1d4e5f6a7b8c9d1"
                  Sample.inquiry Sample.world eq_refl eq_refl) eq_refl).
Defined.

(** ** Rate limiting *)

Lemma hit_other (cfg : RateLimit) (key ip : string) (now : Z) (h : Hits) :
  key <> ip -> snd (hit cfg key now h) !! ip = h !! ip.
Proof.
  intros Hne. unfold hit.
  destruct (h !! key) as [[n reset]|]; [destruct (now <? reset)|];
    cbn; apply lookup_insert_ne; exact Hne.
Qed.

Lemma hit_in_window (cfg : RateLimit) (ip : string) (now : Z) (h : Hits)
    (n : nat) (reset : Z) :
  h !! ip = Some (n, reset) -> now < reset ->
  hit cfg ip now h = (S n, <[ip := (S n, reset)]> h).
Proof.
  intros Hh Hlt. unfold hit. rewrite Hh.
  destruct (Z.ltb_spec now reset); [reflexivity|lia].
Qed.

Lemma hit_opens_window (cfg : RateLimit) (ip : string) (now : Z) (h : Hits) :
  window_closed h ip now ->
  hit cfg ip now h = (1%nat, <[ip := (1%nat, now + windowMs cfg)]> h).
Proof.
  unfold window_closed, hit. destruct (h !! ip) as [[n reset]|]; [|reflexivity].
  intros Hle. destruct (Z.ltb_spec now reset); [lia|reflexivity].
Qed.

Lemma rateLimit_hit (cfg : RateLimit) (key : string) (now : Z) (h : Hits) :
  rateLimit cfg key now h =
    (if (max cfg <? fst (hit cfg key now h))%nat
     then Some (json 429 (JStr (rl_message cfg))) else None,
     snd (hit cfg key now h)).
Proof.
  unfold rateLimit. destruct (hit cfg key now h) as [total h1]. cbn [fst snd].
  destruct (max cfg <? total)%nat; reflexivity.
Qed.

Lemma requests_of_cons (ip k : string) (t : Z) (tr : list (string * Z)) :
  requests_of ip ((k, t) :: tr) =
    if bool_decide (k = ip) then S (requests_of ip tr) else requests_of ip tr.
Proof.
  unfold requests_of. rewrite filter_cons. cbn.
  case_decide; case_bool_decide; try reflexivity; congruence.
Qed.

(** Inside a running window that already counts [n] hits of [ip], the
    requests of [ip] that pass are the first [max - n]. *)
Lemma run_in_window (cfg : RateLimit) (ip : string) (tr : list (string * Z)) :
  forall (h : Hits) (n : nat) (reset : Z),
    h !! ip = Some (n, reset) ->
    (forall t, (ip, t) ∈ tr -> t < reset) ->
    length (passed_of ip tr (run_limiter cfg tr h))
    = Nat.min (requests_of ip tr) (max cfg - n).
Proof.
  induction tr as [|[k t] tr IH]; intros h n reset Hh Hwin.
  - reflexivity.
  - cbn [run_limiter]. rewrite rateLimit_hit. cbn [passed_of].
    rewrite requests_of_cons.
    assert (Hrest : forall t', (ip, t') ∈ tr -> t' < reset)
      by (intros t' Ht'; apply Hwin; right; exact Ht').
    case_bool_decide as Hk.
    + subst k. assert (Ht : t < reset) by (apply Hwin; left).
      rewrite (hit_in_window _ _ _ _ _ _ Hh Ht). cbn [fst snd].
      specialize (IH (<[ip := (S n, reset)]> h) (S n) reset
                     (lookup_insert_eq _ _ _) Hrest).
      destruct (Nat.ltb_spec (max cfg) (S n)) as [Hover|Hok];
        cbn -[Nat.min Nat.sub]; rewrite IH; lia.
    + cbn [andb]. apply (IH _ n reset); [|exact Hrest].
      rewrite hit_other by exact Hk. exact Hh.
Qed.

Lemma mounted_api_contact :
  mounted ["api"%string] ["api"%string; "contact"%string] = true /\
  mounted ["api"%string; "contact"%string] ["api"%string; "contact"%string] = true.
Proof.
  split; apply bool_decide_eq_true_2.
  - exists ["contact"%string]. reflexivity.
  - exists []. reflexivity.
Qed.

(** C7 (as amended). Each limiter counts per IP in a fixed window that the
    first request opens: of the requests an IP sends inside one window, the
    first [max] pass and no more, 5 per hour under /api/contact and 100 per
    15 minutes under /api/; once the count of the running window has reached
    [max] the next request in it is rejected with 429 whatever it carries.
    A contact submission reaches its handler exactly when both limiters let
    it pass, and is answered by the limiter otherwise. *)
Theorem rate_limit_per_window (ip : string) (t0 : Z) (tr : list (string * Z)) :
  (forall cfg h,
     window_closed h ip t0 ->
     (forall t, (ip, t) ∈ tr -> t < t0 + windowMs cfg) ->
     length (passed_of ip ((ip, t0) :: tr) (run_limiter cfg ((ip, t0) :: tr) h))
     = Nat.min (requests_of ip ((ip, t0) :: tr)) (max cfg))
  /\
  (max contactLimiter = 5%nat /\ windowMs contactLimiter = 3600000 /\
   max limiter = 100%nat /\ windowMs limiter = 900000)
  /\
  (forall cfg h n reset now,
     h !! ip = Some (n, reset) -> now < reset -> (max cfg <= n)%nat ->
     fst (rateLimit cfg ip now h) = Some (json 429 (JStr (rl_message cfg))))
  /\
  (forall now s,
     fst (app_limits ip ["api"%string; "contact"%string] now s) = None <->
     fst (rateLimit limiter ip now (api_hits s)) = None /\
     fst (rateLimit contactLimiter ip now (contact_hits s)) = None)
  /\
  (forall env mailer now fresh errors b userAgent s w r,
     fst (app_limits ip ["api"%string; "contact"%string] now s) = Some r ->
     fst (app_post_contact env mailer now fresh errors b ip userAgent s w)
     = answered r w).
Proof.
  split; [|split; [|split; [|split]]].
  - intros cfg h Hclosed Hwin. cbn [run_limiter]. rewrite rateLimit_hit.
    rewrite (hit_opens_window _ _ _ _ Hclosed). cbn [fst snd passed_of].
    rewrite requests_of_cons, !bool_decide_eq_true_2 by reflexivity.
    pose proof (run_in_window cfg ip tr
                  (<[ip := (1%nat, t0 + windowMs cfg)]> h) 1 (t0 + windowMs cfg)
                  (lookup_insert_eq _ _ _) Hwin) as Hrun.
    destruct (Nat.ltb_spec (max cfg) 1); cbn -[Nat.min Nat.sub];
      rewrite Hrun; lia.
  - repeat split; reflexivity.
  - intros cfg h n reset now Hh Hlt Hmax. rewrite rateLimit_hit.
    rewrite (hit_in_window _ _ _ _ _ _ Hh Hlt). cbn [fst].
    destruct (Nat.ltb_spec (max cfg) (S n)); [reflexivity|lia].
  - intros now s. unfold app_limits.
    destruct mounted_api_contact as [-> ->].
    destruct (rateLimit limiter ip now (api_hits s)) as [[r1|] h1]; cbn.
    + split; [discriminate|]. intros [H _]. discriminate.
    + destruct (rateLimit contactLimiter ip now (contact_hits s)) as [r2 h2].
      cbn. tauto.
  - intros env mailer now fresh errors b userAgent s w r Hr.
    unfold app_post_contact.
    destruct (app_limits ip _ now s) as [[r'|] s1]; cbn in Hr; [|discriminate].
    injection Hr as ->. reflexivity.
Qed.

(** C7 on the sample: six requests of one IP inside the hour its first
    request opened. *)
Lemma rate_limit_per_window_witness :
  window_closed ∅ "203.0.113.7" 0 /\
  (forall t, ("203.0.113.7"%string, t)
             ∈ replicate 5 ("203.0.113.7"%string, 1800000) ->
             t < 0 + windowMs contactLimiter) /\
  length (passed_of "203.0.113.7"
            (("203.0.113.7"%string, 0)
             :: replicate 5 ("203.0.113.7"%string, 1800000))
            (run_limiter contactLimiter
               (("203.0.113.7"%string, 0)
                :: replicate 5 ("203.0.113.7"%string, 1800000)) ∅))
  = 5%nat.
Proof.
  assert (Hc : window_closed ∅ "203.0.113.7" 0) by exact I.
  assert (Hw : forall t, ("203.0.113.7"%string, t)
                         ∈ replicate 5 ("203.0.113.7"%string, 1800000) ->
                         t < 0 + windowMs contactLimiter).
  { intros t Ht. apply elem_of_replicate in Ht as [[= ->] _]. reflexivity. }
  split; [exact Hc|]. split; [exact Hw|].
  exact (proj1 (rate_limit_per_window "203.0.113.7" 0
                  (replicate 5 ("203.0.113.7"%string, 1800000)))
               contactLimiter ∅ Hc Hw).
Defined.

(** C7 (counterexample). One IP sends a request at 0:00, four at 0:59 and
    five at 1:01.  The window opened at 0:00 ends at 1:00, so all ten pass
    the contact limiter: nine of them within the hour that starts at 0:59. *)
Lemma nine_submissions_in_one_hour :
  run_limiter contactLimiter Sample.burst ∅ = replicate 10 true /\
  count_within 3540000 (60 * 60 * 1000)
    (passed_of "203.0.113.7" Sample.burst
       (run_limiter contactLimiter Sample.burst ∅)) = 9%nat /\
  (5 < 9)%nat.
Proof. split; [|split]; [vm_compute; reflexivity|vm_compute; reflexivity|lia]. Qed.

(** * Further properties *)

(** ** The error handler *)

(** X1. The rules of the error handler overwrite one another in source
    order, so the last one that applies decides the status: a token error is
    answered 401 whatever else the error carries, a validation error 400, a
    duplicate key (code 11000) 400 even on a CastError, a CastError 404, and
    anything else its own non-zero [statusCode] or 500.  The handler throws
    only on a ValidationError without [errors]. *)
Theorem errorHandler_last_rule_wins (node_env : option string) (err : AppError)
    (w : World) :
  match fst (errorHandler node_env err w) with
  | Throw _ => e_name err = "ValidationError"%string /\ e_errors err = None
  | Return r =>
      status r =
        if (bool_decide (e_name err = "TokenExpiredError"%string)
            || bool_decide (e_name err = "JsonWebTokenError"%string))%bool
        then 401
        else if bool_decide (e_name err = "ValidationError"%string) then 400
        else if bool_decide (e_code err = Some 11000) then 400
        else if bool_decide (e_name err = "CastError"%string) then 404
        else status_or_500 (e_statusCode err)
  end.
Proof.
  unfold errorHandler.
  destruct (bool_decide (e_name err = "ValidationError"%string)) eqn:Hv.
  - apply bool_decide_eq_true_1 in Hv.
    destruct (e_errors err) as [msgs|] eqn:He; cbn [fst]; [|auto].
    rewrite Hv. reflexivity.
  - cbn [fst].
    destruct (bool_decide (e_name err = "TokenExpiredError"%string)) eqn:Ht;
      [reflexivity|].
    destruct (bool_decide (e_name err = "JsonWebTokenError"%string)) eqn:Hj;
      [reflexivity|].
    destruct (bool_decide (e_code err = Some 11000)) eqn:Hc; [reflexivity|].
    destruct (bool_decide (e_name err = "CastError"%string)); reflexivity.
Qed.

(** X2. The response of the error handler carries the stack of the error
    exactly when NODE_ENV is [development] and the error has one; in any
    other environment no stack leaves the server. *)
Theorem errorHandler_stack_only_in_development (node_env : option string)
    (err : AppError) (w : World) :
  match fst (errorHandler node_env err w) with
  | Throw _ => True
  | Return r =>
      field "stack" (body r) =
        (if bool_decide (node_env = Some "development"%string)
         then JStr <$> e_stack err else None) /\
      field "success" (body r) = Some (JBool false)
  end.
Proof.
  unfold errorHandler.
  destruct (if bool_decide (e_name err = "ValidationError"%string)
            then _ else _) as [v|e]; cbn [fst]; [|exact I].
  cbn [json body status]. split; [|reflexivity].
  destruct (bool_decide (node_env = Some "development"%string)); cbn.
  - destruct (e_stack err); reflexivity.
  - reflexivity.
Qed.

(** ** Mail *)

Section MailEdges.

Context {D : Deps}.

(** X3. When SMTP_USER or ADMIN_EMAIL is not configured, an accepted contact
    submission is stored and answered 201 all the same: the notification is
    skipped, the transport is never used, no mail leaves, and one line in
    the console says so. *)
Theorem notification_skipped_without_config (env : Env) (mailer : Mailer)
    (now : Z) (fresh : string) (b : ContactBody)
    (ip remoteAddress userAgent : option string) (w : World) :
  (falsy (SMTP_USER env) || falsy (ADMIN_EMAIL env))%bool = true ->
  let o := post_contact env mailer now fresh [] b ip remoteAddress userAgent w in
  ~ recent_duplicate (contacts w) b now ->
  status (response o) = 201 /\
  contacts (settled o) =
    contacts w ++ [Contact_new fresh b (or_else ip remoteAddress) userAgent now] /\
  outbox (settled o) = outbox w /\
  console (settled o) =
    console w ++ ["Email configuration not found, skipping notification"%string].
Proof.
  intros Hcfg o Hnodup. subst o. unfold post_contact.
  destruct (Contact_findOne_recent _ _ _ _) as [c|] eqn:Hfind.
  { exfalso. apply Hnodup. apply findOne_recent_Some in Hfind.
    exists c. exact Hfind. }
  cbn [response settled]. unfold catch_log, sendNotificationEmail_call.
  rewrite Hcfg. cbn. auto.
Qed.


Lemma find_oid_update_contact (id : string) (f : Contact -> Contact)
    (l : list Contact) :
  (forall c, ct_id (f c) = ct_id c) ->
  Contact_find_oid (update_contact id f l) id = f <$> Contact_find_oid l id.
Proof.
  intros Hf. unfold Contact_find_oid. induction l as [|a l IH]; cbn; [reflexivity|].
  case_bool_decide as Ha; cbn.
  - rewrite Hf, bool_decide_eq_true_2 by exact Ha. reflexivity.
  - rewrite bool_decide_eq_false_2 by exact Ha. exact IH.
Qed.


End MailEdges.

(** X3 on the sample: no mail configuration at all. *)
Lemma notification_skipped_witness :
  (falsy (SMTP_USER Sample.env) || falsy (ADMIN_EMAIL Sample.env))%bool = true /\
  ~ recent_duplicate (contacts Sample.world) Sample.submission
      (Sample.now + 600000) /\
  status (response (post_contact Sample.env Sample.smtp_down
                      (Sample.now + 600000) "64b7f3a2c1d4e5f6a7b8c9d2" []
                      Sample.submission (Some "203.0.113.7"%string) None None
                      Sample.world)) = 201 /\
  outbox (settled (post_contact Sample.env Sample.smtp_down
                     (Sample.now + 600000) "64b7f3a2c1d4e5f6a7b8c9d2" []
                     Sample.submission (Some "203.0.113.7"%string) None None
                     Sample.world)) = outbox Sample.world.
Proof.
  assert (Hcfg : (falsy (SMTP_USER Sample.env)
                  || falsy (ADMIN_EMAIL Sample.env))%bool = true) by reflexivity.
  assert (Hnd : ~ recent_duplicate (contacts Sample.world) Sample.submission
                    (Sample.now + 600000)).
  { intros (c & Hc & _ & _ & Ht). apply list_elem_of_singleton in Hc. subst c.
    vm_compute in Ht. apply Ht. reflexivity. }
  split; [exact Hcfg|]. split; [exact Hnd|].
  pose proof (notification_skipped_without_config Sample.env Sample.smtp_down
                (Sample.now + 600000) "64b7f3a2c1d4e5f6a7b8c9d2"
                Sample.submission (Some "203.0.113.7"%string) None None
                Sample.world Hcfg Hnd) as (H1 & _ & H3 & _).
  split; [exact H1|exact H3].
Defined.



(** ** Deleting and verifying contacts *)

Section ContactLifecycle.

Context {D : Deps}.

Lemma remove_contact_split (l : list Contact) (oid : string) (c : Contact) :
  Contact_find_oid l oid = Some c ->
  exists pre post,
    l = pre ++ c :: post /\
    (forall x, x ∈ pre -> ct_id x <> oid) /\
    remove_contact oid l = pre ++ post.
Proof.
  unfold Contact_find_oid. induction l as [|a l IH]; cbn; [discriminate|].
  case_bool_decide as Ha.
  - intros [= ->]. exists [], l. cbn. split; [reflexivity|].
    split; [|reflexivity]. intros x Hx. apply elem_of_nil in Hx. destruct Hx.
  - intros Hfind. destruct (IH Hfind) as (pre & post & -> & Hpre & Hrem).
    exists (a :: pre), post. cbn. split; [reflexivity|].
    split; [|rewrite Hrem; reflexivity].
    intros x [->|Hx]%elem_of_cons; auto.
Qed.

Lemma find_oid_None (l : list Contact) (oid : string) :
  (forall x, x ∈ l -> ct_id x <> oid) -> Contact_find_oid l oid = None.
Proof.
  intros H. unfold Contact_find_oid.
  destruct (List.find _ l) as [c|] eqn:Hf; [|reflexivity].
  apply List.find_some in Hf as [Hin Hc].
  apply bool_decide_eq_true_1 in Hc. apply list_elem_of_In in Hin.
  destruct (H c Hin Hc).
Qed.

Lemma find_oid_app (l1 l2 : list Contact) (oid : string) :
  Contact_find_oid (l1 ++ l2) oid =
    match Contact_find_oid l1 oid with
    | Some c => Some c
    | None => Contact_find_oid l2 oid
    end.
Proof.
  unfold Contact_find_oid. induction l1 as [|a l1 IH]; cbn; [reflexivity|].
  destruct (bool_decide (ct_id a = oid)); [reflexivity|exact IH].
Qed.

(** X6. Deleting a stored contact answers 200 and removes that record and no
    other, leaving the admins, the console and the outbox alone.  When ids
    are unique in the collection, the same id afterwards is unknown: fetching
    it answers 404 and deleting it again answers 404, neither changing
    anything. *)
Theorem delete_contact_removes_it (id oid : string) (c : Contact) (w : World) :
  castObjectId id = Some oid ->
  Contact_find_oid (contacts w) oid = Some c ->
  NoDup (ct_id <$> contacts w) ->
  let r := delete_contact_handler id w in
  fst r = json 200 (reply_message true "Contact deleted successfully") /\
  (exists pre post,
     contacts w = pre ++ c :: post /\ contacts (snd r) = pre ++ post) /\
  admins (snd r) = admins w /\ console (snd r) = console w /\
  outbox (snd r) = outbox w /\
  get_contact_handler id (snd r) =
    (json 404 (reply_message false "Contact not found"), snd r) /\
  delete_contact_handler id (snd r) =
    (json 404 (reply_message false "Contact not found"), snd r).
Proof.
  intros Hcast Hfind Hnd r. subst r.
  assert (Hr : delete_contact_handler id w =
                 (json 200 (reply_message true "Contact deleted successfully"),
                  with_contacts (remove_contact oid (contacts w)) w)).
  { unfold delete_contact_handler, Contact_findByIdAndDelete.
    rewrite Hcast, Hfind. reflexivity. }
  rewrite Hr. cbn [fst snd].
  destruct (remove_contact_split _ _ _ Hfind) as (pre & post & Hl & Hpre & Hrem).
  destruct (find_oid_split _ _ _ (fun x => x) Hfind) as (Hid & _).
  assert (Hgone : Contact_find_oid (remove_contact oid (contacts w)) oid = None).
  { rewrite Hrem. apply find_oid_None. intros x Hx.
    apply elem_of_app in Hx as [Hx|Hx]; [apply Hpre; exact Hx|].
    rewrite Hl, fmap_app, fmap_cons in Hnd.
    apply NoDup_app in Hnd as (_ & _ & Hnd).
    apply NoDup_cons in Hnd as [Hnotin _].
    intros Heq. apply Hnotin. rewrite Hid, <- Heq.
    apply list_elem_of_fmap. exists x. split; [reflexivity|exact Hx]. }
  split; [reflexivity|].
  split; [exists pre, post; split; [exact Hl|exact Hrem]|].
  split; [reflexivity|]. split; [reflexivity|]. split; [reflexivity|].
  split.
  - unfold get_contact_handler, get_contact_try, Contact_findById.
    rewrite Hcast. cbn [contacts with_contacts]. rewrite Hgone. reflexivity.
  - unfold delete_contact_handler, Contact_findByIdAndDelete.
    rewrite Hcast. cbn [contacts with_contacts]. rewrite Hgone. reflexivity.
Qed.

(** X7. Deleting with an id that matches no stored contact answers 404 and
    changes nothing; with an id that is no ObjectId the lookup throws, the
    answer is 500 and only the console gets a line.  In both cases the
    collection is as before. *)
Theorem delete_contact_unknown (id : string) (w : World) :
  (forall c, Contact_findById (contacts w) id <> Return (Some c)) ->
  let r := delete_contact_handler id w in
  contacts (snd r) = contacts w /\ admins (snd r) = admins w /\
  outbox (snd r) = outbox w /\
  match castObjectId id with
  | Some _ => r = (json 404 (reply_message false "Contact not found"), w)
  | None => r = (json 500 (reply_message false "Failed to delete contact"),
                 log "Delete contact error:" w)
  end.
Proof.
  intros Hnone r. subst r.
  unfold delete_contact_handler, Contact_findByIdAndDelete.
  unfold Contact_findById in Hnone.
  destruct (castObjectId id) as [oid|]; [|cbn; auto].
  destruct (Contact_find_oid (contacts w) oid) as [c|]; [|cbn; auto].
  destruct (Hnone c eq_refl).
Qed.

(** X8. The id a client receives for an accepted submission verifies: with a
    fresh ObjectId, POST /api/contact/verify on that id answers 200 with the
    same id, status new and the submission time, both right after the
    response and once the notification has settled. *)
Theorem submitted_contact_verifies (env : Env) (mailer : Mailer) (now : Z)
    (fresh : string) (b : ContactBody)
    (ip remoteAddress userAgent : option string) (w : World) :
  fresh <> EmptyString ->
  castObjectId fresh = Some fresh ->
  (forall c, c ∈ contacts w -> ct_id c <> fresh) ->
  ~ recent_duplicate (contacts w) b now ->
  let o := post_contact env mailer now fresh [] b ip remoteAddress userAgent w in
  let verified :=
    json 200 (JObj [("success"%string, JBool true);
                    ("data"%string,
                     JObj [("id"%string, JStr fresh);
                           ("status"%string, JStr "new");
                           ("submittedAt"%string, JDate now)])]) in
  field "data" (body (response o)) =
    Some (JObj [("id"%string, JStr fresh); ("submittedAt"%string, JDate now)]) /\
  verify_contact (Some fresh) (at_response o) = (verified, at_response o) /\
  verify_contact (Some fresh) (settled o) = (verified, settled o).
Proof.
  intros Hne Hcast Hfresh Hnodup o verified. subst o verified.
  unfold post_contact.
  destruct (Contact_findOne_recent _ _ _ _) as [c|] eqn:Hfind.
  { exfalso. apply Hnodup. apply findOne_recent_Some in Hfind.
    exists c. exact Hfind. }
  cbn [response at_response settled].
  set (c := Contact_new _ _ _ _ _). set (w1 := with_contacts _ w).
  assert (Hverify : forall w2, contacts w2 = contacts w ++ [c] ->
            verify_contact (Some fresh) w2 =
              (json 200 (JObj [("success"%string, JBool true);
                    ("data"%string,
                     JObj [("id"%string, JStr fresh);
                           ("status"%string, JStr "new");
                           ("submittedAt"%string, JDate now)])]), w2)).
  { intros w2 Hw2. unfold verify_contact, verify_try.
    assert (Hf : falsy (Some fresh) = false) by (apply falsy_Some; exact Hne).
    rewrite Hf. cbn [default from_option]. unfold Datatypes.id.
    unfold Contact_findById. rewrite Hcast, Hw2.
    assert (Hfo : Contact_find_oid (contacts w ++ [c]) fresh = Some c).
    { rewrite find_oid_app, (find_oid_None _ _ Hfresh).
      unfold Contact_find_oid. cbn.
      rewrite bool_decide_eq_true_2 by reflexivity. reflexivity. }
    rewrite Hfo. reflexivity. }
  destruct (sendNotificationEmail_call_store env mailer c w1) as (_ & Hc & _).
  split; [reflexivity|]. split; [apply Hverify; exact Hc|].
  apply Hverify.
  destruct (catch_log_store (fst (sendNotificationEmail_call env mailer c w1))
              "Failed to send notification email:"
              (snd (sendNotificationEmail_call env mailer c w1))) as [_ ->].
  exact Hc.
Qed.

(** X9. POST /api/contact/verify never writes: a request without a contact
    id is answered 400, an id that is no ObjectId 500, an ObjectId no stored
    contact carries 404, and in every case the store is as before. *)
Theorem verify_contact_failures (contactId : option string) (w : World) :
  let r := verify_contact contactId w in
  admins (snd r) = admins w /\ contacts (snd r) = contacts w /\
  outbox (snd r) = outbox w /\
  (falsy contactId = true ->
   r = (json 400 (reply_message false "Contact ID is required"), w)) /\
  (forall id, contactId = Some id -> id <> EmptyString ->
     match castObjectId id with
     | None =>
         r = (json 500 (reply_message false "Failed to verify contact submission"),
              log "Contact verification error:" w)
     | Some oid =>
         Contact_find_oid (contacts w) oid = None ->
         r = (json 404 (reply_message false "Contact submission not found"), w)
     end).
Proof.
  cbv zeta. unfold verify_contact.
  assert (Hframe : forall x : Exc Response,
            admins (match x with
                    | Return r => (r, w)
                    | Throw _ => (json 500 (reply_message false
                                    "Failed to verify contact submission"),
                                  log "Contact verification error:" w)
                    end).2 = admins w /\
            contacts (match x with
                    | Return r => (r, w)
                    | Throw _ => (json 500 (reply_message false
                                    "Failed to verify contact submission"),
                                  log "Contact verification error:" w)
                    end).2 = contacts w /\
            outbox (match x with
                    | Return r => (r, w)
                    | Throw _ => (json 500 (reply_message false
                                    "Failed to verify contact submission"),
                                  log "Contact verification error:" w)
                    end).2 = outbox w)
    by (intros [r|e]; cbn; auto).
  destruct (Hframe (verify_try contactId w)) as (Ha & Hc & Ho).
  split; [exact Ha|]. split; [exact Hc|]. split; [exact Ho|].
  split.
  - intros Hf. unfold verify_try. rewrite Hf. reflexivity.
  - intros id -> Hne. unfold verify_try.
    assert (Hf : falsy (Some id) = false) by (apply falsy_Some; exact Hne).
    rewrite Hf. cbn [default from_option]. unfold Datatypes.id, Contact_findById.
    destruct (castObjectId id) as [oid|]; [|reflexivity].
    intros ->. reflexivity.
Qed.

End ContactLifecycle.

(** X6 on the sample: the stored inquiry is deleted. *)
Lemma delete_contact_witness :
  castObjectId (Deps := Ideal.deps) (ct_id Sample.inquiry)
    = Some (ct_id Sample.inquiry) /\
  Contact_find_oid (contacts Sample.world) (ct_id Sample.inquiry)
    = Some Sample.inquiry /\
  NoDup (ct_id <$> contacts Sample.world) /\
  fst (delete_contact_handler (D := Ideal.deps) (ct_id Sample.inquiry) Sample.world)
    = json 200 (reply_message true "Contact deleted successfully") /\
  get_contact_handler (D := Ideal.deps) (ct_id Sample.inquiry)
    (snd (delete_contact_handler (D := Ideal.deps) (ct_id Sample.inquiry)
            Sample.world))
  = (json 404 (reply_message false "Contact not found"),
     snd (delete_contact_handler (D := Ideal.deps) (ct_id Sample.inquiry)
            Sample.world)).
Proof.
  assert (Hnd : NoDup (ct_id <$> contacts Sample.world)).
  { apply NoDup_singleton. }
  split; [reflexivity|]. split; [reflexivity|]. split; [exact Hnd|].
  pose proof (delete_contact_removes_it (D := Ideal.deps)
                (ct_id Sample.inquiry) (ct_id Sample.inquiry) Sample.inquiry
                Sample.world eq_refl eq_refl Hnd) as (H1 & _ & _ & _ & _ & H6 & _).
  split; [exact H1|exact H6].
Defined.

(** X7 on the sample: an id that is no ObjectId. *)
Lemma delete_contact_unknown_witness :
  (forall c, Contact_findById (D := Ideal.deps) (contacts Sample.world) "abc"
             <> Return (Some c)) /\
  delete_contact_handler (D := Ideal.deps) "abc" Sample.world
  = (json 500 (reply_message false "Failed to delete contact"),
     log "Delete contact error:" Sample.world).
Proof.
  assert (H : forall c, Contact_findById (D := Ideal.deps)
                          (contacts Sample.world) "abc" <> Return (Some c))
    by (intros c; discriminate).
  split; [exact H|].
  exact (proj2 (proj2 (proj2 (delete_contact_unknown (D := Ideal.deps) "abc"
                                 Sample.world H)))).
Defined.

(** X8 on the sample: a second inquiry, with a fresh id. *)
Lemma submitted_contact_verifies_witness :
  "64b7f3a2c1d4e5f6a7b8c9d2"%string <> EmptyString /\
  castObjectId (Deps := Ideal.deps) "64b7f3a2c1d4e5f6a7b8c9d2"
    = Some "64b7f3a2c1d4e5f6a7b8c9d2"%string /\
  (forall c, c ∈ contacts Sample.world ->
             ct_id c <> "64b7f3a2c1d4e5f6a7b8c9d2"%string) /\
  ~ recent_duplicate (contacts Sample.world) Sample.submission
      (Sample.now + 600000) /\
  fst (verify_contact (D := Ideal.deps) (Some "64b7f3a2c1d4e5f6a7b8c9d2"%string)
         (settled (post_contact Sample.mail_env Sample.smtp_down
                     (Sample.now + 600000) "64b7f3a2c1d4e5f6a7b8c9d2" []
                     Sample.submission (Some "203.0.113.7"%string) None None
                     Sample.world)))
  = json 200 (JObj [("success"%string, JBool true);
                    ("data"%string,
                     JObj [("id"%string, JStr "64b7f3a2c1d4e5f6a7b8c9d2");
                           ("status"%string, JStr "new");
                           ("submittedAt"%string, JDate (Sample.now + 600000))])]).
Proof.
  assert (Hne : "64b7f3a2c1d4e5f6a7b8c9d2"%string <> EmptyString) by discriminate.
  assert (Hfresh : forall c, c ∈ contacts Sample.world ->
                             ct_id c <> "64b7f3a2c1d4e5f6a7b8c9d2"%string).
  { intros c Hc. apply list_elem_of_singleton in Hc. subst c. discriminate. }
  assert (Hnd : ~ recent_duplicate (contacts Sample.world) Sample.submission
                    (Sample.now + 600000)).
  { intros (c & Hc & _ & _ & Ht). apply list_elem_of_singleton in Hc. subst c.
    vm_compute in Ht. apply Ht. reflexivity. }
  split; [exact Hne|]. split; [reflexivity|]. split; [exact Hfresh|].
  split; [exact Hnd|].
  pose proof (submitted_contact_verifies (D := Ideal.deps) Sample.mail_env
                Sample.smtp_down (Sample.now + 600000)
                "64b7f3a2c1d4e5f6a7b8c9d2" Sample.submission
                (Some "203.0.113.7"%string) None None Sample.world
                Hne eq_refl Hfresh Hnd) as (_ & _ & H3).
  rewrite H3. reflexivity.
Defined.

(** ** Public statistics *)

Lemma count_since_le (since : Z) (l : list Contact) :
  (count_since since l <= length l)%nat.
Proof. unfold count_since. apply List.filter_length_le. Qed.

Lemma count_since_app (since : Z) (l1 l2 : list Contact) :
  count_since since (l1 ++ l2) = (count_since since l1 + count_since since l2)%nat.
Proof. unfold count_since. rewrite List.filter_app, length_app. reflexivity. Qed.

(** X10. The public statistics count what is stored: today's count never
    exceeds the total; a submission accepted at a time not before the start
    of the day raises both by exactly one, and a submission that is rejected
    (validation or duplicate) leaves both as they were. *)
Theorem stats_follow_submissions (env : Env) (mailer : Mailer) (now : Z)
    (fresh : string) (errors : list Json) (b : ContactBody)
    (ip remoteAddress userAgent : option string) (midnight : Z) (w : World) :
  midnight <= now ->
  let o := post_contact env mailer now fresh errors b ip remoteAddress userAgent w in
  let total := length (contacts w) in
  let today := count_since midnight (contacts w) in
  (today <= total)%nat /\
  fst (contact_stats midnight w) = stats_response total today /\
  (status (response o) = 201 ->
   fst (contact_stats midnight (settled o)) = stats_response (S total) (S today)) /\
  (status (response o) <> 201 ->
   fst (contact_stats midnight (settled o)) = stats_response total today).
Proof.
  intros Hmid o total today. subst o total today.
  split; [apply count_since_le|]. split; [reflexivity|].
  unfold post_contact. destruct errors as [|e errors].
  - destruct (Contact_findOne_recent _ _ _ _) as [c|].
    + cbn. split; [discriminate|reflexivity].
    + cbn [response settled]. split; [|intros H; destruct (H eq_refl)].
      intros _.
      set (c := Contact_new _ _ _ _ _). set (w1 := with_contacts _ w).
      destruct (sendNotificationEmail_call_store env mailer c w1) as (_ & Hc & _).
      assert (Hcs : forall w2, contacts w2 = contacts w ++ [c] ->
                fst (contact_stats midnight w2)
                = stats_response (S (length (contacts w)))
                    (S (count_since midnight (contacts w)))).
      { intros w2 Hw2. unfold contact_stats. cbn [fst]. rewrite Hw2.
        rewrite length_app, count_since_app. cbn [length].
        unfold count_since at 2. cbn [List.filter ct_createdAt c Contact_new].
        destruct (Z.leb_spec midnight now); [|lia]. cbn [length].
        f_equal; lia. }
      apply Hcs.
      destruct (catch_log_store (fst (sendNotificationEmail_call env mailer c w1))
                  "Failed to send notification email:"
                  (snd (sendNotificationEmail_call env mailer c w1))) as [_ ->].
      exact Hc.
  - cbn. split; [discriminate|reflexivity].
Qed.

(** X10 on the sample: a new inquiry, ten minutes after the stored one. *)
Lemma stats_follow_submissions_witness :
  Sample.now <= Sample.now + 600000 /\
  fst (contact_stats Sample.now Sample.world) = stats_response 1 0 /\
  fst (contact_stats Sample.now
         (settled (post_contact Sample.env Sample.smtp_down
                     (Sample.now + 600000) "64b7f3a2c1d4e5f6a7b8c9d2" []
                     Sample.submission (Some "203.0.113.7"%string) None None
                     Sample.world)))
  = stats_response 2 1.
Proof.
  assert (Hm : Sample.now <= Sample.now + 600000) by (vm_compute; discriminate).
  split; [exact Hm|].
  pose proof (stats_follow_submissions Sample.env Sample.smtp_down
                (Sample.now + 600000) "64b7f3a2c1d4e5f6a7b8c9d2" []
                Sample.submission (Some "203.0.113.7"%string) None None
                Sample.now Sample.world Hm) as (_ & H2 & H3 & _).
  split; [exact H2|]. apply H3. reflexivity.
Defined.

(** ** Listing contacts *)

Lemma insert_newest_perm (c : Contact) (l : list Contact) :
  insert_newest c l ≡ₚ c :: l.
Proof.
  induction l as [|x r IH]; cbn; [reflexivity|].
  destruct (ct_createdAt x <? ct_createdAt c); [reflexivity|].
  rewrite IH. apply Permutation_swap.
Qed.

Lemma sort_newest_perm (l : list Contact) : sort_newest l ≡ₚ l.
Proof.
  induction l as [|c r IH]; cbn; [reflexivity|].
  rewrite insert_newest_perm, IH. reflexivity.
Qed.

Lemma insert_newest_sorted (c : Contact) (l : list Contact) :
  StronglySorted newest_first l -> StronglySorted newest_first (insert_newest c l).
Proof.
  induction 1 as [|x r Hr IH Hx]; cbn.
  - constructor; constructor.
  - destruct (Z.ltb_spec (ct_createdAt x) (ct_createdAt c)) as [Hlt|Hge].
    + constructor; [constructor; assumption|].
      constructor; [unfold newest_first; lia|].
      eapply Forall_impl; [exact Hx|]. unfold newest_first. intros y Hy. lia.
    + constructor; [exact IH|].
      rewrite insert_newest_perm. constructor; [exact Hge|exact Hx].
Qed.

Lemma sort_newest_sorted (l : list Contact) :
  StronglySorted newest_first (sort_newest l).
Proof.
  induction l as [|c r IH]; cbn; [constructor|].
  apply insert_newest_sorted. exact IH.
Qed.

Lemma page_of_sorted (found : list Contact) (page limit : Z) :
  StronglySorted newest_first found ->
  StronglySorted newest_first (page_of found page limit).
Proof.
  intros Hs. unfold page_of.
  set (n := Z.to_nat ((page - 1) * limit)). set (m := Z.to_nat limit).
  rewrite <- (take_drop n found) in Hs.
  apply StronglySorted_app_1_r in Hs.
  rewrite <- (take_drop m (skipn n found)) in Hs.
  apply StronglySorted_app_1_l in Hs. exact Hs.
Qed.

Lemma found_length (q : ContactQuery) (l : list Contact) :
  length (Contact_find_sorted q l) = length (List.filter (contact_filter q) l).
Proof.
  unfold Contact_find_sorted. apply Permutation_length, sort_newest_perm.
Qed.

Lemma num_or_validated (q : ContactQuery) :
  query_validated q ->
  1 <= num_or (q_page q) 1 /\ 1 <= num_or (q_limit q) 10 <= 100.
Proof.
  intros [Hp Hl]. unfold num_or.
  destruct (q_page q) as [p|]; destruct (q_limit q) as [l|];
    try specialize (Hp _ eq_refl); try specialize (Hl _ eq_refl);
    repeat match goal with |- context [?x =? 0] => destruct (Z.eqb_spec x 0) end;
    lia.
Qed.

(** X11. For a query the validators admit, the listing answers 200 with one
    page: at most [limit] contacts, 10 when no limit is given and never more
    than 100, each a stored contact that satisfies the filter, ordered
    newest first, and the store is left as it was. *)
Theorem listed_page_is_bounded (q : ContactQuery) (w : World) :
  query_validated q ->
  let page := num_or (q_page q) 1 in
  let limit := num_or (q_limit q) 10 in
  let total := Z.of_nat (length (List.filter (contact_filter q) (contacts w))) in
  let items := page_of (Contact_find_sorted q (contacts w)) page limit in
  list_contacts_handler [] q w = (contacts_page items page limit total, w) /\
  Z.of_nat (length items) <= limit /\ limit <= 100 /\
  (q_limit q = None -> limit = 10) /\
  (forall c, c ∈ items -> c ∈ contacts w /\ contact_filter q c = true) /\
  StronglySorted newest_first items.
Proof.
  intros Hq page limit total items.
  destruct (num_or_validated q Hq) as [Hp Hl]. fold page limit in Hp, Hl.
  split; [reflexivity|]. split; [|split; [lia|split; [|split]]].
  - unfold items, page_of. rewrite length_take. lia.
  - intros Hnone. unfold limit. rewrite Hnone. reflexivity.
  - intros c Hc. unfold items, page_of in Hc.
    apply subseteq_take, subseteq_drop in Hc.
    unfold Contact_find_sorted in Hc.
    rewrite sort_newest_perm in Hc. apply list_elem_of_In in Hc.
    apply List.filter_In in Hc as [Hin Hf].
    split; [apply list_elem_of_In; exact Hin|exact Hf].
  - apply page_of_sorted, sort_newest_sorted.
Qed.

(** X11 on the sample: the second page of two out of five contacts. *)
Lemma listed_page_witness :
  query_validated Scenario.second_page /\
  list_contacts_handler [] Scenario.second_page Scenario.inbox
  = (contacts_page
       [Scenario.contact_at "64b7f3a2c1d4e5f6a7b8c9e3" "C" st_new 3000;
        Scenario.contact_at "64b7f3a2c1d4e5f6a7b8c9e5" "E" st_new 2000]
       2 2 5, Scenario.inbox).
Proof.
  assert (Hq : query_validated Scenario.second_page).
  { split; intros x [= <-]; lia. }
  split; [exact Hq|].
  exact (proj1 (listed_page_is_bounded Scenario.second_page Scenario.inbox Hq)).
Defined.

Lemma ceil_div_bounds (total limit : Z) :
  1 <= limit ->
  (ceil_div total limit - 1) * limit < total <= ceil_div total limit * limit.
Proof.
  intros Hl. unfold ceil_div.
  pose proof (Z.div_mod (- total) limit ltac:(lia)) as Hdm.
  pose proof (Z.mod_pos_bound (- total) limit ltac:(lia)) as Hm.
  nia.
Qed.

Lemma chunks_concat (n : nat) (l : list Contact) (k : nat) :
  List.concat (List.map (fun i => firstn n (skipn (i * n) l)) (List.seq 0 k))
  = firstn (k * n) l.
Proof.
  induction k as [|k IH]; [reflexivity|].
  rewrite List.seq_S, List.map_app, List.concat_app, IH. cbn.
  rewrite app_nil_r, take_take_drop. f_equal. lia.
Qed.

Lemma page_slice_nil (n m : nat) (l : list Contact) :
  (1 <= n)%nat -> firstn n (skipn m l) = [] <-> (length l <= m)%nat.
Proof.
  intros Hn. split.
  - intros H. apply take_nil_inv in H as [H|H]; [lia|].
    apply drop_nil_inv in H. exact H.
  - intros H. rewrite drop_ge by exact H. apply take_nil.
Qed.

(** X12. The pagination block of the listing agrees with the data: [pages]
    is the least number of pages of [limit] that hold all matching contacts;
    [hasNext] is true exactly when the next page is not empty; a page past
    the last one is empty; and the pages from 1 to [pages], one after the
    other, are the matching contacts newest first, each exactly once. *)
Theorem pagination_is_consistent (q : ContactQuery) (w : World) :
  query_validated q ->
  let page := num_or (q_page q) 1 in
  let limit := num_or (q_limit q) 10 in
  let found := Contact_find_sorted q (contacts w) in
  let total := Z.of_nat (length found) in
  let pages := ceil_div total limit in
  fst (list_contacts_handler [] q w)
  = contacts_page (page_of found page limit) page limit total /\
  (pages - 1) * limit < total <= pages * limit /\
  ((page <? pages) = true <-> page_of found (page + 1) limit <> []) /\
  (pages < page -> page_of found page limit = []) /\
  List.concat (List.map (fun i => page_of found (Z.of_nat i + 1) limit)
                 (List.seq 0 (Z.to_nat pages))) = found.
Proof.
  intros Hq page limit found total pages.
  destruct (num_or_validated q Hq) as [Hp Hl]. fold page limit in Hp, Hl.
  pose proof (ceil_div_bounds total limit ltac:(lia)) as Hb. fold pages in Hb.
  assert (Hn : (1 <= Z.to_nat limit)%nat) by lia.
  split; [|split; [exact Hb|split; [|split]]].
  - unfold list_contacts_handler. cbn [fst]. fold page limit found.
    rewrite <- found_length. reflexivity.
  - unfold page_of. rewrite Z.ltb_lt.
    rewrite (not_iff_compat (page_slice_nil _ _ _ Hn)).
    replace (page + 1 - 1) with page by lia. unfold total in *. split.
    + intros Hlt. nia.
    + intros Hlen. nia.
  - intros Hlt. unfold page_of. apply page_slice_nil; [exact Hn|].
    unfold total in *. nia.
  - rewrite (List.map_ext _
               (fun i => firstn (Z.to_nat limit)
                           (skipn (i * Z.to_nat limit) found))).
    + rewrite chunks_concat. apply take_ge. unfold total in *. nia.
    + intros i. unfold page_of. do 2 f_equal. nia.
Qed.

(** X12 on the sample: five contacts in pages of two. *)
Lemma pagination_witness :
  query_validated Scenario.second_page /\
  ceil_div 5 2 = 3 /\
  page_of (Contact_find_sorted Scenario.second_page (contacts Scenario.inbox))
    (2 + 1) 2 <> [] /\
  List.concat
    (List.map
       (fun i => page_of (Contact_find_sorted Scenario.second_page
                            (contacts Scenario.inbox)) (Z.of_nat i + 1) 2)
       (List.seq 0 3))
  = Contact_find_sorted Scenario.second_page (contacts Scenario.inbox).
Proof.
  assert (Hq : query_validated Scenario.second_page).
  { split; intros x [= <-]; lia. }
  split; [exact Hq|]. split; [reflexivity|].
  pose proof (pagination_is_consistent Scenario.second_page Scenario.inbox Hq)
    as (_ & _ & Hnext & _ & Hall).
  split; [apply Hnext; reflexivity|exact Hall].
Defined.

(** ** Accounts: creation, reset, sessions *)

Section AccountLemmas.

Context {D : Deps}.

(** A request with a valid session passes the middleware, which fills
    [req.admin] from the stored record and leaves the world as it is. *)
Lemma authenticateAdmin_session (env : Env) (now : Z)
    (authorization : option string) (w : World) (a : Admin) :
  valid_session env now authorization w a ->
  authenticateAdmin env now authorization w = (Next (req_admin a), w).
Proof.
  intros (h & c & oid & -> & Hne & Hw & Hlt & Hcast & Hfind & Hact).
  unfold authenticateAdmin. rewrite (authenticateAdmin_with_token _ _ _ _ Hne).
  rewrite (proj2 (jwt_verify_Return _ _ now c) (conj Hw Hlt)). cbn.
  unfold Admin_findById. rewrite Hcast. cbn. rewrite Hfind, Hact. reflexivity.
Qed.

Lemma app_nil_inv {A} (l1 l2 : list A) : l1 ++ l2 = [] -> l1 = [] /\ l2 = [].
Proof. destruct l1; [auto|discriminate]. Qed.

(** What the save of a new document does when it goes through. *)
Lemma Admin_save_new (now : Z) (rnd : string) (d : AdminDoc) (w : World)
    (pw : string) :
  d_isNew d = true -> isModified d p_password = true -> d_password d = Some pw ->
  schema_errors d = [] -> index_taken d (admins w) = false ->
  let d1 := set_password (bcrypt_hash pw (genSalt 12 rnd)) d in
  Admin_save now rnd d w =
    (Return (saved now d1), with_admins (admins w ++ [to_record now d1]) w).
Proof.
  intros Hnew Hm Hp Hs Hi d1. unfold Admin_save.
  rewrite Hs, (pre_save_modified _ _ _ Hm Hp). fold d1.
  change (d_isNew d1) with (d_isNew d). rewrite Hnew.
  change (index_taken d1 (admins w)) with (index_taken d (admins w)).
  rewrite Hi. reflexivity.
Qed.

(** What the save of a new document can leave behind: the collection
    as it was, or one more record under keys that were free. *)
Lemma Admin_save_new_inv (now : Z) (rnd : string) (d : AdminDoc) (w : World) :
  d_isNew d = true ->
  let r := Admin_save now rnd d w in
  (exists e, fst r = Throw e /\ snd r = w) \/
  (exists d1 a,
     fst r = Return d1 /\ snd r = with_admins (admins w ++ [a]) w /\
     schema_errors d = [] /\ index_taken d (admins w) = false /\
     a_id a = d_id d /\ a_username a = d_username d /\ a_email a = d_email d /\
     a_role a = d_role d /\ a_isActive a = d_isActive d /\
     d_id d1 = d_id d /\ d_username d1 = d_username d /\ d_email d1 = d_email d /\
     d_role d1 = d_role d /\ d_fullName d1 = d_fullName d).
Proof.
  intros Hnew r. subst r. unfold Admin_save.
  destruct (schema_errors d) as [|m ms] eqn:Hs; [|left; eauto].
  destruct (pre_save rnd d) as [d1|e] eqn:Hpre; [|left; eauto].
  assert (Hd1 : d_isNew d1 = true /\ d_id d1 = d_id d /\
                d_username d1 = d_username d /\ d_email d1 = d_email d /\
                d_role d1 = d_role d /\ d_fullName d1 = d_fullName d /\
                d_isActive d1 = d_isActive d).
  { revert Hpre. unfold pre_save. destruct (negb _).
    - intros [= <-]. auto 10.
    - destruct (d_password d); [|discriminate]. intros [= <-]. cbn. auto 10. }
  destruct Hd1 as (Hn1 & Hi1 & Hu1 & He1 & Hr1 & Hf1 & Ha1). rewrite Hn1.
  assert (Hix : index_taken d1 (admins w) = index_taken d (admins w))
    by (unfold index_taken; rewrite Hi1, Hu1, He1; reflexivity).
  rewrite Hix. destruct (index_taken d (admins w)) eqn:Hi; [left; eauto|].
  right. eexists _, _. cbn [fst snd]. split; [reflexivity|].
  split; [reflexivity|]. cbn. auto 20.
Qed.

Lemma unique_keys_snoc (l : list Admin) (a : Admin) :
  unique_keys l ->
  (forall x, x ∈ l ->
     a_id x <> a_id a /\ a_username x <> a_username a /\ a_email x <> a_email a) ->
  unique_keys (l ++ [a]).
Proof.
  intros (Hi & Hu & He) Hfree. unfold unique_keys. rewrite !fmap_app. cbn.
  repeat split; apply NoDup_app; (split; [assumption|]);
    (split; [|apply NoDup_singleton]);
    intros k Hk Hk'; apply list_elem_of_singleton in Hk'; subst k;
    apply list_elem_of_fmap in Hk as (x & Hx & Hin);
    destruct (Hfree x Hin) as (? & ? & ?); congruence.
Qed.

End AccountLemmas.

Section Patterns.

Variable P : ascii -> Prop.

Lemma within_cat (a b : Re.t) : within P a -> within P b -> within P (Re.cat a b).
Proof. intros Ha Hb. destruct a, b; cbn in *; auto. Qed.

Lemma within_alt1 (x b : Re.t) : within P x -> within P b -> within P (Re.alt1 x b).
Proof.
  intros Hx Hb. unfold Re.alt1.
  destruct x; try exact Hb; destruct b; try exact Hx;
    destruct (Re.among _ _); cbn in *; auto.
Qed.

Lemma within_alt (a b : Re.t) : within P a -> within P b -> within P (Re.alt a b).
Proof.
  revert b. induction a as [| |k|a1 _ a2 _|a1 _ a2 IH2|a1 _]; intros b Ha Hb;
    try (apply within_alt1; assumption).
  cbn. destruct Ha as [H1 H2]. apply within_alt1; [exact H1|]. apply IH2; assumption.
Qed.

Lemma within_deriv (c : ascii) (r : Re.t) : within P r -> within P (Re.deriv c r).
Proof.
  induction r as [| |k|a IHa b IHb|a IHa b IHb|a IHa]; cbn; intros H; auto.
  - destruct (Re.accepts k c); exact I.
  - destruct H as [Ha Hb]. apply within_alt.
    + apply within_cat; auto.
    + destruct (Re.nullable a); cbn; auto.
  - destruct H as [Ha Hb]. apply within_alt; auto.
  - apply within_cat; cbn; auto.
Qed.

(** A character no class accepts leaves nothing to match. *)
Lemma deriv_outside (c : ascii) (r : Re.t) :
  within P r -> ~ P c -> Re.deriv c r = Re.Void.
Proof.
  intros Hr Hc. induction r as [| |k|a IHa b IHb|a IHa b IHb|a IHa]; cbn in *; auto.
  - destruct (Re.accepts k c) eqn:E; [|reflexivity]. destruct Hc. auto.
  - destruct Hr as [Ha Hb]. rewrite (IHa Ha), (IHb Hb).
    destruct (Re.nullable a); reflexivity.
  - destruct Hr as [Ha Hb]. rewrite (IHa Ha), (IHb Hb). reflexivity.
  - rewrite (IHa Hr). reflexivity.
Qed.

Lemma test_Void (s : string) : Re.test Re.Void s = false.
Proof. induction s; cbn; auto. Qed.

Hypothesis P_dec : forall c, P c \/ ~ P c.

Lemma test_within (r : Re.t) (s : string) :
  within P r -> Re.test r s = true -> Forall P (chars s).
Proof.
  revert r. induction s as [|c s IH]; intros r Hr Ht; cbn in *.
  - constructor.
  - constructor.
    + destruct (P_dec c) as [Hc|Hc]; [exact Hc|].
      rewrite (deriv_outside c r Hr Hc), test_Void in Ht. discriminate.
    + apply (IH (Re.deriv c r)); [apply within_deriv; exact Hr|exact Ht].
Qed.

Lemma through_not_nullable (r : Re.t) : through P r -> Re.nullable r = false.
Proof.
  induction r as [| |k|a IHa b IHb|a IHa b IHb|a IHa]; cbn; intros H; auto.
  - destruct H.
  - destruct H as [H|H]; [rewrite (IHa H)|rewrite (IHb H), andb_false_r]; reflexivity.
  - destruct H as [Ha Hb]. rewrite (IHa Ha), (IHb Hb). reflexivity.
  - destruct H.
Qed.

Lemma through_cat (a b : Re.t) :
  through P a \/ through P b -> through P (Re.cat a b).
Proof. intros H. destruct a, b; cbn in *; tauto. Qed.

Lemma through_alt1 (x b : Re.t) :
  through P x -> through P b -> through P (Re.alt1 x b).
Proof.
  intros Hx Hb. unfold Re.alt1.
  destruct x; try exact Hb; destruct b; try exact Hx;
    destruct (Re.among _ _); cbn in *; tauto.
Qed.

Lemma through_alt (a b : Re.t) :
  through P a -> through P b -> through P (Re.alt a b).
Proof.
  revert b. induction a as [| |k|a1 _ a2 _|a1 _ a2 IH2|a1 _]; intros b Ha Hb;
    try (apply through_alt1; assumption).
  cbn. destruct Ha as [H1 H2]. apply through_alt1; [exact H1|]. apply IH2; assumption.
Qed.

Lemma through_deriv (c : ascii) (r : Re.t) :
  ~ P c -> through P r -> through P (Re.deriv c r).
Proof.
  intros Hc. induction r as [| |k|a IHa b IHb|a IHa b IHb|a IHa]; cbn; intros H.
  - exact I.
  - destruct H.
  - destruct (Re.accepts k c) eqn:E; [|exact I]. destruct Hc. auto.
  - apply through_alt.
    + apply through_cat. destruct H as [H|H]; auto.
    + destruct H as [H|H].
      * rewrite (through_not_nullable a H). exact I.
      * destruct (Re.nullable a); [auto|exact I].
  - destruct H as [Ha Hb]. apply through_alt; auto.
  - destruct H.
Qed.

Lemma test_through (r : Re.t) (s : string) :
  through P r -> Re.test r s = true -> Exists P (chars s).
Proof.
  revert r. induction s as [|c s IH]; intros r Hr Ht; cbn in *.
  - rewrite (through_not_nullable r Hr) in Ht. discriminate.
  - destruct (P_dec c) as [Hc|Hc]; [left; exact Hc|].
    right. apply (IH (Re.deriv c r)); [apply through_deriv; assumption|exact Ht].
Qed.

End Patterns.

Lemma username_within : within (fun c => Re.accepts Re.Word c = true) Re.username.
Proof. cbn. auto. Qed.

Lemma email_through : through (fun c => c = "@"%char) Re.email.
Proof.
  cbn. right. left. intros c H. apply Ascii.eqb_eq in H. exact H.
Qed.

(** The characters of [\w] are ASCII, and a string of ASCII characters has
    as many code units as bytes. *)
Lemma word_is_plain (c : ascii) :
  Re.accepts Re.Word c = true -> (nat_of_ascii c < 128)%nat.
Proof.
  intros H. destruct (Nat.ltb_spec (nat_of_ascii c) 128) as [|Hge]; [assumption|].
  exfalso. unfold Re.accepts, Re.in_range in H.
  assert (Hu : Ascii.eqb c "_" = false).
  { apply Ascii.eqb_neq. intros E. rewrite E in Hge. vm_compute in Hge. lia. }
  rewrite Hu, orb_false_r in H.
  rewrite !orb_true_iff, !andb_true_iff, !Nat.leb_le in H. lia.
Qed.

Lemma units_plain (s : string) (astral : bool) :
  Forall (fun c => (nat_of_ascii c < 128)%nat) (chars s) ->
  Js.units_from astral s = String.length s.
Proof.
  revert astral. induction s as [|c s IH]; intros astral H; [reflexivity|].
  apply Forall_cons in H as [Hc H]. cbn [Js.units_from String.length]. cbv zeta.
  destruct (Nat.ltb_spec (nat_of_ascii c) 128); [|lia].
  rewrite (IH false H). reflexivity.
Qed.

Lemma username_units (v : string) :
  Re.test Re.username v = true -> Js.code_units v = String.length v.
Proof.
  intros H. apply units_plain.
  apply (test_within (fun c => Re.accepts Re.Word c = true)) with (r := Re.username) in H;
    [|intros c; destruct (Re.accepts Re.Word c); [left|right]; congruence
     |apply username_within].
  eapply Forall_impl; [exact H|]. intros c Hc. apply word_is_plain. exact Hc.
Qed.

Lemma username_errors_nil (v : string) :
  username_errors v = [] <->
  (3 <= String.length v <= 20)%nat /\ Re.test Re.username v = true.
Proof.
  unfold username_errors. case_bool_decide as He.
  - subst v. cbn. split; [discriminate|]. intros [? _]. lia.
  - destruct (Re.test Re.username v) eqn:Ht.
    + rewrite (username_units _ Ht).
      destruct (Nat.ltb_spec (String.length v) 3).
      { split; [discriminate|]. intros [? _]. lia. }
      destruct (Nat.ltb_spec 20 (String.length v)).
      { split; [discriminate|]. intros [? _]. lia. }
      cbn. split; [intros _; split; [lia|reflexivity]|reflexivity].
    + split; [|intros [_ ?]; discriminate].
      destruct (_ <? 3)%nat; [discriminate|].
      destruct (20 <? _)%nat; discriminate.
Qed.

Lemma email_errors_nil (v : string) :
  email_errors v = [] <-> v <> EmptyString /\ Re.test Re.email v = true.
Proof.
  unfold email_errors. case_bool_decide as He.
  - split; [discriminate|]. intros [? _]. contradiction.
  - destruct (Re.test Re.email v); cbn; split; try discriminate; auto.
    intros [_ ?]. discriminate.
Qed.

(** A name the schema accepts as username is no address it accepts as
    email: the one has no [@], the other has one. *)
Lemma username_is_no_email (u e : string) :
  username_errors u = [] -> email_errors e = [] -> u <> e.
Proof.
  intros Hu He ->.
  apply username_errors_nil in Hu as [_ Hu].
  apply email_errors_nil in He as [_ He].
  assert (Hw : forall c, Re.accepts Re.Word c = true \/ Re.accepts Re.Word c <> true)
    by (intros c; destruct (Re.accepts Re.Word c); [left|right]; congruence).
  assert (Ha : forall c : ascii, c = "@"%char \/ c <> "@"%char)
    by (intros c; destruct (Ascii.eqb_spec c "@"%char); auto).
  apply (test_within _ Hw _ _ username_within) in Hu.
  apply (test_through _ Ha _ _ email_through) in He.
  apply Exists_exists in He as (c & Hin & ->).
  rewrite Forall_forall in Hu. specialize (Hu _ Hin). discriminate.
Qed.

(** What the setters and the casting of a query do to a name the schema
    accepts: nothing to trim, and in lower case it is still no address. *)
Lemma word_is_no_space (c : ascii) :
  Re.accepts Re.Word c = true -> Js.is_space c = false.
Proof.
  destruct c as [[] [] [] [] [] [] [] []]; intros H; try reflexivity;
    vm_compute in H; discriminate H.
Qed.

Lemma trim_end_id (s : string) :
  Forall (fun c => Js.is_space c = false) (chars s) -> Js.trim_end s = s.
Proof.
  induction s as [|c s IH]; intros H; [reflexivity|].
  apply Forall_cons in H as [Hc H]. cbn [Js.trim_end]. cbv zeta.
  rewrite Hc, (IH H). reflexivity.
Qed.

Lemma trim_id (s : string) :
  Forall (fun c => Js.is_space c = false) (chars s) -> Js.trim s = s.
Proof.
  intros H. unfold Js.trim.
  assert (Hs : Js.trim_start s = s).
  { destruct s as [|c s]; [reflexivity|].
    apply Forall_cons in H as [Hc _]. cbn. rewrite Hc. reflexivity. }
  rewrite Hs. apply trim_end_id. exact H.
Qed.

Lemma username_word (u : string) :
  username_errors u = [] ->
  Forall (fun c => Re.accepts Re.Word c = true) (chars u).
Proof.
  intros Hu. apply username_errors_nil in Hu as [_ Hu].
  apply (test_within (fun c => Re.accepts Re.Word c = true)) with (r := Re.username);
    [|apply username_within|exact Hu].
  intros c. destruct (Re.accepts Re.Word c); [left|right]; congruence.
Qed.

Lemma username_trim (u : string) : username_errors u = [] -> Js.trim u = u.
Proof.
  intros Hu. apply trim_id. eapply Forall_impl; [apply username_word; exact Hu|].
  intros c Hc. apply word_is_no_space. exact Hc.
Qed.

Lemma lower_at (c : ascii) : Js.lower c = "@"%char -> c = "@"%char.
Proof.
  destruct c as [[] [] [] [] [] [] [] []]; intros H; vm_compute in H;
    try discriminate H; reflexivity.
Qed.

Lemma chars_to_lower (s : string) : chars (Js.to_lower s) = Js.lower <$> chars s.
Proof. induction s as [|c s IH]; cbn; [reflexivity|]. f_equal. exact IH. Qed.

Lemma username_lower_is_no_email (u e : string) :
  username_errors u = [] -> email_errors e = [] -> Js.to_lower u <> e.
Proof.
  intros Hu He E. apply username_word in Hu.
  apply email_errors_nil in He as [_ He].
  assert (Ha : forall c : ascii, c = "@"%char \/ c <> "@"%char)
    by (intros c; destruct (Ascii.eqb_spec c "@"%char); auto).
  apply (test_through _ Ha _ _ email_through) in He.
  rewrite <- E, chars_to_lower in He.
  apply Exists_exists in He as (c & Hin & ->).
  apply list_elem_of_fmap in Hin as (c0 & Hc0 & Hin).
  symmetry in Hc0. apply lower_at in Hc0. subst c0.
  rewrite Forall_forall in Hu. specialize (Hu _ Hin). discriminate.
Qed.

Section Registration.

Context {D : Deps}.

Lemma find_app_None {A} (f : A -> bool) (l1 l2 : list A) :
  (forall x, x ∈ l1 -> f x = false) ->
  List.find f (l1 ++ l2) = List.find f l2.
Proof.
  induction l1 as [|a l1 IH]; cbn; intros H; [reflexivity|].
  rewrite (H a) by left. apply IH. intros x Hx. apply H. right. exact Hx.
Qed.

Lemma find_None_elem {A} (f : A -> bool) (l : list A) :
  List.find f l = None <-> forall x, x ∈ l -> f x = false.
Proof.
  split.
  - intros H x Hx. apply (List.find_none f l H). apply list_elem_of_In. exact Hx.
  - intros H. destruct (List.find f l) as [a|] eqn:E; [|reflexivity].
    apply List.find_some in E as [Hin Hf]. apply list_elem_of_In in Hin.
    rewrite (H a Hin) in Hf. discriminate.
Qed.

Lemma Admin_new_facts (id username email password : string)
    (fullName role : option string) :
  let d := Admin_new id username email password fullName role in
  d_isNew d = true /\ isModified d p_password = true /\
  d_password d = Some password /\ d_isActive d = true /\ d_id d = id /\
  d_username d = Js.trim username /\ d_email d = Js.to_lower (Js.trim email) /\
  d_role d = default "admin"%string role.
Proof.
  cbn. split; [reflexivity|]. split; [|auto 10].
  apply bool_decide_eq_true_2.
  apply elem_of_cons; right. apply elem_of_cons; right. apply elem_of_cons; left.
  reflexivity.
Qed.

Lemma findOne_either_None (l : list Admin) (username email : string) :
  Admin_findOne_either l username email = None <->
  forall x, x ∈ l ->
    a_username x <> Js.trim username /\ a_email x <> Js.to_lower (Js.trim email).
Proof.
  unfold Admin_findOne_either. rewrite find_None_elem.
  split; intros H x Hx; specialize (H x Hx).
  - apply orb_false_iff in H as [H1 H2].
    apply bool_decide_eq_false in H1, H2. auto.
  - destruct H as [H1 H2]. apply orb_false_iff.
    split; apply bool_decide_eq_false_2; assumption.
Qed.

Lemma length_nonempty (s : string) : (1 <= String.length s)%nat -> s <> EmptyString.
Proof. intros H ->. cbn in H. lia. Qed.

(** An account a save has just inserted logs in with the password
    it was created with. *)
Lemma created_account_logs_in (L : DepsLaws D) (env : Env) (now now' : Z)
    (rnd rnd' : string) (d : AdminDoc) (pw username : string) (w w1 : World)
    (span : Z) :
  d_isActive d = true -> d_password d = Some pw -> schema_errors d = [] ->
  Js.trim username = d_username d ->
  Forall schema_valid (admins w) ->
  (forall x, x ∈ admins w -> a_username x <> d_username d) ->
  ms (jwt_expires_in env) = Some span ->
  let d1 := set_password (bcrypt_hash pw (genSalt 12 rnd)) d in
  admins w1 = admins w ++ [to_record now d1] ->
  exists token w2,
    login env now' rnd' username pw w1 =
      (login_ok token (saved now' (set_lastLogin now' (hydrate true (to_record now d1)))),
       w2).
Proof.
  intros Hact Hp Hs Hu Hvalid Hfree Hms d1 Hw1.
  pose proof Hs as Hs0.
  apply schema_errors_nil in Hs as (Hsu & Hse & Hsp & Hsf & Hsr).
  rewrite Hp in Hsp. apply password_errors_Some in Hsp.
  pose proof (code_units_le pw) as Hle.
  pose proof (proj1 (username_errors_nil _) Hsu) as [[Hlen _] _].
  unfold login. rewrite Hu.
  rewrite login_errors_nil by (apply length_nonempty; lia).
  unfold login_try.
  assert (Hfind : Admin_findOne_login (admins w1) (d_username d)
                  = Some (to_record now d1)).
  { unfold Admin_findOne_login. rewrite Hw1, (username_trim _ Hsu).
    rewrite find_app_None.
    - cbn. rewrite Hact, bool_decide_eq_true_2 by reflexivity. reflexivity.
    - intros x Hx. rewrite bool_decide_eq_false_2 by (apply Hfree; exact Hx).
      rewrite bool_decide_eq_false_2; [reflexivity|].
      rewrite Forall_forall in Hvalid. specialize (Hvalid x Hx).
      apply schema_errors_nil in Hvalid as (_ & Hxe & _).
      intros E. apply (username_lower_is_no_email _ _ Hsu Hxe). symmetry. exact E. }
  rewrite Hfind. cbn [comparePassword hydrate d_password to_record a_password].
  cbn [d1 set_password d_password default from_option].
  unfold Datatypes.id. rewrite bcrypt_verifies.
  assert (Hrec : schema_valid (to_record now d1)).
  { apply schema_errors_nil.
    cbn [hydrate to_record d1 set_password d_username d_email d_password
         d_fullName d_role d_isNew a_username a_email a_password a_fullName
         a_role default from_option].
    unfold Datatypes.id.
    rewrite (proj2 (password_errors_Some false _) (bcrypt_hash_long _ _)). auto. }
  destruct (updateLastLogin_fetched now' rnd' (to_record now d1) w1 Hrec)
    as [w2 Hupd].
  fold d1. rewrite Hupd. unfold jwt_sign. rewrite Hms. eauto.
Qed.

Lemma admins_logs (lines : list string) (w : World) :
  admins (logs lines w) = admins w.
Proof.
  unfold logs. revert w. induction lines as [|x lines IH]; intros w; cbn; [reflexivity|].
  rewrite IH. reflexivity.
Qed.

Lemma authenticateAdmin_admins (env : Env) (now : Z)
    (authorization : option string) (w : World) :
  admins (snd (authenticateAdmin env now authorization w)) = admins w.
Proof.
  unfold authenticateAdmin. destruct (authenticateAdmin_try _ _ _ _); [reflexivity|].
  repeat case_bool_decide; reflexivity.
Qed.

(** The save of a new document keeps the keys of the collection
    unique. *)
Lemma new_account_keeps_keys (now : Z) (rnd : string) (d : AdminDoc) (w : World) :
  d_isNew d = true -> unique_keys (admins w) ->
  unique_keys (admins (snd (Admin_save now rnd d w))).
Proof.
  intros Hnew Hk.
  destruct (Admin_save_new_inv now rnd d w Hnew)
    as [(e & _ & ->)|(d1 & a & _ & -> & _ & Hi & Hid & Hu & He & _)]; [exact Hk|].
  cbn [admins with_admins]. apply unique_keys_snoc; [exact Hk|].
  rewrite Hid, Hu, He. apply index_taken_false. exact Hi.
Qed.

(** X13. POST /api/auth/register checks the role of the caller before
    anything else, and reads it from the stored record the middleware
    loaded: a valid session of an account whose role is not super_admin is
    answered 403 "Only super admins can create new admin accounts", whatever
    the body and whatever the validators found, and nothing is written or
    logged. *)
Theorem register_requires_super_admin (env : Env) (now : Z) (rnd fresh : string)
    (authorization : option string) (errors : list Json) (b : RegisterBody)
    (w : World) (a : Admin) :
  valid_session env now authorization w a ->
  a_role a <> "super_admin"%string ->
  register env now rnd fresh authorization errors b w =
    (json 403 (reply_message false
                 "Only super admins can create new admin accounts"), w).
Proof.
  intros Hs Hr. unfold register. rewrite (authenticateAdmin_session _ _ _ _ _ Hs).
  unfold register_handler. cbn [ra_role req_admin].
  rewrite bool_decide_eq_false_2 by exact Hr. reflexivity.
Qed.

(** X14. Register, then log in.  A super admin registers an account whose
    document passes the schema, under an id, username and email no stored
    account has, in a store whose accounts pass the schema: the route
    answers 201 with the summary of the stored record (it has no password),
    the collection gains exactly that record, with the trimmed username, the
    role asked for ([admin] when none is) and the bcrypt hash of the
    password under a salt of cost 12; and the new account then logs in with
    the username and password of the request. *)
Theorem register_creates_account (L : DepsLaws D) (env : Env) (now : Z)
    (rnd fresh : string) (authorization : option string) (b : RegisterBody)
    (w : World) (a : Admin) (span : Z) :
  valid_session env now authorization w a ->
  a_role a = "super_admin"%string ->
  schema_errors (register_doc fresh b) = [] ->
  (forall x, x ∈ admins w ->
     a_id x <> fresh /\ a_username x <> Js.trim (rb_username b) /\
     a_email x <> Js.to_lower (Js.trim (rb_email b))) ->
  Forall schema_valid (admins w) ->
  ms (jwt_expires_in env) = Some span ->
  exists r w1,
    register env now rnd fresh authorization [] b w =
      (admin_created (hydrate false r), w1) /\
    admins w1 = admins w ++ [r] /\
    a_username r = Js.trim (rb_username b) /\
    a_role r = default "admin"%string (rb_role b) /\
    a_password r = bcrypt_hash (rb_password b) (genSalt 12 rnd) /\
    forall now' rnd',
      status (fst (login env now' rnd' (rb_username b) (rb_password b) w1)) = 200.
Proof.
  intros Hs Hr Hsch Hfree Hvalid Hms.
  unfold register. rewrite (authenticateAdmin_session _ _ _ _ _ Hs).
  unfold register_handler. cbn [ra_role req_admin].
  rewrite bool_decide_eq_true_2 by exact Hr. cbn [negb].
  unfold register_try.
  rewrite (proj2 (findOne_either_None _ _ _))
    by (intros x Hx; destruct (Hfree x Hx) as (_ & ? & ?); auto).
  cbv zeta.
  destruct (Admin_new_facts fresh (rb_username b) (rb_email b) (rb_password b)
              (rb_fullName b) (Some (default "admin"%string (rb_role b))))
    as (Hnew & Hmod & Hpw & Hact & Hid & Hun & Hem & Hro).
  fold (register_doc fresh b) in Hnew, Hmod, Hpw, Hact, Hid, Hun, Hem, Hro.
  assert (Hi : index_taken (register_doc fresh b) (admins w) = false).
  { apply index_taken_false. rewrite Hid, Hun, Hem. exact Hfree. }
  rewrite (Admin_save_new now rnd _ w _ Hnew Hmod Hpw Hsch Hi).
  set (d1 := set_password _ (register_doc fresh b)).
  exists (to_record now d1), (with_admins (admins w ++ [to_record now d1]) w).
  split; [reflexivity|]. split; [reflexivity|].
  split; [exact Hun|]. split; [exact Hro|]. split; [reflexivity|].
  intros now' rnd'.
  destruct (created_account_logs_in L env now now' rnd rnd' (register_doc fresh b)
              (rb_password b) (rb_username b) w
              (with_admins (admins w ++ [to_record now d1]) w) span
              Hact Hpw Hsch (eq_sym Hun) Hvalid
              (fun x Hx => eq_ind_r (fun u => a_username x <> u)
                             (proj1 (proj2 (Hfree x Hx))) Hun)
              Hms eq_refl) as (token & w2 & ->).
  reflexivity.
Qed.

(** X15. The schema, not the validators of the route, has the last word on
    a registration: when the validators found nothing and no account has
    the username or email, a document the schema rejects makes [save] throw,
    and the route answers 500 "Failed to create admin account", logs
    "Register error:" and stores nothing.  The email pattern of the schema
    ends in labels of two or three characters, so an address such as
    dev@tangible.info is such a case. *)
Theorem register_schema_rejection (env : Env) (now : Z) (rnd fresh : string)
    (authorization : option string) (b : RegisterBody) (w : World) (a : Admin) :
  valid_session env now authorization w a ->
  a_role a = "super_admin"%string ->
  Admin_findOne_either (admins w) (rb_username b) (rb_email b) = None ->
  schema_errors (register_doc fresh b) <> [] ->
  register env now rnd fresh authorization [] b w =
    (json 500 (reply_message false "Failed to create admin account"),
     log "Register error:" w).
Proof.
  intros Hs Hr Hfind Hsch.
  unfold register. rewrite (authenticateAdmin_session _ _ _ _ _ Hs).
  unfold register_handler. cbn [ra_role req_admin].
  rewrite bool_decide_eq_true_2 by exact Hr. cbn [negb].
  unfold register_try. rewrite Hfind. cbv zeta. unfold Admin_save.
  destruct (schema_errors (register_doc fresh b)); [congruence|reflexivity].
Qed.

(** X16. Neither POST /api/auth/register nor POST /api/admin/create-user
    ever breaks the unique keys of the admin collection: whatever the
    request, if the ids, the usernames and the emails were pairwise distinct
    before, they are afterwards. *)
Theorem creation_keeps_keys_unique (env : Env) (now : Z) (rnd fresh : string)
    (authorization : option string) (errors : list Json) (b : RegisterBody)
    (c : CreateUserBody) (w : World) :
  unique_keys (admins w) ->
  unique_keys (admins (snd (register env now rnd fresh authorization errors b w)))
  /\ unique_keys (admins (snd (create_user now rnd fresh c w))).
Proof.
  intros Hk. split.
  - unfold register.
    pose proof (authenticateAdmin_admins env now authorization w) as Ha.
    destruct (authenticateAdmin env now authorization w) as [[who|r] w0];
      cbn [snd] in *; [|rewrite Ha; exact Hk].
    unfold register_handler. destruct (negb _); [cbn; rewrite Ha; exact Hk|].
    destruct errors; [|cbn; rewrite Ha; exact Hk].
    unfold register_try.
    destruct (Admin_findOne_either _ _ _); [cbn; rewrite Ha; exact Hk|].
    cbv zeta.
    assert (Hk0 : unique_keys (admins w0)) by (rewrite Ha; exact Hk).
    pose proof (new_account_keeps_keys now rnd (register_doc fresh b) w0 eq_refl Hk0)
      as Hn.
    destruct (Admin_save now rnd (register_doc fresh b) w0) as [[d1|e] w1];
      exact Hn.
  - unfold create_user, create_user_try.
    destruct (_ || _ || _)%bool; [exact Hk|].
    destruct (Admin_findOne_either _ _ _); [exact Hk|]. cbv zeta.
    pose proof (new_account_keeps_keys now rnd (create_user_doc fresh c) w eq_refl Hk)
      as Hn.
    destruct (Admin_save now rnd (create_user_doc fresh c) w) as [[d1|e] w1];
      exact Hn.
Qed.

End Registration.

Section Provisioning.

Context {D : Deps}.

Lemma trim_empty_default (v : option string) :
  Js.trim (default EmptyString v) <> EmptyString -> falsy v = false.
Proof.
  destruct v as [s|]; cbn; [|congruence].
  intros H. apply bool_decide_eq_false_2. intros ->. apply H. reflexivity.
Qed.

Lemma to_lower_empty (s : string) : Js.to_lower s = EmptyString -> s = EmptyString.
Proof. destruct s; [reflexivity|discriminate]. Qed.

(** X17. POST /api/admin/create-user of the test server asks for no session
    and takes the role from the body: for a body whose document passes the
    schema, under keys no stored account has, it answers 200 and stores an
    active account with the role asked for ([super_admin] included, [admin]
    when none is given) and the bcrypt hash of the password. *)
Theorem create_user_grants_any_role (now : Z) (rnd fresh : string)
    (b : CreateUserBody) (w : World) :
  schema_errors (create_user_doc fresh b) = [] ->
  (forall x, x ∈ admins w ->
     a_id x <> fresh /\ a_username x <> d_username (create_user_doc fresh b) /\
     a_email x <> d_email (create_user_doc fresh b)) ->
  exists r w1,
    create_user now rnd fresh b w = (user_created (hydrate false r), w1) /\
    admins w1 = admins w ++ [r] /\
    a_role r = or_default (cu_role b) "admin" /\
    a_isActive r = true /\
    a_password r = bcrypt_hash (default EmptyString (cu_password b)) (genSalt 12 rnd).
Proof.
  intros Hsch Hfree.
  destruct (Admin_new_facts fresh (default EmptyString (cu_username b))
              (default EmptyString (cu_email b)) (default EmptyString (cu_password b))
              (cu_fullName b) (Some (or_default (cu_role b) "admin")))
    as (Hnew & Hmod & Hpw & Hact & Hid & Hun & Hem & Hro).
  fold (create_user_doc fresh b) in Hnew, Hmod, Hpw, Hact, Hid, Hun, Hem, Hro.
  pose proof (proj1 (schema_errors_nil _) Hsch) as (Hsu & Hse & Hsp & _).
  rewrite Hpw in Hsp. apply password_errors_Some in Hsp.
  apply username_errors_nil in Hsu as [[Hlen _] _].
  apply email_errors_nil in Hse as [Hne _].
  assert (Hf1 : falsy (cu_username b) = false).
  { apply trim_empty_default. rewrite <- Hun. apply length_nonempty. lia. }
  assert (Hf2 : falsy (cu_email b) = false).
  { apply trim_empty_default. rewrite Hem in Hne. intros E. apply Hne.
    rewrite E. reflexivity. }
  assert (Hf3 : falsy (cu_password b) = false).
  { destruct (cu_password b) as [p|]; cbn in *; [|lia].
    apply bool_decide_eq_false_2. intros ->. cbn in Hsp. lia. }
  unfold create_user, create_user_try. rewrite Hf1, Hf2, Hf3. cbn [orb].
  rewrite (proj2 (findOne_either_None _ _ _))
    by (intros x Hx; destruct (Hfree x Hx) as (_ & ? & ?); split; congruence).
  cbv zeta.
  assert (Hi : index_taken (create_user_doc fresh b) (admins w) = false).
  { apply index_taken_false. rewrite Hid. exact Hfree. }
  rewrite (Admin_save_new now rnd _ w _ Hnew Hmod Hpw Hsch Hi).
  set (d1 := set_password _ (create_user_doc fresh b)).
  exists (to_record now d1), (with_admins (admins w ++ [to_record now d1]) w).
  split; [reflexivity|]. split; [reflexivity|].
  split; [exact Hro|]. split; [exact Hact|]. reflexivity.
Qed.

Lemma seed_admin_valid (fresh : string) : schema_errors (seed_admin fresh) = [].
Proof. vm_compute. reflexivity. Qed.

Lemma seed_admin_facts (fresh : string) :
  d_isNew (seed_admin fresh) = true /\
  isModified (seed_admin fresh) p_password = true /\
  d_password (seed_admin fresh) = Some "admin123456"%string /\
  d_isActive (seed_admin fresh) = true /\ d_id (seed_admin fresh) = fresh /\
  d_username (seed_admin fresh) = "superadmin"%string /\
  d_email (seed_admin fresh) = "naveenp@tangiblelearning.in"%string /\
  d_role (seed_admin fresh) = "super_admin"%string.
Proof. vm_compute. auto 10. Qed.

Lemma findOne_role_Some (l : list Admin) (role : string) :
  (exists a, a ∈ l /\ a_role a = role) ->
  exists b, Admin_findOne_role l role = Some b.
Proof.
  intros (a & Ha & Hr). unfold Admin_findOne_role.
  destruct (List.find _ l) as [b|] eqn:E; [eauto|].
  apply (proj1 (find_None_elem _ _)) with (x := a) in E; [|exact Ha].
  apply bool_decide_eq_false in E. contradiction.
Qed.

Lemma setup_failed_spec (msg : string) (enotfound e11000 : bool) (w : World) :
  fst (setup_failed msg enotfound e11000 w) = 1 /\
  admins (snd (setup_failed msg enotfound e11000 w)) = admins w.
Proof.
  unfold setup_failed. split; [reflexivity|]. cbn [snd].
  destruct enotfound, e11000; rewrite ?admins_logs; reflexivity.
Qed.

Lemma admins_log (line : string) (w : World) : admins (log line w) = admins w.
Proof. reflexivity. Qed.

Lemma setup_create_eq (now : Z) (rnd : string) (d : AdminDoc) (w : World) :
  fst (setup_create now rnd d w) =
    match fst (Admin_save now rnd d w) with Return _ => 0 | Throw _ => 1 end
  /\ admins (snd (setup_create now rnd d w))
     = admins (snd (Admin_save now rnd d w)).
Proof.
  unfold setup_create.
  destruct (Admin_save now rnd d w) as [[d1|e] w1].
  - split; [reflexivity|]. unfold snd. rewrite admins_log, admins_logs. reflexivity.
  - apply setup_failed_spec.
Qed.

(** What the creation step of the script can do: exit with 1 and no
    write, or exit with 0 and one more record, made from the document. *)
Lemma setup_create_inv (now : Z) (rnd : string) (d : AdminDoc) (w : World) :
  d_isNew d = true ->
  (fst (setup_create now rnd d w) = 1 /\
   admins (snd (setup_create now rnd d w)) = admins w) \/
  (fst (setup_create now rnd d w) = 0 /\
   exists a, admins (snd (setup_create now rnd d w)) = admins w ++ [a] /\
             a_role a = d_role d).
Proof.
  intros Hnew. destruct (setup_create_eq now rnd d w) as [-> ->].
  destruct (Admin_save_new_inv now rnd d w Hnew)
    as [(e & -> & ->)|(d1 & a & -> & -> & _ & _ & _ & _ & _ & Hro & _)].
  - left. split; reflexivity.
  - right. split; [reflexivity|]. exists a. split; [reflexivity|exact Hro].
Qed.

Lemma setupDatabase_connected (now : Z) (rnd fresh : string) (w : World) :
  setupDatabase None now rnd fresh w =
    let w := log "✅ Connected to MongoDB" (log "Connecting to MongoDB..." w) in
    match Admin_findOne_role (admins w) "super_admin" with
    | Some existing =>
        (0, logs [ "ℹ️  Super admin already exists: " +:+ a_username existing;
                   "   Email: " +:+ a_email existing;
                   "";
                   "🚀 You can start the server with: npm run dev" ]%string w)
    | None =>
        setup_create now rnd (seed_admin fresh)
          (log "Creating super admin account..." w)
    end.
Proof. reflexivity. Qed.

(** X18. scripts/setup.js is idempotent: a run that exits with 0 leaves a
    super admin in the collection, and a second run on the result exits
    with 0 and leaves the collection as it is. *)
Theorem setup_is_idempotent (now now' : Z) (rnd rnd' fresh fresh' : string)
    (w : World) :
  fst (setupDatabase None now rnd fresh w) = 0 ->
  (exists a, a ∈ admins (snd (setupDatabase None now rnd fresh w)) /\
             a_role a = "super_admin"%string) /\
  fst (setupDatabase None now' rnd' fresh' (snd (setupDatabase None now rnd fresh w))) = 0 /\
  admins (snd (setupDatabase None now' rnd' fresh'
                 (snd (setupDatabase None now rnd fresh w))))
  = admins (snd (setupDatabase None now rnd fresh w)).
Proof.
  intros Hexit.
  assert (Hsup : exists a, a ∈ admins (snd (setupDatabase None now rnd fresh w)) /\
                           a_role a = "super_admin"%string).
  { revert Hexit. rewrite setupDatabase_connected. cbv zeta. cbn [admins log].
    destruct (Admin_findOne_role (admins w) "super_admin") as [ex|] eqn:Hf.
    - intros _. cbn [snd]. rewrite admins_logs. cbn [admins log].
      unfold Admin_findOne_role in Hf. apply List.find_some in Hf as [Hin Hr].
      exists ex. split; [apply list_elem_of_In; exact Hin|].
      apply bool_decide_eq_true_1 in Hr. exact Hr.
    - destruct (setup_create_inv now rnd (seed_admin fresh)
                  (log "Creating super admin account..."
                     (log "✅ Connected to MongoDB" (log "Connecting to MongoDB..." w)))
                  (proj1 (seed_admin_facts fresh)))
        as [[-> _]|[_ (a & -> & Hro)]]; [discriminate|].
      intros _. exists a. split; [apply elem_of_app; right; left|].
      rewrite Hro. apply seed_admin_facts. }
  split; [exact Hsup|].
  generalize dependent (snd (setupDatabase None now rnd fresh w)). intros w1 Hsup.
  rewrite setupDatabase_connected. cbv zeta. cbn [admins log].
  destruct (findOne_role_Some _ _ Hsup) as [b ->]. cbn [fst snd].
  split; [reflexivity|]. rewrite admins_logs. reflexivity.
Qed.

End Provisioning.

Section Provisioning2.

Context {D : Deps}.

(** X19. Setup, then log in: on a store without a super admin, where the
    id, username and email of the seeded account are free and the accounts
    pass the schema, the script exits with 0 and the account it created logs
    in as superadmin with admin123456; it has the role super_admin and its
    password is stored as a bcrypt hash. *)
Theorem setup_then_login (L : DepsLaws D) (env : Env) (now now' : Z)
    (rnd rnd' fresh : string) (w : World) (span : Z) :
  Admin_findOne_role (admins w) "super_admin" = None ->
  (forall x, x ∈ admins w ->
     a_id x <> fresh /\ a_username x <> "superadmin"%string /\
     a_email x <> "naveenp@tangiblelearning.in"%string) ->
  Forall schema_valid (admins w) ->
  ms (jwt_expires_in env) = Some span ->
  fst (setupDatabase None now rnd fresh w) = 0 /\
  exists token r w2,
    login env now' rnd' "superadmin" "admin123456"
      (snd (setupDatabase None now rnd fresh w))
    = (login_ok token (saved now' (set_lastLogin now' (hydrate true r))), w2) /\
    a_username r = "superadmin"%string /\ a_role r = "super_admin"%string /\
    a_password r = bcrypt_hash "admin123456" (genSalt 12 rnd).
Proof.
  intros Hnone Hfree Hvalid Hms.
  destruct (seed_admin_facts fresh)
    as (Hnew & Hmod & Hpw & Hact & Hid & Hun & Hem & Hro).
  rewrite setupDatabase_connected. cbv zeta. rewrite !admins_log, Hnone.
  set (w0 := log "Creating super admin account..." _).
  assert (Hw0 : admins w0 = admins w) by reflexivity.
  assert (Hi : index_taken (seed_admin fresh) (admins w0) = false).
  { apply index_taken_false. rewrite Hw0, Hid, Hun, Hem. exact Hfree. }
  pose proof (Admin_save_new now rnd _ w0 _ Hnew Hmod Hpw
                (seed_admin_valid fresh) Hi) as Hsave.
  cbv zeta in Hsave.
  set (d1 := set_password _ (seed_admin fresh)) in Hsave.
  destruct (setup_create_eq now rnd (seed_admin fresh) w0) as [Hf Ha].
  rewrite Hsave in Hf, Ha. cbn [fst snd admins with_admins] in Hf, Ha.
  split; [exact Hf|].
  rewrite Hw0 in Ha.
  destruct (created_account_logs_in L env now now' rnd rnd' (seed_admin fresh)
              "admin123456" "superadmin" w
              (snd (setup_create now rnd (seed_admin fresh) w0)) span
              Hact Hpw (seed_admin_valid fresh) (eq_sym Hun) Hvalid
              (fun x Hx => eq_ind_r (fun u => a_username x <> u)
                             (proj1 (proj2 (Hfree x Hx))) Hun)
              Hms Ha) as (token & w2 & Hlogin).
  exists token, (to_record now d1), w2. split; [exact Hlogin|].
  split; [exact Hun|]. split; [exact Hro|]. reflexivity.
Qed.

End Provisioning2.

Section Reset.

Context {D : Deps}.

Lemma find_oid_unique (l : list Admin) (a : Admin) :
  NoDup (a_id <$> l) -> a ∈ l -> Admin_find_oid l (a_id a) = Some a.
Proof.
  unfold Admin_find_oid. induction l as [|b l IH]; cbn; intros Hnd Hin.
  - apply elem_of_nil in Hin. destruct Hin.
  - apply NoDup_cons in Hnd as [Hb Hnd]. case_bool_decide as E.
    + apply elem_of_cons in Hin as [->|Hin]; [reflexivity|].
      destruct Hb. rewrite E. apply list_elem_of_fmap. eauto.
    + apply elem_of_cons in Hin as [->|Hin]; [congruence|]. apply IH; assumption.
Qed.

Lemma findOne_username_elem (l : list Admin) (username : string) (a : Admin) :
  Admin_findOne_username l username = Some a ->
  a ∈ l /\ a_username a = Js.trim username.
Proof.
  unfold Admin_findOne_username. intros H. apply List.find_some in H as [Hin H].
  split; [apply list_elem_of_In; exact Hin|].
  apply bool_decide_eq_true_1 in H. exact H.
Qed.

(** The document the reset saves, and what the hook makes of it. *)
Lemma reset_doc_modified (v : string) (a : Admin) :
  d_modified (set_password v (hydrate false a)) = [p_password].
Proof. reflexivity. Qed.

Lemma reset_doc_schema (v : string) (a : Admin) :
  schema_valid a ->
  schema_errors (set_password v (hydrate false a))
  = pair "password"%string <$> password_errors false (Some v).
Proof.
  intros Hv. apply schema_errors_nil in Hv as (Hu & He & _ & Hf & Hr).
  unfold schema_errors. cbn [set_password hydrate d_username d_email d_password
                             d_fullName d_role d_isNew] in *.
  rewrite Hu, He, Hf, Hr. cbn [fmap list_fmap app]. rewrite app_nil_r. reflexivity.
Qed.

(** X20. GET /api/admin/reset-password/:username/:newPassword replaces the
    password of the named account, and asks for no credentials: for a stored
    account that passes the schema and a new password of at least 6 UTF-16
    code units (the length the schema measures) the route answers 200, the
    stored record differs in password and updatedAt only, the stored
    password is the bcrypt hash of the new one under a fresh salt of cost
    12, the new password verifies against it, and every other account is
    as before.  The document is fetched without its password, so the
    assignment always marks the path modified. *)
Theorem reset_password_takes_effect (L : DepsLaws D) (now : Z) (rnd : string)
    (username newPassword : string) (w : World) (a : Admin) :
  Admin_findOne_username (admins w) username = Some a ->
  NoDup (a_id <$> admins w) ->
  schema_valid a ->
  (6 <= Js.code_units newPassword)%nat ->
  exists a1 w1,
    reset_password now rnd username newPassword w =
      (json 200 (reply_message true ("Password updated for " +:+ username)), w1) /\
    Admin_find_oid (admins w1) (a_id a) = Some a1 /\
    same_but_password a a1 /\
    a_password a1 = bcrypt_hash newPassword (genSalt 12 rnd) /\
    bcrypt_compare newPassword (a_password a1) = true /\
    (forall id, id <> a_id a ->
       Admin_find_oid (admins w1) id = Admin_find_oid (admins w) id) /\
    contacts w1 = contacts w /\ console w1 = console w /\ outbox w1 = outbox w.
Proof.
  intros Hfind Hnd Hvalid Hlen.
  destruct (findOne_username_elem _ _ _ Hfind) as [Hin _].
  pose proof (find_oid_unique _ _ Hnd Hin) as Hoid.
  unfold reset_password, reset_password_try. rewrite Hfind. cbv zeta.
  set (d := set_password newPassword (hydrate false a)).
  unfold Admin_save.
  rewrite (reset_doc_schema _ _ Hvalid : schema_errors d = _).
  rewrite (proj2 (password_errors_Some false newPassword) Hlen).
  cbn [fmap list_fmap].
  assert (Hm : isModified d p_password = true).
  { apply isModified_true. unfold d. rewrite reset_doc_modified. left. }
  rewrite (pre_save_modified rnd d newPassword Hm eq_refl).
  set (d1 := set_password _ d).
  assert (Hmod1 : d_modified d1 = [p_password]) by reflexivity.
  change (d_isNew d1) with false. cbn iota. rewrite Hmod1.
  exists (apply_modified now d1 a),
         (with_admins (update_admin (d_id d1) (apply_modified now d1) (admins w)) w).
  split; [reflexivity|]. cbn [admins with_admins].
  change (d_id d1) with (a_id a).
  split; [rewrite find_oid_update_admin by reflexivity; rewrite Hoid; reflexivity|].
  split; [repeat split|].
  assert (Hpw : a_password (apply_modified now d1 a)
                = bcrypt_hash newPassword (genSalt 12 rnd)) by reflexivity.
  split; [exact Hpw|]. split; [rewrite Hpw; apply bcrypt_verifies|].
  split; [|repeat split].
  intros id Hid. apply find_oid_update_admin_other; [reflexivity|exact Hid].
Qed.

(** X21. The same route with a new password of fewer than 6 characters:
    the schema rejects the plaintext before the hook hashes it, the route
    answers 500 "Failed to reset password", and nothing is written or
    logged. *)
Theorem reset_password_too_short (now : Z) (rnd : string)
    (username newPassword : string) (w : World) (a : Admin) :
  Admin_findOne_username (admins w) username = Some a ->
  (String.length newPassword < 6)%nat ->
  reset_password now rnd username newPassword w =
    (json 500 (reply_message false "Failed to reset password"), w).
Proof.
  intros Hfind Hlen. unfold reset_password, reset_password_try. rewrite Hfind.
  cbv zeta. unfold Admin_save.
  assert (Hp : password_errors false (Some newPassword) <> []).
  { intros E. apply password_errors_Some in E.
    pose proof (code_units_le newPassword). lia. }
  assert (Hs : schema_errors (set_password newPassword (hydrate false a)) <> []).
  { intros E. apply schema_errors_nil in E as (_ & _ & E & _). exact (Hp E). }
  destruct (schema_errors _); [congruence|reflexivity].
Qed.

End Reset.

Section Sessions.

Context {D : Deps}.

(** X24. Whatever the request, POST /api/auth/login leaves the contacts and
    the mail alone, and every stored account keeps its id, username, email,
    password, full name, role, active flag and creation time: only lastLogin
    and updatedAt can change. *)
Theorem login_touches_only_lastLogin (env : Env) (now : Z) (rnd : string)
    (username password : string) (w : World) :
  let w1 := snd (login env now rnd username password w) in
  contacts w1 = contacts w /\ outbox w1 = outbox w /\
  Forall2 same_but_login (admins w) (admins w1).
Proof.
  assert (Hrefl : Forall2 same_but_login (admins w) (admins w)).
  { apply Forall_Forall2_diag, Forall_forall. intros; apply same_but_login_refl. }
  cbv zeta. unfold login. destruct (login_errors _ _); [|auto].
  unfold login_try.
  destruct (Admin_findOne_login _ _) as [a|]; [|auto].
  destruct (comparePassword _ _) as [[|]|e]; [|auto|auto].
  destruct (updateLastLogin_write now rnd a w)
    as [[_ [e ->]]|[_ (w1 & -> & Hc & Ho & _ & Ha & _)]]; [auto|].
  destruct (jwt_sign _ _ _ _ _ _); cbn [snd log contacts outbox admins]; auto.
Qed.

Lemma replace_Bearer (token : string) :
  Js.replace "Bearer " "" ("Bearer " +:+ token) = token.
Proof. reflexivity. Qed.

Lemma me_profile (a : Admin) (w : World) :
  Admin_find_oid (admins w) (a_id a) = Some a ->
  snd (me_handler (req_admin a) w) = w /\
  status (fst (me_handler (req_admin a) w)) = 200 /\
  (field "admin" (body (fst (me_handler (req_admin a) w))) ≫= field "username")
    = Some (JStr (a_username a)) /\
  (field "admin" (body (fst (me_handler (req_admin a) w))) ≫= field "role")
    = Some (JStr (a_role a)) /\
  (field "admin" (body (fst (me_handler (req_admin a) w))) ≫= field "lastLogin")
    = JDate <$> a_lastLogin a.
Proof.
  intros Hf. unfold me_handler. cbn [ra_id req_admin]. rewrite Hf.
  split; [reflexivity|]. split; [reflexivity|].
  destruct (a_fullName a), (a_lastLogin a); repeat split.
Qed.

(** X22. Log in, then GET /api/auth/me.  An active account that passes the
    schema and whose id is an ObjectId, in a store with unique ids, named by
    the identifier of a valid login request with a password that verifies:
    the login answers 200 and its body carries a token; that token, sent as
    "Bearer <token>" at any time before its expiry to the store the login
    left, passes the middleware, and /me answers 200 with the username and
    role of that account and with the time of this login as lastLogin,
    changing nothing. *)
Theorem login_then_me (L : DepsLaws D) (env : Env) (now : Z) (rnd : string)
    (username password : string) (w : World) (a : Admin) (span : Z) :
  identifies (admins w) (Js.trim username) a ->
  schema_valid a ->
  Js.trim username <> EmptyString ->
  password <> EmptyString ->
  bcrypt_compare password (a_password a) = true ->
  ms (jwt_expires_in env) = Some span ->
  NoDup (a_id <$> admins w) ->
  castObjectId (a_id a) = Some (a_id a) ->
  (forall j, jwt_encode j <> EmptyString) ->
  exists token,
    let r0 := login env now rnd username password w in
    status (fst r0) = 200 /\
    field "token" (body (fst r0)) = Some (JStr token) /\
    forall t, t / 1000 < now / 1000 + span / 1000 ->
      let r := fst (me env t (Some ("Bearer " +:+ token)) (snd r0)) in
      snd (me env t (Some ("Bearer " +:+ token)) (snd r0)) = snd r0 /\
      status r = 200 /\
      (field "admin" (body r) ≫= field "username") = Some (JStr (a_username a)) /\
      (field "admin" (body r) ≫= field "role") = Some (JStr (a_role a)) /\
      (field "admin" (body r) ≫= field "lastLogin") = Some (JDate now).
Proof.
  intros Hid Hvalid Hu Hp Hcmp Hms Hnd Hcast Hne.
  pose proof (find_oid_unique _ _ Hnd (proj1 Hid)) as Hoid.
  pose proof (proj1 (proj2 Hid)) as Hact.
  unfold login. rewrite (login_errors_nil _ _ Hu Hp).
  unfold login_try. rewrite (findOne_login_identified _ _ _ Hid).
  cbn [comparePassword hydrate d_password]. rewrite Hcmp.
  destruct (updateLastLogin_write now rnd a w)
    as [[Hn _]|[_ (w1 & -> & _ & _ & _ & _ & Hw)]]; [contradiction|].
  destruct (Hw a Hoid) as (a2 & Hoid2 & Hsame & Hlast).
  specialize (Hlast eq_refl).
  unfold jwt_sign. rewrite Hms. cbn [fst snd]. cbv zeta.
  set (j := {| jws_claims := _; jws_key := _ |}).
  exists (jwt_encode j).
  destruct (login_ok_fields (jwt_encode j)
              (saved now (set_lastLogin now (hydrate true a))))
    as (H1 & _ & H3 & _).
  split; [exact H1|]. split; [exact H3|].
  intros t Ht.
  destruct Hsame as (Hi & Hun & Hem & _ & _ & Hro & Hac & _).
  assert (Hsession : valid_session env t (Some ("Bearer " +:+ jwt_encode j)) w1 a2).
  { exists ("Bearer " +:+ jwt_encode j), (jws_claims j), (a_id a).
    rewrite replace_Bearer. split; [reflexivity|]. split; [apply Hne|].
    split; [unfold well_signed; rewrite jwt_decode_encode;
            rewrite bool_decide_eq_true_2 by reflexivity; reflexivity|].
    split; [exact Ht|]. split; [exact Hcast|]. split; [exact Hoid2|].
    rewrite Hac. exact Hact. }
  unfold me. rewrite (authenticateAdmin_session _ _ _ _ _ Hsession).
  rewrite <- Hi in Hoid2.
  destruct (me_profile a2 w1 Hoid2) as (Hw2 & Hst & Hfu & Hfr & Hfl).
  split; [exact Hw2|].
  split; [exact Hst|]. rewrite Hfu, Hfr, Hfl, Hun, Hro, Hlast. auto.
Qed.

(** X23. POST /api/auth/logout answers a valid session with 200 "Logout
    successful" and changes nothing: the token is not revoked, so a session
    that is valid at a later time still passes the middleware and /me still
    answers it with 200. *)
Theorem logout_keeps_session (env : Env) (now : Z)
    (authorization : option string) (w : World) (a : Admin) :
  valid_session env now authorization w a ->
  logout env now authorization w =
    (json 200 (reply_message true "Logout successful"), w) /\
  forall t, valid_session env t authorization w a ->
    valid_session env t authorization (snd (logout env now authorization w)) a /\
    status (fst (me env t authorization (snd (logout env now authorization w)))) = 200.
Proof.
  intros Hs.
  assert (Hl : logout env now authorization w =
               (json 200 (reply_message true "Logout successful"), w)).
  { unfold logout. rewrite (authenticateAdmin_session _ _ _ _ _ Hs). reflexivity. }
  split; [exact Hl|]. rewrite Hl. cbn [snd]. intros t Ht. split; [exact Ht|].
  unfold me. rewrite (authenticateAdmin_session _ _ _ _ _ Ht).
  destruct Ht as (h & c & oid & _ & _ & _ & _ & _ & Hfind & _).
  rewrite <- (find_oid_id _ _ _ Hfind) in Hfind.
  apply (me_profile a w Hfind).
Qed.

End Sessions.

Lemma NoDup_fmap_eq {A B} (f : A -> B) (l : list A) (x y : A) :
  NoDup (f <$> l) -> x ∈ l -> y ∈ l -> f x = f y -> x = y.
Proof.
  induction l as [|a l IH]; cbn; intros Hnd Hx Hy E.
  - apply elem_of_nil in Hx. destruct Hx.
  - apply NoDup_cons in Hnd as [Ha Hnd].
    apply elem_of_cons in Hx as [->|Hx]; apply elem_of_cons in Hy as [->|Hy].
    + reflexivity.
    + destruct Ha. rewrite E. apply list_elem_of_fmap. eauto.
    + destruct Ha. rewrite <- E. apply list_elem_of_fmap. eauto.
    + apply IH; assumption.
Qed.

(** X25. In a store whose accounts pass the schema and have unique keys, a
    login identifier designates at most one account: a username the schema
    accepts has no [@] and an email it accepts has one, so the username of
    one account is never the email of another. *)
Theorem login_identifier_is_unambiguous (l : list Admin) (u : string) (a : Admin) :
  Forall schema_valid l -> unique_keys l ->
  a ∈ l -> (a_username a = u \/ a_email a = u) ->
  designates l u a.
Proof.
  intros Hvalid (_ & Hnu & Hne) Hin Hu. split; [exact Hin|]. split; [exact Hu|].
  intros b Hb Hbu. rewrite Forall_forall in Hvalid.
  pose proof (proj1 (schema_errors_nil _) (Hvalid a Hin)) as (Hau & Hae & _).
  pose proof (proj1 (schema_errors_nil _) (Hvalid b Hb)) as (Hbu' & Hbe & _).
  cbn [hydrate d_username d_email] in *.
  destruct Hu as [Hu|Hu], Hbu as [Hb1|Hb1].
  - apply (NoDup_fmap_eq a_username l); auto. congruence.
  - exfalso. apply (username_is_no_email _ _ Hau Hbe). congruence.
  - exfalso. apply (username_is_no_email _ _ Hbu' Hae). congruence.
  - apply (NoDup_fmap_eq a_email l); auto. congruence.
Qed.

Lemma test_word_star (s : string) :
  Forall (fun c => Re.accepts Re.Word c = true) (chars s) ->
  Re.test (Re.Star (Re.Class Re.Word)) s = true.
Proof.
  induction s as [|c s IH]; cbn; intros H; [reflexivity|].
  apply Forall_cons in H as [Hc H]. cbn in Hc. rewrite Hc. cbn. apply IH. exact H.
Qed.

(** X26. The usernames the schema accepts are exactly the strings of 3 to
    20 characters among letters, digits and underscore. *)
Theorem accepted_usernames (v : string) :
  username_errors v = [] <->
  (3 <= String.length v <= 20)%nat /\
  Forall (fun c => Re.accepts Re.Word c = true) (chars v).
Proof.
  rewrite username_errors_nil. split; intros [Hlen H]; (split; [exact Hlen|]).
  - apply (test_within (fun c => Re.accepts Re.Word c = true)) with (r := Re.username);
      [|apply username_within|exact H].
    intros c. destruct (Re.accepts Re.Word c); [left|right]; congruence.
  - destruct v as [|c v]; [cbn in Hlen; lia|].
    apply Forall_cons in H as [Hc H]. cbn in Hc |- *. rewrite Hc. cbn.
    apply (test_word_star v H).
Qed.

(** ** The account properties on the sample *)

Lemma superadmin_session_valid :
  valid_session (D := Ideal.deps) Sample.env Sample.now
    (Some ("Bearer " +:+ Sample.session)) Staff.world Sample.superadmin.
Proof.
  exists ("Bearer " +:+ Sample.session),
         {| c_id := a_id Sample.superadmin; c_username := "superadmin";
            c_role := "super_admin"; c_iat := 1700000000; c_exp := 1700086400 |},
         (a_id Sample.superadmin).
  split; [reflexivity|]. split; [vm_compute; discriminate|].
  repeat split; vm_compute; reflexivity.
Qed.

Lemma editor_session_valid :
  valid_session (D := Ideal.deps) Sample.env Sample.now
    (Some ("Bearer " +:+ Staff.editor_session)) Staff.world Staff.editor.
Proof.
  exists ("Bearer " +:+ Staff.editor_session),
         {| c_id := a_id Staff.editor; c_username := "editor";
            c_role := "admin"; c_iat := 1700000000; c_exp := 1700086400 |},
         (a_id Staff.editor).
  split; [reflexivity|]. split; [vm_compute; discriminate|].
  repeat split; vm_compute; reflexivity.
Qed.

Lemma staff_keys_free (f : Admin -> Prop) :
  f Sample.superadmin -> f Staff.editor ->
  forall x, x ∈ admins Staff.world -> f x.
Proof.
  intros H1 H2 x Hx. cbn in Hx.
  apply elem_of_cons in Hx as [->|Hx]; [exact H1|].
  apply elem_of_cons in Hx as [->|Hx]; [exact H2|].
  apply elem_of_nil in Hx. destruct Hx.
Qed.

Lemma staff_schema_valid : Forall schema_valid (admins Staff.world).
Proof. repeat constructor; vm_compute; reflexivity. Qed.

Lemma staff_unique_keys : unique_keys (admins Staff.world).
Proof.
  repeat split; apply (bool_decide_unpack _); vm_compute; exact I.
Qed.

(** X13 on the sample: the editor, with a valid session, may not register
    anyone. *)
Lemma register_requires_super_admin_witness :
  valid_session (D := Ideal.deps) Sample.env Sample.now
    (Some ("Bearer " +:+ Staff.editor_session)) Staff.world Staff.editor /\
  a_role Staff.editor <> "super_admin"%string /\
  register (D := Ideal.deps) Sample.env Sample.now "r9" Staff.fresh_id
    (Some ("Bearer " +:+ Staff.editor_session)) [] Staff.newcomer Staff.world
  = (json 403 (reply_message false
                 "Only super admins can create new admin accounts"), Staff.world).
Proof.
  assert (Hr : a_role Staff.editor <> "super_admin"%string) by discriminate.
  split; [exact editor_session_valid|]. split; [exact Hr|].
  exact (register_requires_super_admin (D := Ideal.deps) Sample.env Sample.now
           "r9" Staff.fresh_id (Some ("Bearer " +:+ Staff.editor_session)) []
           Staff.newcomer Staff.world Staff.editor editor_session_valid Hr).
Defined.

(** X14 on the sample: the super admin registers a trainer, who logs in. *)
Lemma register_creates_account_witness :
  valid_session (D := Ideal.deps) Sample.env Sample.now
    (Some ("Bearer " +:+ Sample.session)) Staff.world Sample.superadmin /\
  a_role Sample.superadmin = "super_admin"%string /\
  schema_errors (register_doc Staff.fresh_id Staff.newcomer) = [] /\
  (forall x, x ∈ admins Staff.world ->
     a_id x <> Staff.fresh_id /\
     a_username x <> Js.trim (rb_username Staff.newcomer) /\
     a_email x <> Js.to_lower (Js.trim (rb_email Staff.newcomer))) /\
  Forall schema_valid (admins Staff.world) /\
  ms (Deps := Ideal.deps) (jwt_expires_in Sample.env) = Some 86400000 /\
  exists r w1,
    register (D := Ideal.deps) Sample.env Sample.now "r9" Staff.fresh_id
      (Some ("Bearer " +:+ Sample.session)) [] Staff.newcomer Staff.world
    = (admin_created (hydrate false r), w1) /\
    admins w1 = admins Staff.world ++ [r] /\
    a_username r = Js.trim (rb_username Staff.newcomer) /\
    a_role r = default "admin"%string (rb_role Staff.newcomer) /\
    a_password r = bcrypt_hash (Deps := Ideal.deps) (rb_password Staff.newcomer)
                     (genSalt 12 "r9") /\
    forall now' rnd',
      status (fst (login (D := Ideal.deps) Sample.env now' rnd'
                     (rb_username Staff.newcomer) (rb_password Staff.newcomer) w1))
      = 200.
Proof.
  assert (Hs : schema_errors (register_doc Staff.fresh_id Staff.newcomer) = [])
    by (vm_compute; reflexivity).
  assert (Hf : forall x, x ∈ admins Staff.world ->
     a_id x <> Staff.fresh_id /\
     a_username x <> Js.trim (rb_username Staff.newcomer) /\
     a_email x <> Js.to_lower (Js.trim (rb_email Staff.newcomer))).
  { apply staff_keys_free; repeat split; vm_compute; discriminate. }
  split; [exact superadmin_session_valid|]. split; [reflexivity|].
  split; [exact Hs|]. split; [exact Hf|]. split; [exact staff_schema_valid|].
  split; [reflexivity|].
  exact (register_creates_account (D := Ideal.deps) ideal_laws Sample.env
           Sample.now "r9" Staff.fresh_id (Some ("Bearer " +:+ Sample.session))
           Staff.newcomer Staff.world Sample.superadmin 86400000
           superadmin_session_valid eq_refl Hs Hf staff_schema_valid eq_refl).
Defined.

(** X15 on the sample: an address under .info passes the route and fails
    the schema. *)
Lemma register_schema_rejection_witness :
  valid_session (D := Ideal.deps) Sample.env Sample.now
    (Some ("Bearer " +:+ Sample.session)) Staff.world Sample.superadmin /\
  a_role Sample.superadmin = "super_admin"%string /\
  Admin_findOne_either (admins Staff.world) (rb_username Staff.long_tld)
    (rb_email Staff.long_tld) = None /\
  schema_errors (register_doc Staff.fresh_id Staff.long_tld)
    = [("email", "Please enter a valid email")%string] /\
  register (D := Ideal.deps) Sample.env Sample.now "r9" Staff.fresh_id
    (Some ("Bearer " +:+ Sample.session)) [] Staff.long_tld Staff.world
  = (json 500 (reply_message false "Failed to create admin account"),
     log "Register error:" Staff.world).
Proof.
  assert (Hf : Admin_findOne_either (admins Staff.world) (rb_username Staff.long_tld)
                 (rb_email Staff.long_tld) = None) by (vm_compute; reflexivity).
  assert (Hs : schema_errors (register_doc Staff.fresh_id Staff.long_tld)
               = [("email", "Please enter a valid email")%string])
    by (vm_compute; reflexivity).
  split; [exact superadmin_session_valid|]. split; [reflexivity|].
  split; [exact Hf|]. split; [exact Hs|].
  apply (register_schema_rejection (D := Ideal.deps) Sample.env Sample.now "r9"
           Staff.fresh_id (Some ("Bearer " +:+ Sample.session)) Staff.long_tld
           Staff.world Sample.superadmin superadmin_session_valid eq_refl Hf).
  rewrite Hs. discriminate.
Defined.

(** X16 on the sample. *)
Lemma creation_keeps_keys_unique_witness :
  unique_keys (admins Staff.world) /\
  unique_keys (admins (snd (register (D := Ideal.deps) Sample.env Sample.now "r9"
                              Staff.fresh_id (Some ("Bearer " +:+ Sample.session))
                              [] Staff.newcomer Staff.world))) /\
  unique_keys (admins (snd (create_user (D := Ideal.deps) Sample.now "r9"
                              Staff.fresh_id Staff.intruder Staff.world))).
Proof.
  split; [exact staff_unique_keys|].
  exact (creation_keeps_keys_unique (D := Ideal.deps) Sample.env Sample.now "r9"
           Staff.fresh_id (Some ("Bearer " +:+ Sample.session)) [] Staff.newcomer
           Staff.intruder Staff.world staff_unique_keys).
Defined.

(** X17 on the sample: a stranger makes herself super admin. *)
Lemma create_user_grants_any_role_witness :
  schema_errors (create_user_doc Staff.fresh_id Staff.intruder) = [] /\
  (forall x, x ∈ admins Staff.world ->
     a_id x <> Staff.fresh_id /\
     a_username x <> d_username (create_user_doc Staff.fresh_id Staff.intruder) /\
     a_email x <> d_email (create_user_doc Staff.fresh_id Staff.intruder)) /\
  exists r w1,
    create_user (D := Ideal.deps) Sample.now "r9" Staff.fresh_id Staff.intruder
      Staff.world = (user_created (hydrate false r), w1) /\
    admins w1 = admins Staff.world ++ [r] /\
    a_role r = or_default (cu_role Staff.intruder) "admin" /\
    a_isActive r = true /\
    a_password r = bcrypt_hash (Deps := Ideal.deps)
                     (default EmptyString (cu_password Staff.intruder))
                     (genSalt 12 "r9").
Proof.
  assert (Hs : schema_errors (create_user_doc Staff.fresh_id Staff.intruder) = [])
    by (vm_compute; reflexivity).
  assert (Hf : forall x, x ∈ admins Staff.world ->
     a_id x <> Staff.fresh_id /\
     a_username x <> d_username (create_user_doc Staff.fresh_id Staff.intruder) /\
     a_email x <> d_email (create_user_doc Staff.fresh_id Staff.intruder)).
  { apply staff_keys_free; repeat split; vm_compute; discriminate. }
  split; [exact Hs|]. split; [exact Hf|].
  exact (create_user_grants_any_role (D := Ideal.deps) Sample.now "r9"
           Staff.fresh_id Staff.intruder Staff.world Hs Hf).
Defined.

(** X18 on the sample: the script run twice on an empty database. *)
Lemma setup_is_idempotent_witness :
  fst (setupDatabase (D := Ideal.deps) None Sample.now "r0" Staff.fresh_id
         Staff.empty) = 0 /\
  (exists a, a ∈ admins (snd (setupDatabase (D := Ideal.deps) None Sample.now "r0"
                                Staff.fresh_id Staff.empty)) /\
             a_role a = "super_admin"%string) /\
  fst (setupDatabase (D := Ideal.deps) None (Sample.now + 1) "r1"
         "64b7f3a2c1d4e5f6a7b8c9f1"
         (snd (setupDatabase (D := Ideal.deps) None Sample.now "r0" Staff.fresh_id
                 Staff.empty))) = 0 /\
  admins (snd (setupDatabase (D := Ideal.deps) None (Sample.now + 1) "r1"
                 "64b7f3a2c1d4e5f6a7b8c9f1"
                 (snd (setupDatabase (D := Ideal.deps) None Sample.now "r0"
                         Staff.fresh_id Staff.empty))))
  = admins (snd (setupDatabase (D := Ideal.deps) None Sample.now "r0"
                   Staff.fresh_id Staff.empty)).
Proof.
  assert (H0 : fst (setupDatabase (D := Ideal.deps) None Sample.now "r0"
                      Staff.fresh_id Staff.empty) = 0) by (vm_compute; reflexivity).
  split; [exact H0|].
  exact (setup_is_idempotent (D := Ideal.deps) Sample.now (Sample.now + 1)
           "r0" "r1" Staff.fresh_id "64b7f3a2c1d4e5f6a7b8c9f1" Staff.empty H0).
Defined.

(** X19 on the sample: the script on an empty database, then the login. *)
Lemma setup_then_login_witness :
  Admin_findOne_role (admins Staff.empty) "super_admin" = None /\
  (forall x, x ∈ admins Staff.empty ->
     a_id x <> Staff.fresh_id /\ a_username x <> "superadmin"%string /\
     a_email x <> "naveenp@tangiblelearning.in"%string) /\
  Forall schema_valid (admins Staff.empty) /\
  ms (Deps := Ideal.deps) (jwt_expires_in Sample.env) = Some 86400000 /\
  fst (setupDatabase (D := Ideal.deps) None Sample.now "r0" Staff.fresh_id
         Staff.empty) = 0 /\
  exists token r w2,
    login (D := Ideal.deps) Sample.env (Sample.now + 5000) "r1"
      "superadmin" "admin123456"
      (snd (setupDatabase (D := Ideal.deps) None Sample.now "r0" Staff.fresh_id
              Staff.empty))
    = (login_ok token (saved (Sample.now + 5000)
                         (set_lastLogin (Sample.now + 5000) (hydrate true r))), w2) /\
    a_username r = "superadmin"%string /\ a_role r = "super_admin"%string /\
    a_password r = bcrypt_hash (Deps := Ideal.deps) "admin123456" (genSalt 12 "r0").
Proof.
  assert (Hf : forall x, x ∈ admins Staff.empty ->
     a_id x <> Staff.fresh_id /\ a_username x <> "superadmin"%string /\
     a_email x <> "naveenp@tangiblelearning.in"%string).
  { intros x Hx. apply elem_of_nil in Hx. destruct Hx. }
  assert (Hv : Forall schema_valid (admins Staff.empty)) by constructor.
  split; [reflexivity|]. split; [exact Hf|]. split; [exact Hv|].
  split; [reflexivity|].
  exact (setup_then_login (D := Ideal.deps) ideal_laws Sample.env Sample.now
           (Sample.now + 5000) "r0" "r1" Staff.fresh_id Staff.empty 86400000
           eq_refl Hf Hv eq_refl).
Defined.

(** X20 on the sample: the password of the seeded account is replaced by a
    request that carries no credentials. *)
Lemma reset_password_takes_effect_witness :
  Admin_findOne_username (admins Staff.world) "superadmin" = Some Sample.superadmin /\
  NoDup (a_id <$> admins Staff.world) /\
  schema_valid Sample.superadmin /\
  (6 <= Js.code_units "n3w-passw0rd")%nat /\
  exists a1 w1,
    reset_password (D := Ideal.deps) Sample.now "r9" "superadmin" "n3w-passw0rd"
      Staff.world
    = (json 200 (reply_message true ("Password updated for " +:+ "superadmin")), w1) /\
    Admin_find_oid (admins w1) (a_id Sample.superadmin) = Some a1 /\
    same_but_password Sample.superadmin a1 /\
    a_password a1 = bcrypt_hash (Deps := Ideal.deps) "n3w-passw0rd" (genSalt 12 "r9") /\
    bcrypt_compare (Deps := Ideal.deps) "n3w-passw0rd" (a_password a1) = true /\
    (forall id, id <> a_id Sample.superadmin ->
       Admin_find_oid (admins w1) id = Admin_find_oid (admins Staff.world) id) /\
    contacts w1 = contacts Staff.world /\ console w1 = console Staff.world /\
    outbox w1 = outbox Staff.world.
Proof.
  assert (Hv : schema_valid Sample.superadmin) by (vm_compute; reflexivity).
  assert (Hl : (6 <= Js.code_units "n3w-passw0rd")%nat) by (vm_compute; lia).
  split; [reflexivity|]. split; [exact (proj1 staff_unique_keys)|].
  split; [exact Hv|]. split; [exact Hl|].
  exact (reset_password_takes_effect (D := Ideal.deps) ideal_laws Sample.now "r9"
           "superadmin" "n3w-passw0rd" Staff.world Sample.superadmin eq_refl
           (proj1 staff_unique_keys) Hv Hl).
Defined.

(** X21 on the sample. *)
Lemma reset_password_too_short_witness :
  Admin_findOne_username (admins Staff.world) "superadmin" = Some Sample.superadmin /\
  (String.length "abc" < 6)%nat /\
  reset_password (D := Ideal.deps) Sample.now "r9" "superadmin" "abc" Staff.world
  = (json 500 (reply_message false "Failed to reset password"), Staff.world).
Proof.
  assert (Hl : (String.length "abc" < 6)%nat) by (cbn; lia).
  split; [reflexivity|]. split; [exact Hl|].
  exact (reset_password_too_short (D := Ideal.deps) Sample.now "r9" "superadmin"
           "abc" Staff.world Sample.superadmin eq_refl Hl).
Defined.

(** X22 on the sample: the seeded account logs in under its address,
    written in capitals, and reads its profile a minute later. *)
Lemma login_then_me_witness :
  identifies (admins Staff.world) (Js.trim "NAVEENP@TangibleLearning.IN")
    Sample.superadmin /\
  schema_valid Sample.superadmin /\
  Js.trim "NAVEENP@TangibleLearning.IN" <> EmptyString /\
  "admin123456"%string <> EmptyString /\
  bcrypt_compare (Deps := Ideal.deps) "admin123456" (a_password Sample.superadmin)
    = true /\
  ms (Deps := Ideal.deps) (jwt_expires_in Sample.env) = Some 86400000 /\
  NoDup (a_id <$> admins Staff.world) /\
  castObjectId (Deps := Ideal.deps) (a_id Sample.superadmin)
    = Some (a_id Sample.superadmin) /\
  (forall j, jwt_encode (Deps := Ideal.deps) j <> EmptyString) /\
  exists token,
    let r0 := login (D := Ideal.deps) Sample.env Sample.now "r1"
                "NAVEENP@TangibleLearning.IN" "admin123456" Staff.world in
    status (fst r0) = 200 /\
    field "token" (body (fst r0)) = Some (JStr token) /\
    let r := fst (me (D := Ideal.deps) Sample.env (Sample.now + 60000)
                    (Some ("Bearer " +:+ token)) (snd r0)) in
    snd (me (D := Ideal.deps) Sample.env (Sample.now + 60000)
           (Some ("Bearer " +:+ token)) (snd r0)) = snd r0 /\
    status r = 200 /\
    (field "admin" (body r) ≫= field "username") = Some (JStr "superadmin") /\
    (field "admin" (body r) ≫= field "role") = Some (JStr "super_admin") /\
    (field "admin" (body r) ≫= field "lastLogin") = Some (JDate Sample.now).
Proof.
  assert (Hd : identifies (admins Staff.world)
                 (Js.trim "NAVEENP@TangibleLearning.IN") Sample.superadmin).
  { split; [left|]. split; [reflexivity|].
    split; [right; vm_compute; reflexivity|].
    intros b Hb _ H. apply elem_of_cons in Hb as [->|Hb]; [reflexivity|].
    apply list_elem_of_singleton in Hb. subst b.
    destruct H as [H|H]; vm_compute in H; discriminate. }
  assert (Hv : schema_valid Sample.superadmin) by (vm_compute; reflexivity).
  assert (Hc : bcrypt_compare (Deps := Ideal.deps) "admin123456"
                 (a_password Sample.superadmin) = true)
    by (vm_compute; reflexivity).
  assert (Hu : Js.trim "NAVEENP@TangibleLearning.IN" <> EmptyString)
    by (vm_compute; discriminate).
  assert (Hp : "admin123456"%string <> EmptyString) by discriminate.
  assert (Hn : forall j, jwt_encode (Deps := Ideal.deps) j <> EmptyString)
    by (intros j; discriminate).
  split; [exact Hd|]. split; [exact Hv|]. split; [exact Hu|].
  split; [exact Hp|]. split; [exact Hc|]. split; [reflexivity|].
  split; [exact (proj1 staff_unique_keys)|]. split; [reflexivity|].
  split; [exact Hn|].
  destruct (login_then_me (D := Ideal.deps) ideal_laws Sample.env Sample.now "r1"
              "NAVEENP@TangibleLearning.IN" "admin123456" Staff.world
              Sample.superadmin 86400000
              Hd Hv Hu Hp Hc eq_refl (proj1 staff_unique_keys) eq_refl Hn)
    as (token & Hst & Htok & Hme).
  exists token. split; [exact Hst|]. split; [exact Htok|].
  apply (Hme (Sample.now + 60000)). vm_compute. reflexivity.
Defined.

(** X23 on the sample: the session of the seeded account survives its own
    logout. *)
Lemma logout_keeps_session_witness :
  valid_session (D := Ideal.deps) Sample.env Sample.now
    (Some ("Bearer " +:+ Sample.session)) Staff.world Sample.superadmin /\
  logout (D := Ideal.deps) Sample.env Sample.now
    (Some ("Bearer " +:+ Sample.session)) Staff.world
  = (json 200 (reply_message true "Logout successful"), Staff.world) /\
  status (fst (me (D := Ideal.deps) Sample.env Sample.now
                 (Some ("Bearer " +:+ Sample.session))
                 (snd (logout (D := Ideal.deps) Sample.env Sample.now
                         (Some ("Bearer " +:+ Sample.session)) Staff.world))))
  = 200.
Proof.
  split; [exact superadmin_session_valid|].
  destruct (logout_keeps_session (D := Ideal.deps) Sample.env Sample.now
              (Some ("Bearer " +:+ Sample.session)) Staff.world Sample.superadmin
              superadmin_session_valid) as [Hl Hk].
  split; [exact Hl|].
  exact (proj2 (Hk Sample.now superadmin_session_valid)).
Defined.

(** X25 on the sample: "editor" designates the editor. *)
Lemma login_identifier_is_unambiguous_witness :
  Forall schema_valid (admins Staff.world) /\
  unique_keys (admins Staff.world) /\
  Staff.editor ∈ admins Staff.world /\
  (a_username Staff.editor = "editor"%string \/
   a_email Staff.editor = "editor"%string) /\
  designates (admins Staff.world) "editor" Staff.editor.
Proof.
  assert (Hin : Staff.editor ∈ admins Staff.world) by (right; left).
  split; [exact staff_schema_valid|]. split; [exact staff_unique_keys|].
  split; [exact Hin|]. split; [left; reflexivity|].
  exact (login_identifier_is_unambiguous (admins Staff.world) "editor" Staff.editor
           staff_schema_valid staff_unique_keys Hin (or_introl eq_refl)).
Defined.
